(** * The iCalendar-aware ZonedDateTime wrapper of docs/cookbook/icalendarTimeZones.mjs

    The wrapper class [ZonedDateTime] composes two libraries: the Temporal
    engine of this repository (polyfill/lib/temporal.mjs, of which the type
    declarations are available but not the code) and ical.js.  The wrapper
    is embedded method by method; the engine is modelled from the
    specification, over a host that supplies the time-zone database and the
    calendars; ical.js is an interface.

    Numbers: BigInt and integral Number values are [Z]; every Number the
    wrapper computes with is an integer far below 2^53 for real offsets. *)

From Stdlib Require Import ZArith List String Ascii Bool Lia DecimalString.
Import ListNotations.
Open Scope string_scope.
Open Scope list_scope.
Open Scope Z_scope.

(** ** JavaScript completions: a method returns a value or throws *)

Inductive JsError : Type :=
| TypeError
| RangeError
| Error (message : string).

Inductive Completion (A : Type) : Type :=
| Returns (value : A)
| Throws (e : JsError).

Arguments Returns {A} value.
Arguments Throws {A} e.

Definition bind {A B : Type} (c : Completion A) (k : A -> Completion B) : Completion B :=
  match c with
  | Returns a => k a
  | Throws e => Throws e
  end.

Notation "x <- c ;; k" := (bind c (fun x => k))
  (at level 61, c at next level, right associativity).

(** The error a completion throws, if it throws. *)
Definition thrown {A : Type} (c : Completion A) : option JsError :=
  match c with
  | Returns _ => None
  | Throws e => Some e
  end.

(** ** Identifier strings: the engine compares identifiers ASCII case-insensitively *)

Definition asciiLower (c : ascii) : ascii :=
  let n := nat_of_ascii c in
  if ((65 <=? n) && (n <=? 90))%nat then ascii_of_nat (n + 32) else c.

Fixpoint lower (s : string) : string :=
  match s with
  | EmptyString => EmptyString
  | String c rest => String (asciiLower c) (lower rest)
  end.

(** [String(n)] for an integer n >= 0, and [String(n).padStart(2, '0')]. *)
Definition decimal (n : Z) : string := NilZero.string_of_uint (N.to_uint (Z.to_N n)).

Definition twoDigits (n : Z) : string :=
  let s := decimal n in
  if (String.length s <? 2)%nat then String "0" s else s.

(** * The Temporal engine

    Modelled from the spec: this module stands for polyfill/lib/temporal.mjs
    (Duration, PlainTime, PlainDate, PlainDateTime, ZonedDateTime, the ISO
    calendar and the time-zone lookup), which is missing.  The shapes of
    the values and option bags follow the type declarations; the behaviour
    follows the specification, quoted at the definitions. *)

Module Temporal.

(** ** Constants and ranges *)

Definition nsPerDay : Z := 86400 * 10^9.

(** Modelled from the spec: an Instant is an "integer nanoseconds since
    epoch (range ≈ ±10^8 days)". *)
Definition nsMaxInstant : Z := 10^8 * nsPerDay.

(** Modelled from the spec: "representable range bounded (implementations
    must reject out-of-range construction with a range error)"; both ends
    belong to the range. *)
Definition isValidEpochNanoseconds (e : Z) : bool :=
  (- nsMaxInstant <=? e) && (e <=? nsMaxInstant).

(** Modelled from the spec: the fields of a PlainDateTime "must be
    in-range"; the wall-clock readings are those of the Instants under an
    offset of less than a day. *)
Definition isoDateTimeWithinLimits (localNs : Z) : bool :=
  (- nsMaxInstant - nsPerDay <? localNs) && (localNs <? nsMaxInstant + nsPerDay).

(** ** Option bags, as the type declarations give them *)

(** [ArithmeticOptions.overflow] *)
Inductive Overflow : Type := constrain | reject.

(** [ToInstantOptions.disambiguation]; [rejectAmbiguous] is ['reject']. *)
Inductive Disambiguation : Type :=
| compatible
| earlier
| later
| rejectAmbiguous.

(** [DifferenceOptions.largestUnit] and [smallestUnit]: ['auto'], the
    singular unit names, and the plural spellings that the type
    declarations keep as deprecated.  The engine reads a plural as its
    singular; the guard of the wrapper's [until] compares with the singular
    strings only ("Not currently implemented, for brevity: ... plural forms
    of largestUnit"). *)
Inductive Unit : Type :=
| auto
| unit_year | unit_month | unit_week | unit_day
| unit_hour | unit_minute | unit_second
| unit_millisecond | unit_microsecond | unit_nanosecond
| unit_years | unit_months | unit_weeks | unit_days
| unit_hours | unit_minutes | unit_seconds
| unit_milliseconds | unit_microseconds | unit_nanoseconds.

(** The units of fixed length. *)
Inductive TimeUnit : Type :=
| t_hour | t_minute | t_second | t_millisecond | t_microsecond | t_nanosecond.

(** The unit of fixed length that a unit name stands for, singular or
    plural; a calendar unit and ['auto'] stand for none. *)
Definition timeUnitOf (u : Unit) : option TimeUnit :=
  match u with
  | unit_hour | unit_hours => Some t_hour
  | unit_minute | unit_minutes => Some t_minute
  | unit_second | unit_seconds => Some t_second
  | unit_millisecond | unit_milliseconds => Some t_millisecond
  | unit_microsecond | unit_microseconds => Some t_microsecond
  | unit_nanosecond | unit_nanoseconds => Some t_nanosecond
  | _ => None
  end.

Definition unitNanoseconds (u : TimeUnit) : Z :=
  match u with
  | t_hour => 3600 * 10^9
  | t_minute => 60 * 10^9
  | t_second => 10^9
  | t_millisecond => 10^6
  | t_microsecond => 10^3
  | t_nanosecond => 1
  end.

(** [RoundingMode] *)
Inductive RoundingMode : Type := halfExpand | ceil | trunc | floor.

(** One options bag is handed from method to method as the caller gave it;
    each callee reads the properties it knows.  An absent property is
    [None].  The bag has the properties of [ArithmeticOptions], of
    [ToInstantOptions] and of [DifferenceOptions]; [roundingIncrement] is a
    number of which the engine takes the integer part. *)
Record Options : Type := mkOptionsBag {
  overflow : option Overflow;
  disambiguation : option Disambiguation;
  largestUnit : option Unit;
  smallestUnit : option Unit;
  roundingIncrement : option Z;
  roundingMode : option RoundingMode
}.

(** A bag without rounding options. *)
Definition mkOptions (overflow : option Overflow) (disambiguation : option Disambiguation)
    (largestUnit : option Unit) : Options :=
  mkOptionsBag overflow disambiguation largestUnit None None None.

Definition getOverflow (options : option Options) : Overflow :=
  match options with
  | Some o => match overflow o with Some v => v | None => constrain end
  | None => constrain
  end.

Definition getDisambiguation (options : option Options) : Disambiguation :=
  match options with
  | Some o => match disambiguation o with Some v => v | None => compatible end
  | None => compatible
  end.

(** ** Numbers *)

(** Modelled from the spec: the fields of a Duration are "numeric", and the
    type declarations give them as [number], a double.  A count that the
    engine has worked out exactly is stored as the nearest double, ties
    going to the even mantissa: an integer below 2^53 in magnitude is
    stored as it is, a larger one as a multiple of a power of two. *)
Definition toNumber (n : Z) : Z :=
  let a := Z.abs n in
  if a <? 2^53 then n
  else
    let ulp := 2 ^ (Z.log2 a - 52) in
    let mantissa := a / ulp in
    let rest := a mod ulp in
    let rounded :=
      if 2 * rest <? ulp then mantissa
      else if ulp <? 2 * rest then mantissa + 1
      else if Z.even mantissa then mantissa else mantissa + 1 in
    Z.sgn n * (rounded * ulp).

(** ** Duration *)

(** Modelled from the spec: "10 signed numeric fields (years, months,
    weeks, days, hours, minutes, seconds, milliseconds, microseconds,
    nanoseconds)"; a field left out of a bag is 0.  The fields hold
    integers; what the engine computes goes through [numbers]. *)
Record Duration : Type := mkDuration {
  years : Z; months : Z; weeks : Z; days : Z;
  hours : Z; minutes : Z; seconds : Z;
  milliseconds : Z; microseconds : Z; nanoseconds : Z
}.

(** A duration whose fields were worked out exactly, as it is stored. *)
Definition numbers (d : Duration) : Duration :=
  mkDuration (toNumber (years d)) (toNumber (months d)) (toNumber (weeks d))
             (toNumber (days d)) (toNumber (hours d)) (toNumber (minutes d))
             (toNumber (seconds d)) (toNumber (milliseconds d))
             (toNumber (microseconds d)) (toNumber (nanoseconds d)).

Definition durationFields (d : Duration) : list Z :=
  [years d; months d; weeks d; days d; hours d; minutes d; seconds d;
   milliseconds d; microseconds d; nanoseconds d].

(** Modelled from the spec: "all fields must share the same sign (or be
    zero) — mixed-sign durations are invalid" (Duration, data model). *)
Definition validDuration (d : Duration) : bool :=
  forallb (fun x => 0 <=? x) (durationFields d)
  || forallb (fun x => x <=? 0) (durationFields d).

(** Modelled from the spec: [Temporal.Duration.from(bag)] and the implicit
    conversion of a duration bag; construction of a mixed-sign duration fails. *)
Definition Duration_from (bag : Duration) : Completion Duration :=
  if validDuration bag then Returns bag else Throws RangeError.

(** Modelled from the spec: the "time-unit part (hours..nanoseconds)" of a
    duration, as the nanosecond count it shifts by. *)
Definition timeNanoseconds (d : Duration) : Z :=
  hours d * (3600 * 10^9) + minutes d * (60 * 10^9) + seconds d * 10^9
  + milliseconds d * 10^6 + microseconds d * 10^3 + nanoseconds d.

(** ** The proleptic Gregorian (ISO 8601) date arithmetic *)

(** Modelled from the spec: the ISO 8601 calendar "given a date, produces
    fields": the day count from 1970-01-01 to (year, month, day) of the
    proleptic Gregorian calendar, by whole 400-year cycles. *)
Definition civil_from_days (z : Z) : Z * Z * Z :=
  let z := z + 719468 in
  let era := z / 146097 in
  let doe := z - era * 146097 in
  let yoe := (doe - doe / 1460 + doe / 36524 - doe / 146096) / 365 in
  let y := yoe + era * 400 in
  let doy := doe - (365 * yoe + yoe / 4 - yoe / 100) in
  let mp := (5 * doy + 2) / 153 in
  let d := doy - (153 * mp + 2) / 5 + 1 in
  let m := if mp <? 10 then mp + 3 else mp - 9 in
  (if m <=? 2 then y + 1 else y, m, d).

(** Modelled from the spec: the ISO 8601 calendar "given date fields,
    produces day counts": (year, month, day) to the day count from
    1970-01-01. *)
Definition days_from_civil (y m d : Z) : Z :=
  let y := if m <=? 2 then y - 1 else y in
  let era := y / 400 in
  let yoe := y - era * 400 in
  let mp := (m + 9) mod 12 in
  let doy := (153 * mp + 2) / 5 + d - 1 in
  let doe := yoe * 365 + yoe / 4 - yoe / 100 + doy in
  era * 146097 + doe - 719468.

(** Modelled from the spec: the calendar's "leap years, days-in-month". *)
Definition isLeapYear (y : Z) : bool :=
  (y mod 4 =? 0) && (negb (y mod 100 =? 0) || (y mod 400 =? 0)).

(** Modelled from the spec: [daysInMonth] of the ISO 8601 calendar. *)
Definition isoDaysInMonth (y m : Z) : Z :=
  if m =? 2 then (if isLeapYear y then 29 else 28)
  else if (m =? 4) || (m =? 6) || (m =? 9) || (m =? 11) then 30
  else 31.

(** ** Calendars: a pluggable capability *)

(** Modelled from the spec: the "field decomposition
    (year/month/monthCode/day/era/eraYear)"; an absent era is [None]. *)
Record CalendarFields : Type := mkCalendarFields {
  era : option string;
  eraYear : option Z;
  year : Z;
  month : Z;
  monthCode : string;
  day : Z
}.

(** Modelled from the spec: a calendar supplies "field decomposition
    (year/month/monthCode/day/era/eraYear)" of a date and "date arithmetic
    (dateAdd)" with an overflow policy.  A date is its epoch day number; the
    calendar adds years and months, the engine adds weeks and days. *)
Record CalendarImpl : Type := mkCalendarImpl {
  cal_fields : Z -> CalendarFields;
  cal_addMonths : Z -> Z -> Z -> Overflow -> Completion Z
}.

(** Modelled from the spec: the fields of a date in the ISO 8601 calendar,
    which has no eras; the month code of month 9 is "M09". *)
Definition iso_fields (epochDay : Z) : CalendarFields :=
  let '(y, m, d) := civil_from_days epochDay in
  {| era := None; eraYear := None; year := y; month := m;
     monthCode := String "M" (twoDigits m); day := d |}.

(** Modelled from the spec: dateAdd "with its own overflow policy
    (constrain clamps day to month length; reject raises)". *)
Definition iso_addMonths (epochDay addYears addMonths : Z) (ov : Overflow) : Completion Z :=
  let '(y, m, d) := civil_from_days epochDay in
  let ym := (y + addYears) * 12 + (m - 1) + addMonths in
  let y' := ym / 12 in
  let m' := ym mod 12 + 1 in
  let dim := isoDaysInMonth y' m' in
  if d <=? dim then Returns (days_from_civil y' m' d)
  else match ov with
       | constrain => Returns (days_from_civil y' m' dim)
       | reject => Throws RangeError
       end.

(** Modelled from the spec: the calendar of identity [iso8601]. *)
Definition iso8601 : CalendarImpl :=
  {| cal_fields := iso_fields; cal_addMonths := iso_addMonths |}.

(** ** Time zones known to the engine: rule tables *)

(** Modelled from the spec: a time zone is a "pure function of its rule
    table"; for an IANA zone the table is "the transition history".  Offsets
    are in nanoseconds; [transitions] lists, in ascending order, the
    instants at which the offset changes and the offset from then on. *)
Record ZoneRules : Type := mkZoneRules {
  initialOffset : Z;
  transitions : list (Z * Z)
}.

Fixpoint offsetAfter (ts : list (Z * Z)) (current e : Z) : Z :=
  match ts with
  | [] => current
  | (t, off) :: rest => if t <=? e then offsetAfter rest off e else current
  end.

(** Modelled from the spec: "Instant → offset: pure lookup/computation over
    the rule table valid at that instant". *)
Definition getOffsetNanosecondsFor (rules : ZoneRules) (e : Z) : Z :=
  offsetAfter (transitions rules) (initialOffset rules) e.

Fixpoint insertSorted (x : Z) (l : list Z) : list Z :=
  match l with
  | [] => [x]
  | y :: rest => if x <=? y then x :: l else y :: insertSorted x rest
  end.

Definition sortInstants (l : list Z) : list Z := fold_right insertSorted [] l.

Definition candidateOffsets (rules : ZoneRules) : list Z :=
  nodup Z.eq_dec (initialOffset rules :: map snd (transitions rules)).

(** Modelled from the spec: "Wall-clock fields → Instant(s): compute the
    UTC-assuming instant, then check candidate offsets ...; returns 0
    instants if the wall-clock time falls in a DST spring-forward gap, 1 for
    an unambiguous time, 2 for a fall-back overlap".  Every offset of the
    table is a candidate; the instants come out in ascending order. *)
Definition getPossibleInstantsFor (rules : ZoneRules) (localNs : Z) : list Z :=
  sortInstants
    (filter (fun e => getOffsetNanosecondsFor rules e =? localNs - e)
            (map (fun off => localNs - off) (candidateOffsets rules))).

(** Modelled from the spec: "Disambiguation policy (compatible, earlier,
    later, reject) resolves 0-or-2-result cases to exactly one Instant, or
    raises on reject"; [compatible] is "equivalent to 'earlier' for backward
    transitions" (an overlap) "and 'later' for forward transitions" (a gap),
    as ToInstantOptions in the type declarations has it.  In a gap the
    reading is moved by the width of the gap before it is resolved. *)
Definition disambiguatePossibleInstants (rules : ZoneRules) (localNs : Z)
    (d : Disambiguation) : Completion Z :=
  match getPossibleInstantsFor rules localNs with
  | [e] => Returns e
  | e :: rest =>
      match d with
      | compatible | earlier => Returns e
      | later => Returns (last rest e)
      | rejectAmbiguous => Throws RangeError
      end
  | [] =>
      let before := getOffsetNanosecondsFor rules (localNs - nsPerDay) in
      let after := getOffsetNanosecondsFor rules (localNs + nsPerDay) in
      let shift := after - before in
      match d with
      | rejectAmbiguous => Throws RangeError
      | earlier =>
          match getPossibleInstantsFor rules (localNs - shift) with
          | [] => Throws RangeError
          | e :: _ => Returns e
          end
      | compatible | later =>
          match getPossibleInstantsFor rules (localNs + shift) with
          | [] => Throws RangeError
          | e :: rest => Returns (last rest e)
          end
      end
  end.

(** Modelled from the spec: UTC, the zone of offset 0. *)
Definition utcRules : ZoneRules := {| initialOffset := 0; transitions := [] |}.

(** ** The engine's values *)

(** Modelled from the spec: a PlainTime is a "field tuple" of the six time
    fields, each in range. *)
Record PlainTimeSlots : Type := mkPlainTime {
  pt_hour : Z; pt_minute : Z; pt_second : Z;
  pt_millisecond : Z; pt_microsecond : Z; pt_nanosecond : Z
}.

(** Modelled from the spec: a PlainDateTime is a "calendar-bound,
    timezone-free wall-clock value": the position on the local time line
    (nanoseconds from 1970-01-01T00:00 read as if no offset applied) and
    the calendar that decomposes its date. *)
Record PlainDateTimeSlots : Type := mkPlainDateTime {
  pdt_localNs : Z;
  pdt_calendarId : string;
  pdt_calendar : CalendarImpl
}.

(** Modelled from the spec: a PlainDate, the date of a wall-clock value. *)
Record PlainDateSlots : Type := mkPlainDate {
  pd_epochDay : Z;
  pd_calendarId : string;
  pd_calendar : CalendarImpl
}.

(** Modelled from the spec: an Instant, an "exact point on the time
    continuum". *)
Record InstantSlots : Type := mkInstant { inst_epochNanoseconds : Z }.

(** Modelled from the spec: a ZonedDateTime "owns an Instant, a reference
    to a TimeZone, and a reference to a Calendar". *)
Record ZonedDateTimeSlots : Type := mkZonedDateTime {
  zdt_epochNanoseconds : Z;
  zdt_timeZoneId : string;
  zdt_rules : ZoneRules;
  zdt_calendarId : string;
  zdt_calendar : CalendarImpl
}.

(** ** The host: what is supplied to the engine, and what is left open

    The IANA rule tables, the calendars other than ISO 8601, the formatting
    layer (string output is outside the specification), the three
    engine methods whose algorithms no property here reads: [with],
    [round] and [getTimeZoneTransition], and the differences that [until]
    rounds or counts in calendar units. *)
Class Host : Type := {
  tzdb : list (string * ZoneRules);
  calendars : list (string * CalendarImpl);
  ToStringOptions : Type;
  Locales : Type;
  FormatOptions : Type;
  host_toString : ZonedDateTimeSlots -> option ToStringOptions -> Completion string;
  host_toLocaleString :
    ZonedDateTimeSlots -> option Locales -> option FormatOptions -> Completion string;
  ZonedDateTimeLike : Type;
  RoundOptions : Type;
  Direction : Type;
  host_with :
    ZonedDateTimeSlots -> ZonedDateTimeLike -> option Options -> Completion ZonedDateTimeSlots;
  host_round : ZonedDateTimeSlots -> RoundOptions -> Completion ZonedDateTimeSlots;
  host_getTimeZoneTransition :
    ZonedDateTimeSlots -> Direction -> Completion (option ZonedDateTimeSlots);
  host_until :
    ZonedDateTimeSlots -> ZonedDateTimeSlots -> option Options -> Completion Duration
}.

Section Engine.
Context {host : Host}.

(** Modelled from the spec: the engine is handed a time zone as an
    identifier string, which names "UTC" or an entry of the IANA table
    ("IANA-named"); any other string is no time zone of the engine, which is
    why the wrapper's constructor hands it 'UTC' for a zone that [Intl] does
    not list. *)
Definition lookupTimeZone (id : string) : option (string * ZoneRules) :=
  if String.eqb (lower id) "utc" then Some ("UTC", utcRules)
  else find (fun entry => String.eqb (lower (fst entry)) (lower id)) tzdb.

(** Modelled from the spec: calendars are "polymorphic over identity
    {iso8601, gregory, era-based calendars, custom}"; the identifier is
    canonicalised to lower case. *)
Definition lookupCalendar (id : string) : option (string * CalendarImpl) :=
  if String.eqb (lower id) "iso8601" then Some ("iso8601", iso8601)
  else match find (fun entry => String.eqb (lower (fst entry)) (lower id)) calendars with
       | Some entry => Some (lower id, snd entry)
       | None => None
       end.

End Engine.

Module PlainTime.
Definition t : Type := PlainTimeSlots.

(** [Temporal.PlainTime.from('00:00')] *)
Definition from_0000 : t := mkPlainTime 0 0 0 0 0 0.

Definition nanosecondOfDay (time : t) : Z :=
  pt_hour time * (3600 * 10^9) + pt_minute time * (60 * 10^9)
  + pt_second time * 10^9 + pt_millisecond time * 10^6
  + pt_microsecond time * 10^3 + pt_nanosecond time.
End PlainTime.

Module PlainDate.
Definition t : Type := PlainDateSlots.
End PlainDate.

Module Instant.
Definition t : Type := InstantSlots.

(** Modelled from the spec: an Instant is "integer nanoseconds since
    epoch"; [fromEpochMilliseconds] of the type declarations builds it from
    a count of milliseconds. *)
Definition fromEpochMilliseconds (epochMilliseconds : Z) : t :=
  mkInstant (epochMilliseconds * 10^6).
End Instant.

Module PlainDateTime.
Section Methods.
Context {host : Host}.

Definition t : Type := PlainDateTimeSlots.

(** Modelled from the spec: the date of a wall-clock value as a day count,
    and its time within the day. *)
Definition epochDay (pdt : t) : Z := pdt_localNs pdt / nsPerDay.
Definition nanosecondOfDay (pdt : t) : Z := pdt_localNs pdt mod nsPerDay.

Definition calendarId (pdt : t) : string := pdt_calendarId pdt.

(** Modelled from the spec: the field getters of the type declarations;
    the date fields come from the calendar's decomposition, the time fields
    from the time within the day. *)
Definition era (pdt : t) : option string := Temporal.era (cal_fields (pdt_calendar pdt) (epochDay pdt)).
Definition eraYear (pdt : t) : option Z := Temporal.eraYear (cal_fields (pdt_calendar pdt) (epochDay pdt)).
Definition year (pdt : t) : Z := Temporal.year (cal_fields (pdt_calendar pdt) (epochDay pdt)).
Definition month (pdt : t) : Z := Temporal.month (cal_fields (pdt_calendar pdt) (epochDay pdt)).
Definition monthCode (pdt : t) : string := Temporal.monthCode (cal_fields (pdt_calendar pdt) (epochDay pdt)).
Definition day (pdt : t) : Z := Temporal.day (cal_fields (pdt_calendar pdt) (epochDay pdt)).
Definition hour (pdt : t) : Z := nanosecondOfDay pdt / (3600 * 10^9).
Definition minute (pdt : t) : Z := (nanosecondOfDay pdt / (60 * 10^9)) mod 60.
Definition second (pdt : t) : Z := (nanosecondOfDay pdt / 10^9) mod 60.
Definition millisecond (pdt : t) : Z := (nanosecondOfDay pdt / 10^6) mod 1000.
Definition microsecond (pdt : t) : Z := (nanosecondOfDay pdt / 10^3) mod 1000.
Definition nanosecond (pdt : t) : Z := nanosecondOfDay pdt mod 1000.

(** Modelled from the spec: [dayOfWeek] of the type declarations, the day
    of the ISO week, Monday = 1; the epoch day 0 was a Thursday. *)
Definition dayOfWeek (pdt : t) : Z := (epochDay pdt + 3) mod 7 + 1.

(** Modelled from the spec: the date part and the time part of the value. *)
Definition toPlainDate (pdt : t) : PlainDate.t :=
  {| pd_epochDay := epochDay pdt;
     pd_calendarId := pdt_calendarId pdt;
     pd_calendar := pdt_calendar pdt |}.

Definition toPlainTime (pdt : t) : PlainTime.t :=
  mkPlainTime (hour pdt) (minute pdt) (second pdt)
              (millisecond pdt) (microsecond pdt) (nanosecond pdt).

(** Modelled from the spec: same date, the given wall-clock time. *)
Definition withPlainTime (pdt : t) (time : PlainTime.t) : t :=
  {| pdt_localNs := epochDay pdt * nsPerDay + PlainTime.nanosecondOfDay time;
     pdt_calendarId := pdt_calendarId pdt;
     pdt_calendar := pdt_calendar pdt |}.

(** Modelled from the spec: PlainDateTime arithmetic.  Years and months
    go through the calendar's dateAdd under the overflow policy (a zero
    year-and-month part leaves the date alone), weeks and days are day
    counts, the time units are an exact shift on the local time line; the
    result must be representable. *)
Definition add (pdt : t) (bag : Duration) (options : option Options) : Completion t :=
  d <- Duration_from bag ;;
  day1 <- (if (years d =? 0) && (months d =? 0) then Returns (epochDay pdt)
           else cal_addMonths (pdt_calendar pdt) (epochDay pdt) (years d) (months d)
                              (getOverflow options)) ;;
  let localNs := (day1 + 7 * weeks d + days d) * nsPerDay
                 + nanosecondOfDay pdt + timeNanoseconds d in
  if isoDateTimeWithinLimits localNs
  then Returns {| pdt_localNs := localNs;
                  pdt_calendarId := pdt_calendarId pdt;
                  pdt_calendar := pdt_calendar pdt |}
  else Throws RangeError.

(** Modelled from the spec: wall-clock fields to one Instant of a named
    time zone under the disambiguation policy (default [compatible]); an
    identifier the engine does not know, or an Instant out of range, is a
    range error. *)
Definition toZonedDateTime (pdt : t) (timeZone : string) (options : option Options)
    : Completion ZonedDateTimeSlots :=
  match lookupTimeZone timeZone with
  | None => Throws RangeError
  | Some (tzid, rules) =>
      e <- disambiguatePossibleInstants rules (pdt_localNs pdt) (getDisambiguation options) ;;
      if isValidEpochNanoseconds e
      then Returns {| zdt_epochNanoseconds := e;
                      zdt_timeZoneId := tzid;
                      zdt_rules := rules;
                      zdt_calendarId := pdt_calendarId pdt;
                      zdt_calendar := pdt_calendar pdt |}
      else Throws RangeError
  end.

End Methods.
End PlainDateTime.

Module ZonedDateTime.
Section Methods.
Context {host : Host}.

Definition t : Type := ZonedDateTimeSlots.

(** Modelled from the spec: "constructed from (epoch-nanoseconds,
    timezone, calendar)"; out-of-range construction raises a range error,
    and so does an unknown time zone or calendar identifier. *)
Definition new (epochNs : Z) (timeZone calendar : string) : Completion t :=
  if negb (isValidEpochNanoseconds epochNs) then Throws RangeError
  else match lookupTimeZone timeZone with
       | None => Throws RangeError
       | Some (tzid, rules) =>
           match lookupCalendar calendar with
           | None => Throws RangeError
           | Some (calid, cal) =>
               Returns {| zdt_epochNanoseconds := epochNs;
                          zdt_timeZoneId := tzid;
                          zdt_rules := rules;
                          zdt_calendarId := calid;
                          zdt_calendar := cal |}
           end
       end.

(** Modelled from the spec: the getters of the type declarations; the
    millisecond count is the floor of the nanosecond count. *)
Definition epochNanoseconds (z : t) : Z := zdt_epochNanoseconds z.
Definition epochMilliseconds (z : t) : Z := zdt_epochNanoseconds z / 10^6.
Definition calendarId (z : t) : string := zdt_calendarId z.

(** Modelled from the spec: "the exact instant is always the source of
    truth". *)
Definition toInstant (z : t) : InstantSlots :=
  {| inst_epochNanoseconds := zdt_epochNanoseconds z |}.

(** Modelled from the spec: "Offset consistency: z.offsetNanoseconds ==
    z.timeZone.getOffsetNanosecondsFor(z.toInstant()) always". *)
Definition offsetNanoseconds (z : t) : Z :=
  getOffsetNanosecondsFor (zdt_rules z) (zdt_epochNanoseconds z).

(** Modelled from the spec: wall-clock fields are derived "via
    TimeZone.getOffsetFor(Instant) then Calendar field decomposition". *)
Definition toPlainDateTime (z : t) : PlainDateTime.t :=
  {| pdt_localNs := zdt_epochNanoseconds z + offsetNanoseconds z;
     pdt_calendarId := zdt_calendarId z;
     pdt_calendar := zdt_calendar z |}.

Definition calendarPart (d : Duration) : Duration :=
  mkDuration (years d) (months d) (weeks d) (days d) 0 0 0 0 0 0.

Definition hasNoCalendarUnits (d : Duration) : bool :=
  (years d =? 0) && (months d =? 0) && (weeks d =? 0) && (days d =? 0).

(** Modelled from the spec: an exact shift on the time line; the result
    must be an Instant in range. *)
Definition addInstant (e ns : Z) : Completion Z :=
  if isValidEpochNanoseconds (e + ns) then Returns (e + ns) else Throws RangeError.

(** Modelled from the spec: "split duration into calendar-unit part and
    time-unit part.  Apply calendar-unit part via PlainDateTime arithmetic
    anchored at the current wall-clock fields, producing an intermediate
    ZonedDateTime using compatible disambiguation, then apply the
    time-unit part as an exact Instant shift"; arithmetic "operates
    directly on the Instant for sub-day units", so a duration without
    calendar units starts from the instant itself. *)
Definition add (z : t) (duration : Duration) (options : option Options) : Completion t :=
  d <- Duration_from duration ;;
  intermediate <-
    (if hasNoCalendarUnits d then Returns (zdt_epochNanoseconds z)
     else
       pdt <- PlainDateTime.add (toPlainDateTime z) (calendarPart d) options ;;
       e <- disambiguatePossibleInstants (zdt_rules z) (pdt_localNs pdt) compatible ;;
       if isValidEpochNanoseconds e then Returns e else Throws RangeError) ;;
  e <- addInstant intermediate (timeNanoseconds d) ;;
  Returns {| zdt_epochNanoseconds := e;
             zdt_timeZoneId := zdt_timeZoneId z;
             zdt_rules := zdt_rules z;
             zdt_calendarId := zdt_calendarId z;
             zdt_calendar := zdt_calendar z |}.

Definition unitRank (u : TimeUnit) : Z :=
  match u with
  | t_hour => 5 | t_minute => 4 | t_second => 3
  | t_millisecond => 2 | t_microsecond => 1 | t_nanosecond => 0
  end.

(** Modelled from the spec: a Duration "bounded to time units with
    configurable largest-unit": a nanosecond count spread over the time
    units up to [largest], each quotient truncated towards zero so that
    all fields share the sign of the count. *)
Definition balanceTime (ns : Z) (largest : TimeUnit) : Duration :=
  let r := unitRank largest in
  let h := if 5 <=? r then Z.quot ns (3600 * 10^9) else 0 in
  let ns := ns - h * (3600 * 10^9) in
  let mi := if 4 <=? r then Z.quot ns (60 * 10^9) else 0 in
  let ns := ns - mi * (60 * 10^9) in
  let s := if 3 <=? r then Z.quot ns (10^9) else 0 in
  let ns := ns - s * 10^9 in
  let ms := if 2 <=? r then Z.quot ns (10^6) else 0 in
  let ns := ns - ms * 10^6 in
  let us := if 1 <=? r then Z.quot ns (10^3) else 0 in
  let ns := ns - us * 10^3 in
  mkDuration 0 0 0 0 h mi s ms us ns.

(** The largest unit of a difference that is neither rounded nor counted
    in calendar units: [largestUnit], where ['auto'] and an absent one are
    the hour; none when the bag asks for rounding ([smallestUnit] or
    [roundingIncrement]) or for a calendar unit. *)
Definition differenceUnit (options : option Options) : option TimeUnit :=
  match options with
  | None => Some t_hour
  | Some o =>
      match smallestUnit o, roundingIncrement o with
      | None, None =>
          match largestUnit o with
          | None | Some auto => Some t_hour
          | Some u => timeUnitOf u
          end
      | _, _ => None
      end
  end.

(** Modelled from the spec: [until] is the "exact-Instant difference when
    largestUnit ≤ hour": the count of nanoseconds from the one instant to
    the other, spread over the time units up to the largest unit, each
    field stored as a number.  A difference that is rounded, or counted in
    calendar units ("calendar-aware difference ... for larger units"), is
    the host's. *)
Definition until (z other : t) (options : option Options) : Completion Duration :=
  match differenceUnit options with
  | Some largest =>
      Returns (numbers (balanceTime (zdt_epochNanoseconds other - zdt_epochNanoseconds z)
                                    largest))
  | None => host_until z other options
  end.

(** Modelled from the spec: equality compares "not just Instant but
    TimeZone+Calendar identity ... (identifier string equality)". *)
Definition equals (z other : t) : bool :=
  (zdt_epochNanoseconds z =? zdt_epochNanoseconds other)
  && String.eqb (zdt_timeZoneId z) (zdt_timeZoneId other)
  && String.eqb (zdt_calendarId z) (zdt_calendarId other).

(** Modelled from the spec: "Comparison is exact integer comparison of the
    nanosecond value". *)
Definition compare (one two : t) : Z :=
  match zdt_epochNanoseconds one ?= zdt_epochNanoseconds two with
  | Lt => -1
  | Eq => 0
  | Gt => 1
  end.

(** [with], [round], [getTimeZoneTransition] and the two string methods
    are the host's. *)
Definition with_ (z : t) (zonedDateTimeLike : ZonedDateTimeLike) (options : option Options)
    : Completion t :=
  host_with z zonedDateTimeLike options.

Definition round (z : t) (options : RoundOptions) : Completion t := host_round z options.

Definition getTimeZoneTransition (z : t) (direction : Direction) : Completion (option t) :=
  host_getTimeZoneTransition z direction.

Definition toString (z : t) (options : option ToStringOptions) : Completion string :=
  host_toString z options.

Definition toLocaleString (z : t) (locales : option Locales)
    (options : option FormatOptions) : Completion string :=
  host_toLocaleString z locales options.

End Methods.
End ZonedDateTime.

End Temporal.

(** [Intl.supportedValuesOf('timeZone')]: the names of the host's IANA table. *)
Module Intl.
Definition supportedValuesOf_timeZone {host : Temporal.Host} : list string :=
  map fst Temporal.tzdb.
End Intl.

(** * ical.js: the interface the wrapper uses

    [ICAL.Timezone] objects carry a [tzid] and answer [utcOffset(time)] in
    seconds; [ICAL.Time] values are built from Unix seconds or from a
    property bag and convert between zones. *)

Module ICAL.
Class Library : Type := {
  Time : Type;
  Timezone : Type;
  tzid : Timezone -> string;
  utcOffset : Timezone -> Time -> Z;
  (** [const t = new ICAL.Time(); t.fromUnixTime(seconds)] *)
  fromUnixTime : Z -> Time;
  convertToZone : Time -> Timezone -> Time;
  (** [new ICAL.Time(pdt, timeZone)] *)
  Time_new : Temporal.PlainDateTime.t -> Timezone -> Time;
  toUnixTime : Time -> Z
}.
End ICAL.

(** * The wrapper class *)

Module ZonedDateTime.
Section Class.
Context {host : Temporal.Host} {ical : ICAL.Library}.

Import Temporal.

(** The private slots [#impl], [#timeZone], [#isIANA]. *)
Record Private : Type := mkPrivate {
  p_impl : Temporal.ZonedDateTime.t;
  p_timeZone : ICAL.Timezone;
  p_isIANA : bool
}.

(** An instance: the private slots and the public property-bag properties. *)
Record t : Type := mkZonedDateTime {
  private : Private;
  era : option string;
  eraYear : option Z;
  year : Z;
  month : Z;
  monthCode : string;
  day : Z;
  hour : Z;
  minute : Z;
  second : Z;
  millisecond : Z;
  microsecond : Z;
  nanosecond : Z;
  calendar : string;
  timeZone : option string
}.

Definition notImplemented : JsError := Error "not implemented".

(** [get offsetNanoseconds()]; it reads private slots only, and the
    constructor runs it before the public properties are assigned. *)
Definition offsetNanoseconds_ (this : Private) : Z :=
  if p_isIANA this then Temporal.ZonedDateTime.offsetNanoseconds (p_impl this)
  else
    let epochSeconds := Temporal.ZonedDateTime.epochMilliseconds (p_impl this) / 1000 in
    let utcTime := ICAL.fromUnixTime epochSeconds in
    let time := ICAL.convertToZone utcTime (p_timeZone this) in
    let offsetSeconds := ICAL.utcOffset (p_timeZone this) time in
    offsetSeconds * 10^9.

Definition nanosecondsBag (n : Z) : Duration := mkDuration 0 0 0 0 0 0 0 0 0 n.

(** [toPlainDateTime()] *)
Definition toPlainDateTime_ (this : Private) : Completion Temporal.PlainDateTime.t :=
  if p_isIANA this then Returns (Temporal.ZonedDateTime.toPlainDateTime (p_impl this))
  else Temporal.PlainDateTime.add
         (Temporal.ZonedDateTime.toPlainDateTime (p_impl this))
         (nanosecondsBag (offsetNanoseconds_ this)) None.

(** [constructor(epochNs, timeZone, calendar = 'iso8601')] *)
Definition new (epochNs : Z) (timeZone : ICAL.Timezone) (calendar : option string)
    : Completion t :=
  let calendar := match calendar with Some c => c | None => "iso8601" end in
  let isIANA := existsb (String.eqb (ICAL.tzid timeZone)) Intl.supportedValuesOf_timeZone in
  impl <- Temporal.ZonedDateTime.new epochNs
            (if isIANA then ICAL.tzid timeZone else "UTC") calendar ;;
  let this := {| p_impl := impl; p_timeZone := timeZone; p_isIANA := isIANA |} in
  pdt <- toPlainDateTime_ this ;;
  Returns {| private := this;
             timeZone := if isIANA then Some (ICAL.tzid timeZone) else None;
             calendar := calendar;
             era := Temporal.PlainDateTime.era pdt;
             eraYear := Temporal.PlainDateTime.eraYear pdt;
             year := Temporal.PlainDateTime.year pdt;
             month := Temporal.PlainDateTime.month pdt;
             monthCode := Temporal.PlainDateTime.monthCode pdt;
             day := Temporal.PlainDateTime.day pdt;
             hour := Temporal.PlainDateTime.hour pdt;
             minute := Temporal.PlainDateTime.minute pdt;
             second := Temporal.PlainDateTime.second pdt;
             millisecond := Temporal.PlainDateTime.millisecond pdt;
             microsecond := Temporal.PlainDateTime.microsecond pdt;
             nanosecond := Temporal.PlainDateTime.nanosecond pdt |}.

Definition impl (this : t) : Temporal.ZonedDateTime.t := p_impl (private this).
Definition isIANA (this : t) : bool := p_isIANA (private this).

Definition toPlainDateTime (this : t) : Completion Temporal.PlainDateTime.t :=
  toPlainDateTime_ (private this).

Definition offsetNanoseconds (this : t) : Z := offsetNanoseconds_ (private this).

Definition epochMilliseconds (this : t) : Z :=
  Temporal.ZonedDateTime.epochMilliseconds (impl this).

Definition epochNanoseconds (this : t) : Z :=
  Temporal.ZonedDateTime.epochNanoseconds (impl this).

(** [static compare(a, b)] *)
Definition compare (a b : t) : Z := Temporal.ZonedDateTime.compare (impl a) (impl b).

(** [get dayOfWeek()] *)
Definition dayOfWeek (this : t) : Completion Z :=
  pdt <- toPlainDateTime this ;;
  Returns (Temporal.PlainDateTime.dayOfWeek pdt).

(** [#isoDateTimePartString(n)] *)
Definition isoDateTimePartString (n : Z) : string := twoDigits n.

(** [get offset()] *)
Definition offset (this : t) : string :=
  let offsetNs := offsetNanoseconds this in
  let sign := if offsetNs <? 0 then "-" else "+" in
  let absoluteNs := Z.abs offsetNs in
  let hour := absoluteNs / (3600 * 10^9) in
  let minute := (absoluteNs / (60 * 10^9)) mod 60 in
  let second := (absoluteNs / 10^9) mod 60 in
  let result :=
    append sign (append (isoDateTimePartString hour)
                        (append ":" (isoDateTimePartString minute))) in
  if second =? 0 then result
  else append result (append ":" (isoDateTimePartString second)).

(** [static from(item)] *)
Definition from (item : t) : Completion t :=
  new (Temporal.ZonedDateTime.epochNanoseconds (impl item))
      (p_timeZone (private item))
      (Some (Temporal.ZonedDateTime.calendarId (impl item))).

(** [static fromInstant(instant, timeZone, calendar = 'iso8601')] *)
Definition fromInstant (instant : InstantSlots) (timeZone : ICAL.Timezone)
    (calendar : option string) : Completion t :=
  new (inst_epochNanoseconds instant) timeZone calendar.

(** [static fromPlainDateTime(pdt, timeZone, options)]; a string is truthy
    when it is not empty. *)
Definition fromPlainDateTime (pdt : Temporal.PlainDateTime.t) (timeZone : ICAL.Timezone)
    (options : option Options) : Completion t :=
  if negb (String.eqb (ICAL.tzid timeZone) "") then
    temporalZDT <- Temporal.PlainDateTime.toZonedDateTime pdt (ICAL.tzid timeZone) options ;;
    new (Temporal.ZonedDateTime.epochNanoseconds temporalZDT) timeZone
        (Some (Temporal.PlainDateTime.calendarId pdt))
  else
    let icalTime := ICAL.Time_new pdt timeZone in
    let epochSeconds := ICAL.toUnixTime icalTime in
    let epochNanoseconds :=
      epochSeconds * 1000000000
      + (Temporal.PlainDateTime.millisecond pdt * 10^6
         + Temporal.PlainDateTime.microsecond pdt * 10^3
         + Temporal.PlainDateTime.nanosecond pdt) in
    new epochNanoseconds timeZone (Some (Temporal.PlainDateTime.calendarId pdt)).

(** [withPlainTime(time)] *)
Definition withPlainTime (this : t) (time : Temporal.PlainTime.t) : Completion t :=
  pdt <- toPlainDateTime this ;;
  fromPlainDateTime (Temporal.PlainDateTime.withPlainTime pdt time)
                    (p_timeZone (private this)) None.

(** [withCalendar(calendar)] *)
Definition withCalendar (this : t) (calendar : option string) : Completion t :=
  new (Temporal.ZonedDateTime.epochNanoseconds (impl this))
      (p_timeZone (private this)) calendar.

(** [withTimeZone(timeZone)] *)
Definition withTimeZone (this : t) (timeZone : ICAL.Timezone) : Completion t :=
  new (Temporal.ZonedDateTime.epochNanoseconds (impl this)) timeZone
      (Some (Temporal.ZonedDateTime.calendarId (impl this))).

Definition hasNoCalendarUnits (duration : Duration) : bool :=
  (years duration =? 0) && (months duration =? 0)
  && (weeks duration =? 0) && (days duration =? 0).

(** The first branch of [add]: the whole duration goes to the engine. *)
Definition add_viaImpl (this : t) (duration : Duration) (options : option Options)
    : Completion t :=
  temporalZDT <- Temporal.ZonedDateTime.add (impl this) duration options ;;
  new (Temporal.ZonedDateTime.epochNanoseconds temporalZDT)
      (p_timeZone (private this))
      (Some (Temporal.ZonedDateTime.calendarId (impl this))).

(** [add(duration, options)].  The closing call [intermediate.add(...)]
    passes a duration without calendar units, so it takes the first
    branch; it is written as that branch. *)
Definition add (this : t) (duration : Duration) (options : option Options)
    : Completion t :=
  if isIANA this || hasNoCalendarUnits duration then
    add_viaImpl this duration options
  else
    pdt0 <- toPlainDateTime this ;;
    pdt <- Temporal.PlainDateTime.add pdt0
             (mkDuration (years duration) (months duration) (weeks duration)
                         (days duration) 0 0 0 0 0 0)
             options ;;
    intermediate <- fromPlainDateTime pdt (p_timeZone (private this))
                      (Some (mkOptions None (Some compatible) None)) ;;
    timePart <- Duration_from
                  (mkDuration 0 0 0 0 (hours duration) (minutes duration)
                              (seconds duration) (milliseconds duration)
                              (microseconds duration) (nanoseconds duration)) ;;
    add_viaImpl intermediate timePart None.

(** [until(other, options)] with [const { largestUnit = 'hour' } = options ?? {}] *)
Definition until (this other : t) (options : option Options) : Completion Duration :=
  let largestUnit :=
    match options with
    | Some o => match Temporal.largestUnit o with Some u => u | None => unit_hour end
    | None => unit_hour
    end in
  match largestUnit with
  | unit_year | unit_month | unit_week | unit_day => Throws notImplemented
  | _ => Temporal.ZonedDateTime.until (impl this) (impl other) options
  end.

(** [startOfDay()] *)
Definition startOfDay (this : t) : Completion t :=
  pdt <- toPlainDateTime this ;;
  let midnight := Temporal.PlainTime.from_0000 in
  fromPlainDateTime (Temporal.PlainDateTime.withPlainTime pdt midnight)
                    (p_timeZone (private this))
                    (Some (mkOptions None (Some compatible) None)).

(** [toInstant()] *)
Definition toInstant (this : t) : InstantSlots :=
  Temporal.ZonedDateTime.toInstant (impl this).

(** [toPlainDate()] *)
Definition toPlainDate (this : t) : Completion Temporal.PlainDate.t :=
  pdt <- toPlainDateTime this ;;
  Returns (Temporal.PlainDateTime.toPlainDate pdt).

(** [toPlainTime()] *)
Definition toPlainTime (this : t) : Completion Temporal.PlainTime.t :=
  pdt <- toPlainDateTime this ;;
  Returns (Temporal.PlainDateTime.toPlainTime pdt).

(** [valueOf()] throws whatever type of value the caller expects. *)
Definition valueOf {A : Type} (this : t) : Completion A := Throws TypeError.

(** [equals(other)] *)
Definition equals (this other : t) : Completion bool :=
  if isIANA this && isIANA other
  then Returns (Temporal.ZonedDateTime.equals (impl this) (impl other))
  else Throws notImplemented.

(** [with(zonedDateTimeLike, options)] *)
Definition with_ (this : t) (zonedDateTimeLike : ZonedDateTimeLike)
    (options : option Options) : Completion t :=
  if isIANA this then
    temporalZDT <- Temporal.ZonedDateTime.with_ (impl this) zonedDateTimeLike options ;;
    new (Temporal.ZonedDateTime.epochNanoseconds temporalZDT)
        (p_timeZone (private this))
        (Some (Temporal.ZonedDateTime.calendarId (impl this)))
  else Throws notImplemented.

(** [round(options)]: the engine's value is returned as it is. *)
Definition round (this : t) (options : RoundOptions) : Completion Temporal.ZonedDateTime.t :=
  if isIANA this then Temporal.ZonedDateTime.round (impl this) options
  else Throws notImplemented.

(** [getTimeZoneTransition(direction)]; [None] is [null]. *)
Definition getTimeZoneTransition (this : t) (direction : Direction)
    : Completion (option t) :=
  if isIANA this then
    temporalZDTorNull <- Temporal.ZonedDateTime.getTimeZoneTransition (impl this) direction ;;
    match temporalZDTorNull with
    | None => Returns None
    | Some temporalZDT =>
        z <- new (Temporal.ZonedDateTime.epochNanoseconds temporalZDT)
               (p_timeZone (private this))
               (Some (Temporal.ZonedDateTime.calendarId (impl this))) ;;
        Returns (Some z)
    end
  else Throws notImplemented.

(** [toLocaleString(locales, options)] *)
Definition toLocaleString (this : t) (locales : option Locales)
    (options : option FormatOptions) : Completion string :=
  if isIANA this then Temporal.ZonedDateTime.toLocaleString (impl this) locales options
  else Throws notImplemented.

(** [toString(options)] *)
Definition toString (this : t) (options : option ToStringOptions) : Completion string :=
  if isIANA this then Temporal.ZonedDateTime.toString (impl this) options
  else Throws notImplemented.

(** [toJSON()] *)
Definition toJSON (this : t) : Completion string := toString this None.

End Class.
End ZonedDateTime.

(** * A concrete host and a concrete ical.js, for running the wrapper *)

Module Sample.
Import Temporal.

Definition hourNs : Z := 3600 * 10^9.
Definition secNs : Z := 10^9.

(** An excerpt of the IANA table, exact for instants from November 2011
    to March 2014. *)
Definition losAngeles : ZoneRules :=
  {| initialOffset := -8 * hourNs;
     transitions := [ (1331460000 * secNs, -7 * hourNs);    (* 2012-03-11T10:00Z *)
                      (1352019600 * secNs, -8 * hourNs);    (* 2012-11-04T09:00Z *)
                      (1362909600 * secNs, -7 * hourNs);    (* 2013-03-10T10:00Z *)
                      (1383469200 * secNs, -8 * hourNs) ]   (* 2013-11-03T09:00Z *) |}.

(** Daylight saving time began at local midnight: 2012-10-21T00:00 does
    not exist in this zone. *)
Definition saoPaulo : ZoneRules :=
  {| initialOffset := -3 * hourNs;
     transitions := [ (1350788400 * secNs, -2 * hourNs);    (* 2012-10-21T03:00Z *)
                      (1361066400 * secNs, -3 * hourNs) ]   (* 2013-02-17T02:00Z *) |}.

Definition phoenix : ZoneRules := {| initialOffset := -7 * hourNs; transitions := [] |}.

Definition gregory_fields (epochDay : Z) : CalendarFields :=
  let '(y, m, d) := civil_from_days epochDay in
  {| era := Some (if 1 <=? y then "ce" else "bce");
     eraYear := Some (if 1 <=? y then y else 1 - y);
     year := y; month := m; monthCode := String "M" (twoDigits m); day := d |}.

Definition gregory : CalendarImpl :=
  {| cal_fields := gregory_fields; cal_addMonths := iso_addMonths |}.

Definition fourDigits (n : Z) : string :=
  append (twoDigits (n / 100)) (twoDigits (n mod 100)).

(** An illustrative formatter, exact on whole seconds of the years 0000
    to 9999 in the ISO calendar; below, the open engine methods get the
    plainest stand-ins (the empty field bag, rounding to the nanosecond, no
    transition known, the difference in hours without rounding). *)
Definition isoString (z : ZonedDateTimeSlots) : string :=
  let pdt := Temporal.ZonedDateTime.toPlainDateTime z in
  let '(y, m, d) := civil_from_days (pdt_localNs pdt / nsPerDay) in
  let t := pdt_localNs pdt mod nsPerDay in
  let off := getOffsetNanosecondsFor (zdt_rules z) (zdt_epochNanoseconds z) in
  let a := Z.abs off in
  concat ""
    [ fourDigits y; "-"; twoDigits m; "-"; twoDigits d; "T";
      twoDigits (t / hourNs); ":"; twoDigits ((t / (60 * secNs)) mod 60); ":";
      twoDigits ((t / secNs) mod 60);
      (if off <? 0 then "-" else "+");
      twoDigits (a / hourNs); ":"; twoDigits ((a / (60 * secNs)) mod 60);
      "["; zdt_timeZoneId z; "]" ].

#[export] Instance host : Host :=
  {| tzdb := [ ("America/Los_Angeles", losAngeles);
               ("America/Phoenix", phoenix);
               ("America/Sao_Paulo", saoPaulo) ];
     calendars := [ ("gregory", gregory) ];
     ToStringOptions := unit;
     Locales := string;
     FormatOptions := unit;
     host_toString := fun z _ => Returns (isoString z);
     host_toLocaleString := fun z _ _ => Returns (isoString z);
     ZonedDateTimeLike := unit;
     RoundOptions := unit;
     Direction := unit;
     host_with := fun z _ _ => Returns z;
     host_round := fun z _ => Returns z;
     host_getTimeZoneTransition := fun _ _ => Returns None;
     host_until := fun z other _ =>
       Returns (numbers (Temporal.ZonedDateTime.balanceTime
                           (zdt_epochNanoseconds other - zdt_epochNanoseconds z) t_hour)) |}.

(** A VTIMEZONE whose STANDARD and DAYLIGHT parts carry the same offset;
    a time remembers the offset of the zone it is expressed in. *)
Record FixedZone : Type := mkFixedZone { fz_tzid : string; fz_offsetSeconds : Z }.
Record ZoneTime : Type := mkZoneTime { zt_localSeconds : Z; zt_offsetSeconds : Z }.

#[export] Instance ical : ICAL.Library :=
  {| ICAL.Time := ZoneTime;
     ICAL.Timezone := FixedZone;
     ICAL.tzid := fz_tzid;
     ICAL.utcOffset := fun zone _ => fz_offsetSeconds zone;
     ICAL.fromUnixTime := fun s => mkZoneTime s 0;
     ICAL.convertToZone := fun time zone =>
       mkZoneTime (zt_localSeconds time - zt_offsetSeconds time + fz_offsetSeconds zone)
                  (fz_offsetSeconds zone);
     ICAL.Time_new := fun pdt zone =>
       mkZoneTime (pdt_localNs pdt / secNs) (fz_offsetSeconds zone);
     ICAL.toUnixTime := fun time => zt_localSeconds time - zt_offsetSeconds time |}.

(** The zones of the three events of the cookbook file. *)
Definition tzLosAngeles : FixedZone := mkFixedZone "America/Los_Angeles" (-28800).
Definition tzMountain : FixedZone := mkFixedZone "US Mountain Standard Time" (-25200).
Definition tzPacific : FixedZone := mkFixedZone "Pacific Standard Time" (-28800).
(** A VTIMEZONE without a TZID. *)
Definition tzNameless : FixedZone := mkFixedZone "" (-25200).

(** [P1Y3DT2H30M] *)
Definition P1Y3DT2H30M : Duration := mkDuration 1 0 0 3 2 30 0 0 0 0.
Definition P1Y3D : Duration := mkDuration 1 0 0 3 0 0 0 0 0 0.
Definition PT2H30M : Duration := mkDuration 0 0 0 0 2 30 0 0 0 0.
Definition PT30M : Duration := mkDuration 0 0 0 0 0 30 0 0 0 0.

(** The instants of the events: [event.startDate.toUnixTime()] in nanoseconds. *)
Definition losAngelesStart : Z := 1347384600 * secNs.    (* 2012-09-11T10:30-07:00 *)
Definition losAngelesEnd : Z := 1347386400 * secNs.      (* 2012-09-11T11:00-07:00 *)
Definition mountainStart : Z := 1671638400 * secNs.      (* 2022-12-21T09:00-07:00 *)
Definition leapDayEve : Z := 1330498800 * secNs.         (* 2012-02-28T23:00-08:00 *)

(** A zone at a local mean time, whose offset is not a whole number of
    minutes; [Temporal.PlainTime.from('13:37')]; and the wall-clock value
    2012-09-11T13:37:00.123456789 in the ISO calendar. *)
Definition tzLocalMeanTime : FixedZone := mkFixedZone "Local Mean Time" (-28378).
Definition time1337 : PlainTime.t := mkPlainTime 13 37 0 0 0 0.
Definition wallClock1337 : PlainDateTime.t :=
  mkPlainDateTime (15594 * nsPerDay + 13 * hourNs + 37 * (60 * secNs) + 123456789)
                  "iso8601" iso8601.

(** 2012-11-04T01:30, which Los Angeles had twice. *)
Definition wallClockTwice : PlainDateTime.t :=
  mkPlainDateTime (15648 * nsPerDay + hourNs + 30 * (60 * secNs)) "iso8601" iso8601.

End Sample.

(** * Programs over instances

    The instances a caller holds, in order of creation, addressed by index.
    A call reads the instances it is given and, when it returns an instance,
    that instance is a fresh object; an instance that [add] builds and drops
    on the way is not held by the caller.  No method of the class assigns to
    a slot or property of an existing instance, so a step never rewrites an
    entry. *)

Module Program.
Section Program.
Context {host : Temporal.Host} {ical : ICAL.Library}.

Definition Store : Type := list ZonedDateTime.t.

Inductive Call : Type :=
| New (epochNs : Z) (timeZone : ICAL.Timezone) (calendar : option string)
| From (item : nat)
| FromInstant (instant : Temporal.InstantSlots) (timeZone : ICAL.Timezone)
              (calendar : option string)
| FromPlainDateTime (pdt : Temporal.PlainDateTime.t) (timeZone : ICAL.Timezone)
                    (options : option Temporal.Options)
| WithPlainTime (this : nat) (time : Temporal.PlainTime.t)
| WithCalendar (this : nat) (calendar : option string)
| WithTimeZone (this : nat) (timeZone : ICAL.Timezone)
| Add (this : nat) (duration : Temporal.Duration) (options : option Temporal.Options)
| StartOfDay (this : nat)
| With (this : nat) (zonedDateTimeLike : Temporal.ZonedDateTimeLike)
       (options : option Temporal.Options)
| GetTimeZoneTransition (this : nat) (direction : Temporal.Direction)
(** any getter or method that returns no instance: [until], [equals],
    [round], [toString], [toInstant], [offsetNanoseconds], ... *)
| Read (this : nat).

(** A method call on a reference; a reference to nothing is a TypeError. *)
Definition on (s : Store) (this : nat)
    (method : ZonedDateTime.t -> Completion ZonedDateTime.t) : Completion ZonedDateTime.t :=
  match nth_error s this with
  | Some z => method z
  | None => Throws TypeError
  end.

(** What a call that builds an instance completes with; [None] for a call
    that returns no instance. *)
Definition outcome (s : Store) (c : Call) : option (Completion ZonedDateTime.t) :=
  match c with
  | New epochNs timeZone calendar => Some (ZonedDateTime.new epochNs timeZone calendar)
  | From item => Some (on s item ZonedDateTime.from)
  | FromInstant instant timeZone calendar =>
      Some (ZonedDateTime.fromInstant instant timeZone calendar)
  | FromPlainDateTime pdt timeZone options =>
      Some (ZonedDateTime.fromPlainDateTime pdt timeZone options)
  | WithPlainTime this time =>
      Some (on s this (fun z => ZonedDateTime.withPlainTime z time))
  | WithCalendar this calendar =>
      Some (on s this (fun z => ZonedDateTime.withCalendar z calendar))
  | WithTimeZone this timeZone =>
      Some (on s this (fun z => ZonedDateTime.withTimeZone z timeZone))
  | Add this duration options =>
      Some (on s this (fun z => ZonedDateTime.add z duration options))
  | StartOfDay this => Some (on s this ZonedDateTime.startOfDay)
  | With this zonedDateTimeLike options =>
      Some (on s this (fun z => ZonedDateTime.with_ z zonedDateTimeLike options))
  | GetTimeZoneTransition this direction =>
      match nth_error s this with
      | Some z =>
          match ZonedDateTime.getTimeZoneTransition z direction with
          | Returns (Some transition) => Some (Returns transition)
          | Returns None => None
          | Throws e => Some (Throws e)
          end
      | None => Some (Throws TypeError)
      end
  | Read _ => None
  end.

(** The instance a call returns, if it returns one. *)
Definition returned (s : Store) (c : Call) : option ZonedDateTime.t :=
  match outcome s c with
  | Some (Returns z) => Some z
  | _ => None
  end.

Definition step (s : Store) (c : Call) : Store :=
  match returned s c with
  | Some z => s ++ [z]
  | None => s
  end.

Definition run (calls : list Call) : Store := fold_left step calls [].

Inductive reachable : Store -> Prop :=
| reachable_start : reachable []
| reachable_step (s : Store) (c : Call) : reachable s -> reachable (step s c).

End Program.
End Program.

(** A short program over the first event of the cookbook file. *)
Definition sampleProgram : list (Program.Call (host := Sample.host) (ical := Sample.ical)) :=
  [ Program.New (host := Sample.host) (ical := Sample.ical)
      Sample.losAngelesStart Sample.tzLosAngeles None;
    Program.WithCalendar 0%nat (Some "gregory");
    Program.Add 1%nat Sample.P1Y3DT2H30M None ].

(** The same program, followed by a move to the rule-based zone of the
    second event. *)
Definition sampleProgramLonger
    : list (Program.Call (host := Sample.host) (ical := Sample.ical)) :=
  sampleProgram
  ++ [ Program.WithTimeZone (host := Sample.host) (ical := Sample.ical)
         2%nat Sample.tzMountain ].

(** * Notions used by the properties *)

Section Notions.
Context {host : Temporal.Host} {ical : ICAL.Library}.

(** The twelve wall-clock properties stored on an instance. *)
Definition wallClock (z : ZonedDateTime.t)
    : option string * option Z * Z * Z * string * Z * Z * Z * Z * Z * Z * Z :=
  (ZonedDateTime.era z, ZonedDateTime.eraYear z, ZonedDateTime.year z,
   ZonedDateTime.month z, ZonedDateTime.monthCode z, ZonedDateTime.day z,
   ZonedDateTime.hour z, ZonedDateTime.minute z, ZonedDateTime.second z,
   ZonedDateTime.millisecond z, ZonedDateTime.microsecond z, ZonedDateTime.nanosecond z).

(** The same twelve fields read off a PlainDateTime. *)
Definition fieldsOf (pdt : Temporal.PlainDateTime.t)
    : option string * option Z * Z * Z * string * Z * Z * Z * Z * Z * Z * Z :=
  (Temporal.PlainDateTime.era pdt, Temporal.PlainDateTime.eraYear pdt,
   Temporal.PlainDateTime.year pdt, Temporal.PlainDateTime.month pdt,
   Temporal.PlainDateTime.monthCode pdt, Temporal.PlainDateTime.day pdt,
   Temporal.PlainDateTime.hour pdt, Temporal.PlainDateTime.minute pdt,
   Temporal.PlainDateTime.second pdt, Temporal.PlainDateTime.millisecond pdt,
   Temporal.PlainDateTime.microsecond pdt, Temporal.PlainDateTime.nanosecond pdt).

(** The stored fields of [z] are those of [z.toPlainDateTime()]. *)
Definition agrees (z : ZonedDateTime.t) : Prop :=
  exists pdt, ZonedDateTime.toPlainDateTime z = Returns pdt /\ wallClock z = fieldsOf pdt.

Definition isSupported (timeZone : ICAL.Timezone) : bool :=
  existsb (String.eqb (ICAL.tzid timeZone)) Intl.supportedValuesOf_timeZone.

(** The offset a time zone reports for an instant: the engine's rule table
    for an IANA zone; for a rule-based zone, ical.js' [utcOffset] at the
    instant's second expressed in the zone. *)
Definition timeZoneOffsetNanosecondsFor (timeZone : ICAL.Timezone)
    (instant : Temporal.InstantSlots) : option Z :=
  if isSupported timeZone then
    match Temporal.lookupTimeZone (ICAL.tzid timeZone) with
    | Some (_, rules) => Some (Temporal.getOffsetNanosecondsFor rules (Temporal.inst_epochNanoseconds instant))
    | None => None
    end
  else
    let second := Temporal.inst_epochNanoseconds instant / 10^9 in
    Some (ICAL.utcOffset timeZone (ICAL.convertToZone (ICAL.fromUnixTime second) timeZone)
          * 10^9).

(** A rule-based zone whose offsets stay below one day, as every real zone's do. *)
Definition offsetsBelowOneDay (timeZone : ICAL.Timezone) : Prop :=
  forall time, - 86400 < ICAL.utcOffset timeZone time < 86400.

Definition calendarOrDefault (calendar : option string) : string :=
  match calendar with Some c => c | None => "iso8601" end.

Definition engineZone (timeZone : ICAL.Timezone) : string :=
  if isSupported timeZone then ICAL.tzid timeZone else "UTC".

(** Every instance is built by the constructor. *)
Definition constructed (z : ZonedDateTime.t) : Prop :=
  exists e timeZone calendar, ZonedDateTime.new e timeZone calendar = Returns z.

(** The largest unit [until] works with: [options?.largestUnit ?? 'hour']. *)
Definition requestedLargestUnit (options : option Temporal.Options) : Temporal.Unit :=
  match options with
  | Some o => match Temporal.largestUnit o with Some u => u | None => Temporal.unit_hour end
  | None => Temporal.unit_hour
  end.

(** The four unit names that the guard of [until] tests. *)
Definition isGuardedUnit (u : Temporal.Unit) : bool :=
  match u with
  | Temporal.unit_year | Temporal.unit_month | Temporal.unit_week | Temporal.unit_day => true
  | _ => false
  end.

(** The units in which the difference of any two instants in range stays
    below 2^53. *)
Definition secondOrLarger (u : Temporal.TimeUnit) : bool :=
  match u with
  | Temporal.t_hour | Temporal.t_minute | Temporal.t_second => true
  | _ => false
  end.

End Notions.

(** ** Reading an offset string

    The number of seconds that a string of the form [±HH:MM] or
    [±HH:MM:SS] stands for, and [None] for any other string: the reading
    against which the [offset] getter is checked. *)

Definition digitChar (d : Z) : ascii := ascii_of_nat (48 + Z.to_nat d).

Definition digitValue (c : ascii) : option Z :=
  let n := nat_of_ascii c in
  if ((48 <=? n) && (n <=? 57))%nat then Some (Z.of_nat n - 48) else None.

Definition twoDigitValue (a b : ascii) : option Z :=
  match digitValue a, digitValue b with
  | Some x, Some y => Some (10 * x + y)
  | _, _ => None
  end.

Definition signValue (c : ascii) : option Z :=
  if Ascii.eqb c "-" then Some (-1) else if Ascii.eqb c "+" then Some 1 else None.

Definition parseOffset (s : string) : option Z :=
  match s with
  | String sg (String h1 (String h2 (String c1 (String m1 (String m2 rest))))) =>
      match signValue sg, twoDigitValue h1 h2, twoDigitValue m1 m2 with
      | Some sgn, Some h, Some m =>
          if negb (Ascii.eqb c1 ":") then None
          else match rest with
               | EmptyString => Some (sgn * (h * 3600 + m * 60))
               | String c2 (String s1 (String s2 EmptyString)) =>
                   if Ascii.eqb c2 ":"
                   then match twoDigitValue s1 s2 with
                        | Some sec => Some (sgn * (h * 3600 + m * 60 + sec))
                        | None => None
                        end
                   else None
               | _ => None
               end
      | _, _, _ => None
      end
  | _ => None
  end.

(** * Properties *)

Lemma bind_Returns {A B : Type} (c : Completion A) (k : A -> Completion B) (b : B) :
  bind c k = Returns b -> exists a, c = Returns a /\ k a = Returns b.
Proof.
  destruct c as [a|e]; simpl; intro H; [exists a; split; [reflexivity|exact H] | discriminate].
Qed.

Lemma asciiLower_idem (c : ascii) : asciiLower (asciiLower c) = asciiLower c.
Proof.
  destruct c as [[] [] [] [] [] [] [] []]; reflexivity.
Qed.

Lemma lower_idem (s : string) : lower (lower s) = lower s.
Proof.
  induction s as [|c rest IH]; simpl; [reflexivity|].
  now rewrite asciiLower_idem, IH.
Qed.

Section Properties.
Context {host : Temporal.Host} {ical : ICAL.Library}.

(** ** Lookups *)

Lemma existsb_eqb_In (x : string) (l : list string) :
  existsb (String.eqb x) l = true <-> In x l.
Proof.
  rewrite existsb_exists. split.
  - intros [y [Hin Heq]]. apply String.eqb_eq in Heq. now subst.
  - intro Hin. exists x. split; [assumption | apply String.eqb_refl].
Qed.

Lemma lookupTimeZone_supported (id : string) :
  In id Intl.supportedValuesOf_timeZone -> exists found, Temporal.lookupTimeZone id = Some found.
Proof.
  unfold Intl.supportedValuesOf_timeZone, Temporal.lookupTimeZone. intro Hin.
  destruct (String.eqb (lower id) "utc"); [eexists; reflexivity|].
  apply in_map_iff in Hin. destruct Hin as [entry [Hfst Hin]].
  destruct (find _ Temporal.tzdb) as [found|] eqn:Hfind; [eexists; reflexivity|].
  apply (find_none _ _ Hfind) in Hin. simpl in Hin.
  rewrite Hfst, String.eqb_refl in Hin. discriminate.
Qed.

Lemma lookupTimeZone_UTC : Temporal.lookupTimeZone "UTC" = Some ("UTC", Temporal.utcRules).
Proof. reflexivity. Qed.

(** The canonical identifier of a calendar names that same calendar. *)
Lemma lookupCalendar_canonical (id canonical : string) (impl : Temporal.CalendarImpl) :
  Temporal.lookupCalendar id = Some (canonical, impl) ->
  Temporal.lookupCalendar canonical = Some (canonical, impl).
Proof.
  unfold Temporal.lookupCalendar.
  destruct (String.eqb (lower id) "iso8601") eqn:Hiso.
  - intro H. inversion H. reflexivity.
  - destruct (find _ Temporal.calendars) as [entry|] eqn:Hfind; [|discriminate].
    intro H. inversion H. subst. rewrite lower_idem, Hiso, Hfind. reflexivity.
Qed.

(** ** The engine's constructor and arithmetic *)

Lemma engine_new_inv (e : Z) (timeZone calendar : string) (impl : Temporal.ZonedDateTime.t) :
  Temporal.ZonedDateTime.new e timeZone calendar = Returns impl ->
  Temporal.isValidEpochNanoseconds e = true /\
  exists tzid rules calid cal,
    Temporal.lookupTimeZone timeZone = Some (tzid, rules) /\
    Temporal.lookupCalendar calendar = Some (calid, cal) /\
    impl = Temporal.mkZonedDateTime e tzid rules calid cal.
Proof.
  unfold Temporal.ZonedDateTime.new.
  destruct (Temporal.isValidEpochNanoseconds e); simpl; [|discriminate].
  destruct (Temporal.lookupTimeZone timeZone) as [[tzid rules]|]; [|discriminate].
  destruct (Temporal.lookupCalendar calendar) as [[calid cal]|]; [|discriminate].
  intro H. inversion H. split; [reflexivity|]. now exists tzid, rules, calid, cal.
Qed.

Lemma validDuration_nanosecondsBag (n : Z) :
  Temporal.validDuration (ZonedDateTime.nanosecondsBag n) = true.
Proof.
  unfold Temporal.validDuration, ZonedDateTime.nanosecondsBag. simpl.
  destruct (0 <=? n) eqn:Hpos; simpl; [reflexivity|].
  apply Z.leb_gt in Hpos. rewrite andb_true_r. apply Z.leb_le. lia.
Qed.

(** Adding a bag of nanoseconds moves the local time line by that amount. *)
Lemma PlainDateTime_add_nanoseconds (pdt : Temporal.PlainDateTime.t) (n : Z) :
  Temporal.PlainDateTime.add pdt (ZonedDateTime.nanosecondsBag n) None =
  if Temporal.isoDateTimeWithinLimits (Temporal.pdt_localNs pdt + n)
  then Returns (Temporal.mkPlainDateTime (Temporal.pdt_localNs pdt + n)
                  (Temporal.pdt_calendarId pdt) (Temporal.pdt_calendar pdt))
  else Throws RangeError.
Proof.
  unfold Temporal.PlainDateTime.add, Temporal.Duration_from.
  rewrite validDuration_nanosecondsBag. simpl.
  unfold Temporal.timeNanoseconds, Temporal.PlainDateTime.epochDay,
         Temporal.PlainDateTime.nanosecondOfDay. simpl.
  replace ((Temporal.pdt_localNs pdt / Temporal.nsPerDay + 0 + 0) * Temporal.nsPerDay
           + Temporal.pdt_localNs pdt mod Temporal.nsPerDay + n)
    with (Temporal.pdt_localNs pdt + n).
  - reflexivity.
  - pose proof (Z.div_mod (Temporal.pdt_localNs pdt) Temporal.nsPerDay) as H.
    assert (Temporal.nsPerDay <> 0) as Hne by (unfold Temporal.nsPerDay; lia).
    specialize (H Hne). lia.
Qed.

(** ** The wrapper's constructor *)

Lemma new_inv (e : Z) (timeZone : ICAL.Timezone) (calendar : option string)
    (z : ZonedDateTime.t) :
  ZonedDateTime.new e timeZone calendar = Returns z ->
  exists impl pdt,
    Temporal.ZonedDateTime.new e (engineZone timeZone) (calendarOrDefault calendar)
      = Returns impl /\
    ZonedDateTime.private z = ZonedDateTime.mkPrivate impl timeZone (isSupported timeZone) /\
    ZonedDateTime.toPlainDateTime z = Returns pdt /\
    wallClock z = fieldsOf pdt /\
    ZonedDateTime.calendar z = calendarOrDefault calendar /\
    ZonedDateTime.timeZone z
      = (if isSupported timeZone then Some (ICAL.tzid timeZone) else None).
Proof.
  unfold ZonedDateTime.new. fold (isSupported timeZone). fold (calendarOrDefault calendar).
  fold (engineZone timeZone).
  destruct (Temporal.ZonedDateTime.new e (engineZone timeZone) (calendarOrDefault calendar))
    as [impl|err] eqn:Himpl; simpl; [|discriminate].
  destruct (ZonedDateTime.toPlainDateTime_ _) as [pdt|err] eqn:Hpdt; simpl; [|discriminate].
  intro H. inversion H. subst z. clear H.
  exists impl, pdt. unfold ZonedDateTime.toPlainDateTime, wallClock, fieldsOf. simpl.
  repeat split; try reflexivity. exact Hpdt.
Qed.

Lemma new_epochNanoseconds (e : Z) (timeZone : ICAL.Timezone) (calendar : option string)
    (z : ZonedDateTime.t) :
  ZonedDateTime.new e timeZone calendar = Returns z ->
  ZonedDateTime.epochNanoseconds z = e /\ Temporal.isValidEpochNanoseconds e = true.
Proof.
  intro H. destruct (new_inv _ _ _ _ H) as [impl [pdt [Himpl [Hpriv _]]]].
  destruct (engine_new_inv _ _ _ _ Himpl) as [Hvalid [tzid [rules [calid [cal [_ [_ ->]]]]]]].
  unfold ZonedDateTime.epochNanoseconds, ZonedDateTime.impl. rewrite Hpriv. simpl.
  split; [reflexivity | exact Hvalid].
Qed.

Lemma new_isIANA (e : Z) (timeZone : ICAL.Timezone) (calendar : option string)
    (z : ZonedDateTime.t) :
  ZonedDateTime.new e timeZone calendar = Returns z ->
  ZonedDateTime.isIANA z = isSupported timeZone.
Proof.
  intro H. destruct (new_inv _ _ _ _ H) as [impl [pdt [_ [Hpriv _]]]].
  unfold ZonedDateTime.isIANA. now rewrite Hpriv.
Qed.

Lemma engineZone_known (timeZone : ICAL.Timezone) :
  exists found, Temporal.lookupTimeZone (engineZone timeZone) = Some found.
Proof.
  unfold engineZone. destruct (isSupported timeZone) eqn:Hsup.
  - apply lookupTimeZone_supported. now apply existsb_eqb_In.
  - eexists. apply lookupTimeZone_UTC.
Qed.

(** The wall-clock reading of a constructed instance is its instant moved
    by [offsetNanoseconds], in its calendar. *)
Lemma constructed_toPlainDateTime (e : Z) (timeZone : ICAL.Timezone)
    (calendar : option string) (z : ZonedDateTime.t) :
  ZonedDateTime.new e timeZone calendar = Returns z ->
  ZonedDateTime.toPlainDateTime z =
  Returns (Temporal.mkPlainDateTime
             (ZonedDateTime.epochNanoseconds z + ZonedDateTime.offsetNanoseconds z)
             (Temporal.zdt_calendarId (ZonedDateTime.impl z))
             (Temporal.zdt_calendar (ZonedDateTime.impl z))).
Proof.
  intro H. destruct (new_inv _ _ _ _ H) as [impl [pdt [Himpl [Hpriv [Hpdt _]]]]].
  destruct (engine_new_inv _ _ _ _ Himpl) as [_ [tzid [rules [calid [cal [Htz [_ ->]]]]]]].
  revert Hpdt.
  unfold ZonedDateTime.toPlainDateTime, ZonedDateTime.offsetNanoseconds,
         ZonedDateTime.epochNanoseconds, ZonedDateTime.impl.
  rewrite Hpriv. unfold ZonedDateTime.toPlainDateTime_, ZonedDateTime.offsetNanoseconds_.
  simpl. unfold engineZone in Htz.
  destruct (isSupported timeZone).
  - intros _. reflexivity.
  - rewrite lookupTimeZone_UTC in Htz. inversion Htz. subst tzid rules.
    rewrite PlainDateTime_add_nanoseconds. simpl.
    unfold Temporal.ZonedDateTime.offsetNanoseconds, Temporal.getOffsetNanosecondsFor. simpl.
    rewrite Z.add_0_r.
    destruct (Temporal.isoDateTimeWithinLimits _); [reflexivity | discriminate].
Qed.

(** Construction succeeds for an instant in range, a calendar the engine
    knows and a zone that is IANA or has offsets below one day. *)
Lemma new_succeeds (e : Z) (timeZone : ICAL.Timezone) (calendar : option string) :
  Temporal.isValidEpochNanoseconds e = true ->
  (exists found, Temporal.lookupCalendar (calendarOrDefault calendar) = Some found) ->
  isSupported timeZone = true \/ offsetsBelowOneDay timeZone ->
  exists z, ZonedDateTime.new e timeZone calendar = Returns z.
Proof.
  intros Hvalid [[calid cal] Hcal] Hzone.
  destruct (engineZone_known timeZone) as [[tzid rules] Htz].
  unfold ZonedDateTime.new. fold (isSupported timeZone). fold (calendarOrDefault calendar).
  fold (engineZone timeZone).
  unfold Temporal.ZonedDateTime.new. rewrite Hvalid, Htz, Hcal. simpl.
  unfold ZonedDateTime.toPlainDateTime_, ZonedDateTime.offsetNanoseconds_. simpl.
  destruct (isSupported timeZone) eqn:Hsup; simpl; [eexists; reflexivity|].
  destruct Hzone as [Habs|Hbound]; [discriminate|].
  rewrite PlainDateTime_add_nanoseconds. simpl.
  unfold engineZone in Htz. rewrite Hsup, lookupTimeZone_UTC in Htz.
  inversion Htz. subst tzid rules.
  unfold Temporal.ZonedDateTime.offsetNanoseconds, Temporal.getOffsetNanosecondsFor. simpl.
  match goal with
  | |- context [ICAL.utcOffset timeZone ?time] => specialize (Hbound time);
      set (off := ICAL.utcOffset timeZone time) in *
  end.
  destruct (Temporal.isoDateTimeWithinLimits _) eqn:Hlim; simpl; [eexists; reflexivity|].
  exfalso. change (Z.pow_pos 10 9) with 1000000000 in Hlim.
  unfold Temporal.isValidEpochNanoseconds in Hvalid.
  apply andb_true_iff in Hvalid. destruct Hvalid as [Hlo Hhi].
  apply Z.leb_le in Hlo, Hhi.
  unfold Temporal.isoDateTimeWithinLimits in Hlim. apply andb_false_iff in Hlim.
  unfold Temporal.nsMaxInstant, Temporal.nsPerDay in *.
  destruct Hlim as [Hlim|Hlim]; apply Z.ltb_ge in Hlim; lia.
Qed.

(** ** Every instance comes out of the constructor *)

Lemma constructed_agrees (z : ZonedDateTime.t) : constructed z -> agrees z.
Proof.
  intros [e [timeZone [calendar H]]].
  destruct (new_inv _ _ _ _ H) as [impl [pdt [_ [_ [Hpdt [Hfields _]]]]]].
  now exists pdt.
Qed.

Lemma fromPlainDateTime_constructed (pdt : Temporal.PlainDateTime.t)
    (timeZone : ICAL.Timezone) (options : option Temporal.Options) (z : ZonedDateTime.t) :
  ZonedDateTime.fromPlainDateTime pdt timeZone options = Returns z -> constructed z.
Proof.
  unfold ZonedDateTime.fromPlainDateTime.
  destruct (negb (String.eqb (ICAL.tzid timeZone) "")).
  - intro H. apply bind_Returns in H. destruct H as [zdt [_ H]].
    now exists (Temporal.ZonedDateTime.epochNanoseconds zdt), timeZone,
               (Some (Temporal.PlainDateTime.calendarId pdt)).
  - intro H. eexists _, timeZone, _. exact H.
Qed.

Lemma add_viaImpl_constructed (this : ZonedDateTime.t) (duration : Temporal.Duration)
    (options : option Temporal.Options) (z : ZonedDateTime.t) :
  ZonedDateTime.add_viaImpl this duration options = Returns z -> constructed z.
Proof.
  unfold ZonedDateTime.add_viaImpl. intro H.
  apply bind_Returns in H. destruct H as [zdt [_ H]].
  eexists _, _, _. exact H.
Qed.

Lemma add_constructed (this : ZonedDateTime.t) (duration : Temporal.Duration)
    (options : option Temporal.Options) (z : ZonedDateTime.t) :
  ZonedDateTime.add this duration options = Returns z -> constructed z.
Proof.
  unfold ZonedDateTime.add.
  destruct (ZonedDateTime.isIANA this || ZonedDateTime.hasNoCalendarUnits duration).
  - apply add_viaImpl_constructed.
  - intro H.
    apply bind_Returns in H. destruct H as [pdt0 [_ H]].
    apply bind_Returns in H. destruct H as [pdt [_ H]].
    apply bind_Returns in H. destruct H as [intermediate [_ H]].
    apply bind_Returns in H. destruct H as [timePart [_ H]].
    exact (add_viaImpl_constructed _ _ _ _ H).
Qed.

Lemma on_Returns (s : Program.Store) (this : nat)
    (method : ZonedDateTime.t -> Completion ZonedDateTime.t) (z : ZonedDateTime.t) :
  Program.on s this method = Returns z ->
  exists receiver, nth_error s this = Some receiver /\ method receiver = Returns z.
Proof.
  unfold Program.on. destruct (nth_error s this) as [receiver|]; [|discriminate].
  intro H. now exists receiver.
Qed.

Lemma returned_constructed (s : Program.Store) (c : Program.Call) (z : ZonedDateTime.t) :
  Program.returned s c = Some z -> constructed z.
Proof.
  unfold Program.returned.
  destruct (Program.outcome s c) as [[z0|err]|] eqn:Hout; try discriminate.
  intro H. inversion H. subst z0. clear H.
  destruct c; simpl in Hout; inversion Hout as [Hcall]; clear Hout.
  - now exists epochNs, timeZone, calendar.
  - apply on_Returns in Hcall. destruct Hcall as [receiver [_ Hcall]].
    unfold ZonedDateTime.from in Hcall. eexists _, _, _. exact Hcall.
  - unfold ZonedDateTime.fromInstant in Hcall. eexists _, _, _. exact Hcall.
  - exact (fromPlainDateTime_constructed _ _ _ _ Hcall).
  - apply on_Returns in Hcall. destruct Hcall as [receiver [_ Hcall]].
    unfold ZonedDateTime.withPlainTime in Hcall.
    apply bind_Returns in Hcall. destruct Hcall as [pdt [_ Hcall]].
    exact (fromPlainDateTime_constructed _ _ _ _ Hcall).
  - apply on_Returns in Hcall. destruct Hcall as [receiver [_ Hcall]].
    unfold ZonedDateTime.withCalendar in Hcall. eexists _, _, _. exact Hcall.
  - apply on_Returns in Hcall. destruct Hcall as [receiver [_ Hcall]].
    unfold ZonedDateTime.withTimeZone in Hcall. eexists _, _, _. exact Hcall.
  - apply on_Returns in Hcall. destruct Hcall as [receiver [_ Hcall]].
    exact (add_constructed _ _ _ _ Hcall).
  - apply on_Returns in Hcall. destruct Hcall as [receiver [_ Hcall]].
    unfold ZonedDateTime.startOfDay in Hcall.
    apply bind_Returns in Hcall. destruct Hcall as [pdt [_ Hcall]].
    exact (fromPlainDateTime_constructed _ _ _ _ Hcall).
  - apply on_Returns in Hcall. destruct Hcall as [receiver [_ Hcall]].
    unfold ZonedDateTime.with_ in Hcall.
    destruct (ZonedDateTime.isIANA receiver); [|discriminate].
    apply bind_Returns in Hcall. destruct Hcall as [zdt [_ Hcall]].
    eexists _, _, _. exact Hcall.
  - destruct (nth_error s this) as [receiver|]; [|discriminate].
    unfold ZonedDateTime.getTimeZoneTransition in Hcall.
    destruct (ZonedDateTime.isIANA receiver); [|discriminate].
    destruct (Temporal.ZonedDateTime.getTimeZoneTransition _ direction)
      as [[zdt|]|err]; simpl in Hcall; try discriminate.
    destruct (ZonedDateTime.new _ _ _) as [built|err] eqn:Hbuilt; simpl in Hcall;
      [|discriminate].
    inversion Hcall. subst. eexists _, _, _. exact Hbuilt.
Qed.

(** A step leaves every held instance where and as it was. *)
Lemma step_frame (s : Program.Store) (c : Program.Call) (l : nat) (z : ZonedDateTime.t) :
  nth_error s l = Some z -> nth_error (Program.step s c) l = Some z.
Proof.
  intro H. unfold Program.step. destruct (Program.returned s c); [|exact H].
  rewrite nth_error_app1; [exact H|]. apply nth_error_Some. congruence.
Qed.

Lemma reachable_constructed (s : Program.Store) :
  Program.reachable s -> forall l z, nth_error s l = Some z -> constructed z.
Proof.
  induction 1 as [|s c Hreach IH]; intros l z Hl.
  - destruct l; discriminate.
  - unfold Program.step in Hl.
    destruct (Program.returned s c) as [fresh|] eqn:Hret; [|exact (IH l z Hl)].
    destruct (Nat.lt_ge_cases l (List.length s)) as [Hlt|Hge].
    + rewrite nth_error_app1 in Hl by exact Hlt. exact (IH l z Hl).
    + rewrite nth_error_app2 in Hl by exact Hge.
      destruct (l - List.length s)%nat as [|n]; simpl in Hl.
      * inversion Hl. subst fresh. exact (returned_constructed _ _ _ Hret).
      * destruct n; discriminate.
Qed.

Lemma run_snoc (calls : list Program.Call) (c : Program.Call) :
  Program.run (calls ++ [c]) = Program.step (Program.run calls) c.
Proof. unfold Program.run. now rewrite fold_left_app. Qed.

Lemma run_reachable (calls : list Program.Call) : Program.reachable (Program.run calls).
Proof.
  induction calls as [|c calls IH] using rev_ind.
  - constructor.
  - rewrite run_snoc. now constructor.
Qed.

(** ** The stored wall-clock fields *)

(** C9.  The wall-clock properties stored on an instance at construction
    (era, eraYear, year, month, monthCode, day, hour, minute, second,
    millisecond, microsecond, nanosecond) are exactly the fields of its
    [toPlainDateTime()], and this holds for the whole life of the instance:
    in the store reached by any sequence of calls every held instance came
    out of the constructor, agrees with its [toPlainDateTime()], and is
    left as it is by whatever call comes next. *)
Theorem stored_fields_agree_for_life (calls : list Program.Call) (l : nat)
    (z : ZonedDateTime.t) :
  nth_error (Program.run calls) l = Some z ->
  constructed z /\
  (exists pdt, ZonedDateTime.toPlainDateTime z = Returns pdt /\ wallClock z = fieldsOf pdt) /\
  (forall next, nth_error (Program.step (Program.run calls) next) l = Some z).
Proof.
  intro Hl.
  assert (constructed z) as Hc
    by exact (reachable_constructed _ (run_reachable calls) l z Hl).
  split; [exact Hc|]. split.
  - exact (constructed_agrees z Hc).
  - intro next. now apply step_frame.
Qed.

(** ** Swapping the calendar or the time zone *)

(** An instance can be rebuilt at its own instant and zone under any
    calendar the engine knows. *)
Lemma new_same_zone (e : Z) (timeZone : ICAL.Timezone) (calendar other : option string)
    (z : ZonedDateTime.t) :
  ZonedDateTime.new e timeZone calendar = Returns z ->
  (exists found, Temporal.lookupCalendar (calendarOrDefault other) = Some found) ->
  exists z', ZonedDateTime.new e timeZone other = Returns z'.
Proof.
  intros H [[calid' cal'] Hcal'].
  destruct (new_inv _ _ _ _ H) as [impl [pdt [Himpl [Hpriv [Hpdt _]]]]].
  destruct (engine_new_inv _ _ _ _ Himpl) as [Hvalid [tzid [rules [calid [cal [Htz [_ ->]]]]]]].
  unfold ZonedDateTime.toPlainDateTime in Hpdt. rewrite Hpriv in Hpdt.
  unfold ZonedDateTime.new. fold (isSupported timeZone). fold (calendarOrDefault other).
  fold (engineZone timeZone).
  unfold Temporal.ZonedDateTime.new. rewrite Hvalid, Htz, Hcal'. simpl.
  revert Hpdt. unfold ZonedDateTime.toPlainDateTime_, ZonedDateTime.offsetNanoseconds_. simpl.
  destruct (isSupported timeZone); simpl; [intros _; eexists; reflexivity|].
  rewrite !PlainDateTime_add_nanoseconds. simpl.
  unfold Temporal.ZonedDateTime.epochMilliseconds. simpl.
  destruct (Temporal.isoDateTimeWithinLimits _); [|discriminate].
  intros _. simpl. eexists. reflexivity.
Qed.

Lemma run_holds_constructed (calls : list Program.Call) (l : nat) (z : ZonedDateTime.t) :
  nth_error (Program.run calls) l = Some z -> constructed z.
Proof. exact (reachable_constructed _ (run_reachable calls) l z). Qed.

Lemma step_on (s : Program.Store) (c : Program.Call) (z' : ZonedDateTime.t) :
  Program.outcome s c = Some (Returns z') -> Program.step s c = s ++ [z'].
Proof. intro H. unfold Program.step, Program.returned. now rewrite H. Qed.

(** What the constructor builds, slot by slot: the engine value over the
    zone and the calendar that the identifiers name, the fields of the
    instant moved by the offset, and the offset of the zone held. *)
Lemma new_details (e : Z) (timeZone : ICAL.Timezone) (calendar : option string)
    (z : ZonedDateTime.t) :
  ZonedDateTime.new e timeZone calendar = Returns z ->
  exists tzid rules calid cal,
    Temporal.lookupTimeZone (engineZone timeZone) = Some (tzid, rules) /\
    Temporal.lookupCalendar (calendarOrDefault calendar) = Some (calid, cal) /\
    ZonedDateTime.private z
      = ZonedDateTime.mkPrivate (Temporal.mkZonedDateTime e tzid rules calid cal)
                                timeZone (isSupported timeZone) /\
    wallClock z
      = fieldsOf (Temporal.mkPlainDateTime (e + ZonedDateTime.offsetNanoseconds z) calid cal) /\
    timeZoneOffsetNanosecondsFor timeZone (Temporal.mkInstant e)
      = Some (ZonedDateTime.offsetNanoseconds z).
Proof.
  intro Hnew.
  pose proof (constructed_toPlainDateTime _ _ _ _ Hnew) as Hread.
  destruct (new_epochNanoseconds _ _ _ _ Hnew) as [He _].
  destruct (new_inv _ _ _ _ Hnew) as [impl [pdt [Himpl [Hpriv [Hpdt [Hfields _]]]]]].
  destruct (engine_new_inv _ _ _ _ Himpl) as [_ [tzid [rules [calid [cal [Htz [Hc Himpl']]]]]]].
  subst impl. exists tzid, rules, calid, cal.
  split; [exact Htz|]. split; [exact Hc|]. split; [exact Hpriv|]. split.
  - rewrite Hfields. rewrite Hpdt in Hread. injection Hread as ->.
    rewrite He. unfold ZonedDateTime.impl. rewrite Hpriv. reflexivity.
  - unfold ZonedDateTime.offsetNanoseconds. rewrite Hpriv.
    unfold ZonedDateTime.offsetNanoseconds_, timeZoneOffsetNanosecondsFor. simpl.
    unfold engineZone in Htz.
    destruct (isSupported timeZone).
    + rewrite Htz. reflexivity.
    + unfold Temporal.ZonedDateTime.epochMilliseconds. simpl.
      change (Z.pow_pos 10 6) with (10^6). change (Z.pow_pos 10 9) with (10^9).
      rewrite Z.div_div by lia. reflexivity.
Qed.

(** C8.  For a held instance [z], [z.withTimeZone(tz)] and
    [z.withCalendar(c)] each return a new instance whose epochNanoseconds
    is that of [z], and only the swapped capability differs.  The result of
    [withTimeZone] holds [tz], is IANA exactly when [tz] is, keeps the
    calendar of [z] (identifier and calendar), has the offset that [tz]
    reports for the instant of [z], and stores the fields of that instant
    at that offset in the calendar of [z].  The result of [withCalendar]
    keeps the zone of [z] (the zone held, the engine's zone and rules, the
    offset), is in the calendar that [c] names, and stores the fields of
    the wall-clock position of [z] in that calendar.  The new instance is a
    fresh entry of the store and the entry of [z] is left as it was.  The
    time zone is an IANA one or a rule-based one whose offsets stay below a
    day, and [c] names a calendar of the engine. *)
Theorem withTimeZone_withCalendar_keep_instant (calls : list Program.Call) (l : nat)
    (z : ZonedDateTime.t) (timeZone : ICAL.Timezone) (calendar : option string) :
  nth_error (Program.run calls) l = Some z ->
  isSupported timeZone = true \/ offsetsBelowOneDay timeZone ->
  (exists found, Temporal.lookupCalendar (calendarOrDefault calendar) = Some found) ->
  exists z1 z2,
    ZonedDateTime.withTimeZone z timeZone = Returns z1 /\
    ZonedDateTime.epochNanoseconds z1 = ZonedDateTime.epochNanoseconds z /\
    ZonedDateTime.p_timeZone (ZonedDateTime.private z1) = timeZone /\
    ZonedDateTime.isIANA z1 = isSupported timeZone /\
    Temporal.zdt_calendarId (ZonedDateTime.impl z1)
      = Temporal.zdt_calendarId (ZonedDateTime.impl z) /\
    Temporal.zdt_calendar (ZonedDateTime.impl z1)
      = Temporal.zdt_calendar (ZonedDateTime.impl z) /\
    timeZoneOffsetNanosecondsFor timeZone (ZonedDateTime.toInstant z)
      = Some (ZonedDateTime.offsetNanoseconds z1) /\
    wallClock z1
      = fieldsOf (Temporal.mkPlainDateTime
                    (ZonedDateTime.epochNanoseconds z + ZonedDateTime.offsetNanoseconds z1)
                    (Temporal.zdt_calendarId (ZonedDateTime.impl z))
                    (Temporal.zdt_calendar (ZonedDateTime.impl z))) /\
    ZonedDateTime.withCalendar z calendar = Returns z2 /\
    ZonedDateTime.epochNanoseconds z2 = ZonedDateTime.epochNanoseconds z /\
    ZonedDateTime.p_timeZone (ZonedDateTime.private z2)
      = ZonedDateTime.p_timeZone (ZonedDateTime.private z) /\
    ZonedDateTime.isIANA z2 = ZonedDateTime.isIANA z /\
    Temporal.zdt_timeZoneId (ZonedDateTime.impl z2)
      = Temporal.zdt_timeZoneId (ZonedDateTime.impl z) /\
    Temporal.zdt_rules (ZonedDateTime.impl z2)
      = Temporal.zdt_rules (ZonedDateTime.impl z) /\
    ZonedDateTime.offsetNanoseconds z2 = ZonedDateTime.offsetNanoseconds z /\
    ZonedDateTime.calendar z2 = calendarOrDefault calendar /\
    Temporal.lookupCalendar (calendarOrDefault calendar)
      = Some (Temporal.zdt_calendarId (ZonedDateTime.impl z2),
              Temporal.zdt_calendar (ZonedDateTime.impl z2)) /\
    wallClock z2
      = fieldsOf (Temporal.mkPlainDateTime
                    (ZonedDateTime.epochNanoseconds z + ZonedDateTime.offsetNanoseconds z)
                    (Temporal.zdt_calendarId (ZonedDateTime.impl z2))
                    (Temporal.zdt_calendar (ZonedDateTime.impl z2))) /\
    Program.step (Program.run calls) (Program.WithTimeZone l timeZone)
      = Program.run calls ++ [z1] /\
    Program.step (Program.run calls) (Program.WithCalendar l calendar)
      = Program.run calls ++ [z2] /\
    nth_error (Program.run calls ++ [z1]) l = Some z /\
    nth_error (Program.run calls ++ [z2]) l = Some z.
Proof.
  intros Hl Hzone Hcal.
  destruct (run_holds_constructed _ _ _ Hl) as [e [tz0 [c0 Hnew]]].
  destruct (new_epochNanoseconds _ _ _ _ Hnew) as [He Hvalid].
  destruct (new_details _ _ _ _ Hnew)
    as [tzid [rules [calid [cal [Htz0 [Hc0 [Hpriv [_ _]]]]]]]].
  assert (ZonedDateTime.impl z = Temporal.mkZonedDateTime e tzid rules calid cal) as Himpl
    by (unfold ZonedDateTime.impl; rewrite Hpriv; reflexivity).
  assert (ZonedDateTime.p_timeZone (ZonedDateTime.private z) = tz0) as Hzone0
    by (rewrite Hpriv; reflexivity).
  pose proof (lookupCalendar_canonical _ _ _ Hc0) as Hcanonical.
  (* withTimeZone *)
  destruct (new_succeeds e timeZone (Some calid) Hvalid) as [z1 H1];
    [exists (calid, cal); exact Hcanonical | exact Hzone |].
  (* withCalendar *)
  destruct (new_same_zone _ _ _ calendar _ Hnew Hcal) as [z2 H2].
  assert (ZonedDateTime.withTimeZone z timeZone = Returns z1) as Hw1.
  { unfold ZonedDateTime.withTimeZone. rewrite Himpl. exact H1. }
  assert (ZonedDateTime.withCalendar z calendar = Returns z2) as Hw2.
  { unfold ZonedDateTime.withCalendar. rewrite Hzone0, Himpl. exact H2. }
  exists z1, z2.
  destruct (new_epochNanoseconds _ _ _ _ H1) as [He1 _].
  destruct (new_epochNanoseconds _ _ _ _ H2) as [He2 _].
  destruct (new_details _ _ _ _ H1)
    as [tzid1 [rules1 [calid1 [cal1 [Htz1 [Hc1 [Hpriv1 [Hfields1 Hoffset1]]]]]]]].
  destruct (new_details _ _ _ _ H2)
    as [tzid2 [rules2 [calid2 [cal2 [Htz2 [Hc2 [Hpriv2 [Hfields2 _]]]]]]]].
  destruct (new_inv _ _ _ _ H2) as [_ [_ [_ [_ [_ [_ [Hcal2 _]]]]]]].
  change (calendarOrDefault (Some calid)) with calid in Hc1. rewrite Hcanonical in Hc1.
  injection Hc1 as <- <-.
  rewrite Htz0 in Htz2. injection Htz2 as <- <-.
  assert (ZonedDateTime.offsetNanoseconds z2 = ZonedDateTime.offsetNanoseconds z) as Hoffset2.
  { unfold ZonedDateTime.offsetNanoseconds. rewrite Hpriv, Hpriv2.
    unfold ZonedDateTime.offsetNanoseconds_. simpl. reflexivity. }
  assert (nth_error (Program.run calls) l <> None) as Hlt by congruence.
  apply nth_error_Some in Hlt.
  unfold ZonedDateTime.toInstant, ZonedDateTime.isIANA, ZonedDateTime.impl.
  rewrite Hpriv, Hpriv1, Hpriv2. cbn [ZonedDateTime.p_impl ZonedDateTime.p_isIANA
    ZonedDateTime.p_timeZone Temporal.zdt_calendarId Temporal.zdt_calendar
    Temporal.zdt_timeZoneId Temporal.zdt_rules Temporal.ZonedDateTime.toInstant
    Temporal.zdt_epochNanoseconds].
  rewrite He, He1, He2.
  repeat split; try reflexivity.
  - exact Hw1.
  - exact Hoffset1.
  - exact Hfields1.
  - exact Hw2.
  - exact Hoffset2.
  - exact Hcal2.
  - exact Hc2.
  - rewrite <- Hoffset2. exact Hfields2.
  - apply step_on. simpl. unfold Program.on. rewrite Hl. now rewrite Hw1.
  - apply step_on. simpl. unfold Program.on. rewrite Hl. now rewrite Hw2.
  - rewrite nth_error_app1 by exact Hlt. exact Hl.
  - rewrite nth_error_app1 by exact Hlt. exact Hl.
Qed.

(** ** Round trip and offset consistency *)


(** C3.  [z.offsetNanoseconds] is the offset z's time zone reports for
    [z.toInstant()], for an IANA zone and for a rule-based zone; for a
    rule-based zone fixed at -07:00 it is exactly -7*3600e9, whatever the
    instant. *)
Theorem offsetNanoseconds_is_the_zone_offset (e : Z) (timeZone : ICAL.Timezone)
    (calendar : option string) (z : ZonedDateTime.t) :
  ZonedDateTime.new e timeZone calendar = Returns z ->
  timeZoneOffsetNanosecondsFor (ZonedDateTime.p_timeZone (ZonedDateTime.private z))
                               (ZonedDateTime.toInstant z)
    = Some (ZonedDateTime.offsetNanoseconds z) /\
  (isSupported timeZone = false ->
   (forall time, ICAL.utcOffset timeZone time = -7 * 3600) ->
   ZonedDateTime.offsetNanoseconds z = -7 * 3600 * 10^9).
Proof.
  intro Hnew.
  destruct (new_epochNanoseconds _ _ _ _ Hnew) as [He _].
  destruct (new_inv _ _ _ _ Hnew) as [impl [pdt [Himpl [Hpriv _]]]].
  destruct (engine_new_inv _ _ _ _ Himpl) as [_ [tzid [rules [calid [cal [Htz [_ Himpl']]]]]]].
  unfold ZonedDateTime.offsetNanoseconds, ZonedDateTime.toInstant, ZonedDateTime.impl.
  rewrite Hpriv, Himpl'. unfold ZonedDateTime.offsetNanoseconds_. simpl.
  unfold timeZoneOffsetNanosecondsFor. simpl.
  unfold engineZone in Htz.
  destruct (isSupported timeZone) eqn:Hsup.
  - rewrite Htz. split; [reflexivity | discriminate].
  - unfold Temporal.ZonedDateTime.epochMilliseconds. simpl.
    change (Z.pow_pos 10 6) with (10^6). change (Z.pow_pos 10 9) with (10^9).
    rewrite Z.div_div by lia. change (10^6 * 1000) with (10^9).
    split; [reflexivity|].
    intros _ Hfixed. rewrite Hfixed. reflexivity.
Qed.

(** ** Differences, equality, strings, coercion *)

Lemma balanceTime_total (ns : Z) (largest : Temporal.TimeUnit) :
  Temporal.timeNanoseconds (Temporal.ZonedDateTime.balanceTime ns largest) = ns.
Proof.
  unfold Temporal.ZonedDateTime.balanceTime, Temporal.timeNanoseconds.
  destruct largest; cbn [Temporal.ZonedDateTime.unitRank Z.leb Z.compare Pos.compare
                         Pos.compare_cont Temporal.hours Temporal.minutes Temporal.seconds
                         Temporal.milliseconds Temporal.microseconds Temporal.nanoseconds];
    ring.
Qed.

(** An integer below 2^53 in magnitude is a number as it is. *)
Lemma toNumber_small (n : Z) : Z.abs n < 2^53 -> Temporal.toNumber n = n.
Proof. intro H. unfold Temporal.toNumber. apply Z.ltb_lt in H. now rewrite H. Qed.

Lemma quot_bound (n c : Z) :
  0 < c -> Z.abs (Z.quot n c) * c <= Z.abs n /\ Z.abs (n - Z.quot n c * c) < c.
Proof.
  intro Hc. split.
  - rewrite <- Z.quot_abs by lia. rewrite (Z.abs_eq c) by lia.
    pose proof (Z.mul_quot_le (Z.abs n) c (Z.abs_nonneg n) ltac:(lia)). lia.
  - replace (n - Z.quot n c * c) with (Z.rem n c)
      by (pose proof (Z.quot_rem' n c); lia).
    pose proof (Z.rem_bound_abs n c ltac:(lia)). lia.
Qed.

Ltac quot_bounds :=
  repeat match goal with
         | |- context [Z.quot ?n ?c] =>
             lazymatch goal with
             | _ : Z.abs (Z.quot n c) * c <= Z.abs n /\ _ |- _ => fail
             | _ => pose proof (quot_bound n c ltac:(lia))
             end
         end.

(** A difference of less than 2^53 of its largest unit is stored as it is. *)
Lemma numbers_exact (ns : Z) (largest : Temporal.TimeUnit) :
  Z.abs ns < 2^53 * Temporal.unitNanoseconds largest ->
  Temporal.numbers (Temporal.ZonedDateTime.balanceTime ns largest)
  = Temporal.ZonedDateTime.balanceTime ns largest.
Proof.
  unfold Temporal.numbers, Temporal.ZonedDateTime.balanceTime.
  destruct largest;
    cbn [Temporal.unitNanoseconds Temporal.ZonedDateTime.unitRank Z.leb Z.compare
         Pos.compare Pos.compare_cont Temporal.years Temporal.months Temporal.weeks
         Temporal.days Temporal.hours Temporal.minutes Temporal.seconds
         Temporal.milliseconds Temporal.microseconds Temporal.nanoseconds];
    change (2^53) with 9007199254740992;
    change (3600 * 10^9) with 3600000000000; change (60 * 10^9) with 60000000000;
    change (10^9) with 1000000000; change (10^6) with 1000000; change (10^3) with 1000;
    intro Hbound; quot_bounds;
    rewrite !toNumber_small by (change (2^53) with 9007199254740992; lia);
    reflexivity.
Qed.

Lemma difference_in_range (e e' : Z) (largest : Temporal.TimeUnit) :
  Temporal.isValidEpochNanoseconds e = true ->
  Temporal.isValidEpochNanoseconds e' = true ->
  secondOrLarger largest = true ->
  Z.abs (e' - e) < 2^53 * Temporal.unitNanoseconds largest.
Proof.
  unfold Temporal.isValidEpochNanoseconds, Temporal.nsMaxInstant, Temporal.nsPerDay.
  rewrite !andb_true_iff, !Z.leb_le.
  change (10^8 * (86400 * 10^9)) with 8640000000000000000000.
  change (2^53) with 9007199254740992.
  intros He He' Hunit.
  destruct largest; try discriminate Hunit;
    cbn [Temporal.unitNanoseconds];
    change (3600 * 10^9) with 3600000000000; change (60 * 10^9) with 60000000000;
    change (10^9) with 1000000000; lia.
Qed.

(** A bag that asks for a time unit and no rounding gets past the guard of
    [until], and the engine spreads the difference of the two instants. *)
Lemma until_forwarded (z other : ZonedDateTime.t) (options : option Temporal.Options)
    (largest : Temporal.TimeUnit) :
  Temporal.ZonedDateTime.differenceUnit options = Some largest ->
  isGuardedUnit (requestedLargestUnit options) = false /\
  ZonedDateTime.until z other options
  = Returns (Temporal.numbers
               (Temporal.ZonedDateTime.balanceTime
                  (ZonedDateTime.epochNanoseconds other - ZonedDateTime.epochNanoseconds z)
                  largest)).
Proof.
  intro Hunit.
  assert (isGuardedUnit (requestedLargestUnit options) = false) as Hguard.
  { unfold Temporal.ZonedDateTime.differenceUnit in Hunit. unfold requestedLargestUnit.
    destruct options as [o|]; [|reflexivity].
    destruct (Temporal.smallestUnit o); [discriminate|].
    destruct (Temporal.roundingIncrement o); [discriminate|].
    destruct (Temporal.largestUnit o) as [u|]; [|reflexivity].
    destruct u; try reflexivity; discriminate Hunit. }
  split; [exact Hguard|].
  unfold ZonedDateTime.until. fold (requestedLargestUnit options).
  assert (forall c : Completion Temporal.Duration,
             match requestedLargestUnit options with
             | Temporal.unit_year | Temporal.unit_month | Temporal.unit_week
             | Temporal.unit_day => Throws ZonedDateTime.notImplemented
             | _ => c
             end = c) as Hpass
    by (intro c; destruct (requestedLargestUnit options); try reflexivity;
        discriminate Hguard).
  rewrite Hpass. unfold Temporal.ZonedDateTime.until. rewrite Hunit. reflexivity.
Qed.


(** The guard of [until] goes by the name given as largestUnit: a plural
    calendar unit, or a calendar unit given as smallestUnit only, is not
    one of its four strings, and the call reaches the engine, whose
    difference in calendar units is the host's. *)
Lemma until_guard_goes_by_name (z other : ZonedDateTime.t) (options : Temporal.Options) :
  Temporal.largestUnit options = Some Temporal.unit_days
  \/ (Temporal.largestUnit options = None
      /\ Temporal.smallestUnit options = Some Temporal.unit_day) ->
  ZonedDateTime.until z other (Some options)
  = Temporal.host_until (ZonedDateTime.impl z) (ZonedDateTime.impl other) (Some options).
Proof.
  unfold ZonedDateTime.until, Temporal.ZonedDateTime.until,
    Temporal.ZonedDateTime.differenceUnit.
  intros [Hplural|[Hnone Hsmallest]].
  - rewrite Hplural. simpl.
    destruct (Temporal.smallestUnit options); destruct (Temporal.roundingIncrement options);
      reflexivity.
  - rewrite Hnone, Hsmallest. reflexivity.
Qed.

(** C5.  On an instance built over a rule-based (non-IANA) time zone
    [toString], [toJSON] and [toLocaleString] throw the not-implemented
    error; over an IANA zone each hands the call to the engine's value and
    returns what the engine's formatter returns; [toJSON()] is [toString()]
    in every case. *)
Theorem strings_defer_or_are_not_implemented (e : Z) (timeZone : ICAL.Timezone)
    (calendar : option string) (z : ZonedDateTime.t)
    (options : option Temporal.ToStringOptions) (locales : option Temporal.Locales)
    (format : option Temporal.FormatOptions) :
  ZonedDateTime.new e timeZone calendar = Returns z ->
  ZonedDateTime.toJSON z = ZonedDateTime.toString z None /\
  (isSupported timeZone = false ->
   ZonedDateTime.toString z options = Throws (Error "not implemented") /\
   ZonedDateTime.toJSON z = Throws (Error "not implemented") /\
   ZonedDateTime.toLocaleString z locales format = Throws (Error "not implemented")) /\
  (isSupported timeZone = true ->
   ZonedDateTime.toString z options
     = Temporal.host_toString (ZonedDateTime.impl z) options /\
   ZonedDateTime.toJSON z = Temporal.host_toString (ZonedDateTime.impl z) None /\
   ZonedDateTime.toLocaleString z locales format
     = Temporal.host_toLocaleString (ZonedDateTime.impl z) locales format /\
   Temporal.ZonedDateTime.new e (ICAL.tzid timeZone) (calendarOrDefault calendar)
     = Returns (ZonedDateTime.impl z)).
Proof.
  intro Hnew.
  destruct (new_inv _ _ _ _ Hnew) as [impl [pdt [Himpl [Hpriv _]]]].
  unfold ZonedDateTime.toJSON, ZonedDateTime.toString, ZonedDateTime.toLocaleString,
         ZonedDateTime.isIANA, ZonedDateTime.impl.
  rewrite Hpriv. simpl.
  split; [reflexivity|]. split; intro Hsup; rewrite Hsup.
  - repeat split; reflexivity.
  - repeat split; try reflexivity.
    unfold engineZone in Himpl. rewrite Hsup in Himpl. exact Himpl.
Qed.

(** C7, as amended.  [equals] compares the two engine values (instant,
    time-zone identifier and calendar identifier) when both operands are
    over IANA zones; when either is over a rule-based zone it throws the
    not-implemented error, an [Error] that is not a TypeError. *)
Theorem equals_iana_or_not_implemented (z other : ZonedDateTime.t) :
  (ZonedDateTime.isIANA z && ZonedDateTime.isIANA other = true ->
   ZonedDateTime.equals z other =
   Returns ((ZonedDateTime.epochNanoseconds z =? ZonedDateTime.epochNanoseconds other)
            && String.eqb (Temporal.zdt_timeZoneId (ZonedDateTime.impl z))
                          (Temporal.zdt_timeZoneId (ZonedDateTime.impl other))
            && String.eqb (Temporal.zdt_calendarId (ZonedDateTime.impl z))
                          (Temporal.zdt_calendarId (ZonedDateTime.impl other)))) /\
  (ZonedDateTime.isIANA z && ZonedDateTime.isIANA other = false ->
   ZonedDateTime.equals z other = Throws (Error "not implemented") /\
   ZonedDateTime.equals z other <> Throws TypeError).
Proof.
  unfold ZonedDateTime.equals.
  split; intro H; rewrite H.
  - reflexivity.
  - split; [reflexivity | discriminate].
Qed.

(** C10.  [z.valueOf()] throws a TypeError for every instance, over an
    IANA zone or a rule-based one, and so never yields a primitive. *)
Theorem valueOf_always_throws_TypeError (A : Type) (z : ZonedDateTime.t) :
  ZonedDateTime.valueOf (A := A) z = Throws TypeError /\
  (forall primitive : A, ZonedDateTime.valueOf z <> Returns primitive).
Proof.
  split; [reflexivity | intros primitive H; discriminate H].
Qed.

(** ** [add] and [startOfDay], case by case *)

Lemma lookupTimeZone_None_not_supported (timeZone : ICAL.Timezone) :
  Temporal.lookupTimeZone (ICAL.tzid timeZone) = None -> isSupported timeZone = false.
Proof.
  intro Hnone. destruct (isSupported timeZone) eqn:Hsup; [|reflexivity].
  apply existsb_eqb_In in Hsup.
  destruct (lookupTimeZone_supported _ Hsup) as [found Hfound]. congruence.
Qed.

(** A zone that has a name takes the engine branch of [fromPlainDateTime];
    a name the engine does not know is a RangeError there. *)
Lemma fromPlainDateTime_named_unknown (pdt : Temporal.PlainDateTime.t)
    (timeZone : ICAL.Timezone) (options : option Temporal.Options) :
  String.eqb (ICAL.tzid timeZone) "" = false ->
  Temporal.lookupTimeZone (ICAL.tzid timeZone) = None ->
  ZonedDateTime.fromPlainDateTime pdt timeZone options = Throws RangeError.
Proof.
  intros Hnamed Hnone. unfold ZonedDateTime.fromPlainDateTime. rewrite Hnamed. simpl.
  unfold Temporal.PlainDateTime.toZonedDateTime. rewrite Hnone. reflexivity.
Qed.

(** The wall-clock value [startOfDay] hands to [fromPlainDateTime]: the
    date of the instance, at 00:00. *)
Lemma withPlainTime_midnight (pdt : Temporal.PlainDateTime.t) :
  fieldsOf (Temporal.PlainDateTime.withPlainTime pdt Temporal.PlainTime.from_0000) =
  (Temporal.PlainDateTime.era pdt, Temporal.PlainDateTime.eraYear pdt,
   Temporal.PlainDateTime.year pdt, Temporal.PlainDateTime.month pdt,
   Temporal.PlainDateTime.monthCode pdt, Temporal.PlainDateTime.day pdt,
   0, 0, 0, 0, 0, 0).
Proof.
  assert (Temporal.nsPerDay <> 0) as Hne by (unfold Temporal.nsPerDay; lia).
  assert (Temporal.PlainDateTime.epochDay
            (Temporal.PlainDateTime.withPlainTime pdt Temporal.PlainTime.from_0000)
          = Temporal.PlainDateTime.epochDay pdt) as Hday.
  { unfold Temporal.PlainDateTime.withPlainTime, Temporal.PlainDateTime.epochDay at 1. simpl.
    change (Temporal.PlainTime.nanosecondOfDay Temporal.PlainTime.from_0000) with 0.
    rewrite Z.add_0_r. now apply Z.div_mul. }
  assert (Temporal.PlainDateTime.nanosecondOfDay
            (Temporal.PlainDateTime.withPlainTime pdt Temporal.PlainTime.from_0000)
          = 0) as Htime.
  { unfold Temporal.PlainDateTime.withPlainTime, Temporal.PlainDateTime.nanosecondOfDay. simpl.
    change (Temporal.PlainTime.nanosecondOfDay Temporal.PlainTime.from_0000) with 0.
    rewrite Z.add_0_r. now apply Z.mod_mul. }
  unfold fieldsOf, Temporal.PlainDateTime.era, Temporal.PlainDateTime.eraYear,
    Temporal.PlainDateTime.year, Temporal.PlainDateTime.month,
    Temporal.PlainDateTime.monthCode, Temporal.PlainDateTime.day,
    Temporal.PlainDateTime.hour, Temporal.PlainDateTime.minute,
    Temporal.PlainDateTime.second, Temporal.PlainDateTime.millisecond,
    Temporal.PlainDateTime.microsecond, Temporal.PlainDateTime.nanosecond.
  rewrite Hday, Htime. reflexivity.
Qed.

Lemma startOfDay_named_rule_based (e : Z) (timeZone : ICAL.Timezone)
    (calendar : option string) (z : ZonedDateTime.t) :
  ZonedDateTime.new e timeZone calendar = Returns z ->
  String.eqb (ICAL.tzid timeZone) "" = false ->
  Temporal.lookupTimeZone (ICAL.tzid timeZone) = None ->
  ZonedDateTime.startOfDay z = Throws RangeError.
Proof.
  intros Hnew Hnamed Hnone.
  destruct (new_inv _ _ _ _ Hnew) as [impl [pdt [_ [Hpriv [Hpdt _]]]]].
  unfold ZonedDateTime.startOfDay. rewrite Hpdt, Hpriv. simpl.
  now apply fromPlainDateTime_named_unknown.
Qed.

Lemma add_named_rule_based (e : Z) (timeZone : ICAL.Timezone)
    (calendar : option string) (z : ZonedDateTime.t) (duration : Temporal.Duration)
    (options : option Temporal.Options) :
  ZonedDateTime.new e timeZone calendar = Returns z ->
  String.eqb (ICAL.tzid timeZone) "" = false ->
  Temporal.lookupTimeZone (ICAL.tzid timeZone) = None ->
  ZonedDateTime.hasNoCalendarUnits duration = false ->
  exists err, ZonedDateTime.add z duration options = Throws err.
Proof.
  intros Hnew Hnamed Hnone Hunits.
  destruct (new_inv _ _ _ _ Hnew) as [impl [pdt [_ [Hpriv [Hpdt _]]]]].
  unfold ZonedDateTime.add, ZonedDateTime.isIANA.
  rewrite Hpriv, Hunits, Hpdt. simpl.
  rewrite (lookupTimeZone_None_not_supported _ Hnone). simpl.
  destruct (Temporal.PlainDateTime.add pdt _ options) as [pdt'|err]; simpl;
    [|now exists err].
  rewrite fromPlainDateTime_named_unknown by assumption. now exists RangeError.
Qed.

Lemma validDuration_timePart (d : Temporal.Duration) :
  Temporal.validDuration d = true ->
  Temporal.validDuration
    (Temporal.mkDuration 0 0 0 0 (Temporal.hours d) (Temporal.minutes d)
       (Temporal.seconds d) (Temporal.milliseconds d) (Temporal.microseconds d)
       (Temporal.nanoseconds d)) = true.
Proof.
  unfold Temporal.validDuration, Temporal.durationFields. simpl.
  intro H. apply orb_true_iff in H. apply orb_true_iff.
  destruct H as [H|H]; [left|right]; rewrite !andb_true_iff in *; intuition.
Qed.

Lemma add_viaImpl_time_only (z : ZonedDateTime.t) (duration : Temporal.Duration)
    (options : option Temporal.Options) :
  ZonedDateTime.hasNoCalendarUnits duration = true ->
  Temporal.validDuration duration = true ->
  ZonedDateTime.add_viaImpl z duration options =
  e <- Temporal.ZonedDateTime.addInstant (ZonedDateTime.epochNanoseconds z)
         (Temporal.timeNanoseconds duration) ;;
  ZonedDateTime.new e (ZonedDateTime.p_timeZone (ZonedDateTime.private z))
    (Some (Temporal.ZonedDateTime.calendarId (ZonedDateTime.impl z))).
Proof.
  intros Hunits Hvalid.
  unfold ZonedDateTime.add_viaImpl, Temporal.ZonedDateTime.add, Temporal.Duration_from.
  rewrite Hvalid. simpl.
  change (Temporal.ZonedDateTime.hasNoCalendarUnits duration)
    with (ZonedDateTime.hasNoCalendarUnits duration).
  rewrite Hunits. simpl. unfold ZonedDateTime.epochNanoseconds.
  destruct (Temporal.ZonedDateTime.addInstant _ _); reflexivity.
Qed.

(** A duration without calendar units is an exact shift of the instant. *)
Lemma add_time_only_exact_shift (z : ZonedDateTime.t) (duration : Temporal.Duration)
    (options : option Temporal.Options) :
  ZonedDateTime.hasNoCalendarUnits duration = true ->
  Temporal.validDuration duration = true ->
  ZonedDateTime.add z duration options =
  e <- Temporal.ZonedDateTime.addInstant (ZonedDateTime.epochNanoseconds z)
         (Temporal.timeNanoseconds duration) ;;
  ZonedDateTime.new e (ZonedDateTime.p_timeZone (ZonedDateTime.private z))
    (Some (Temporal.ZonedDateTime.calendarId (ZonedDateTime.impl z))).
Proof.
  intros Hunits Hvalid. unfold ZonedDateTime.add. rewrite Hunits, orb_true_r.
  now apply add_viaImpl_time_only.
Qed.

(** Over a rule-based zone a duration with calendar units goes through the
    wall clock: PlainDateTime arithmetic on the calendar part, then
    [fromPlainDateTime] with [compatible], then an exact shift by the time
    part. *)
Lemma add_rule_based_two_phase (z : ZonedDateTime.t) (duration : Temporal.Duration)
    (options : option Temporal.Options) :
  ZonedDateTime.isIANA z = false ->
  ZonedDateTime.hasNoCalendarUnits duration = false ->
  Temporal.validDuration duration = true ->
  ZonedDateTime.add z duration options =
  pdt0 <- ZonedDateTime.toPlainDateTime z ;;
  pdt <- Temporal.PlainDateTime.add pdt0 (Temporal.ZonedDateTime.calendarPart duration)
           options ;;
  intermediate <- ZonedDateTime.fromPlainDateTime pdt
                    (ZonedDateTime.p_timeZone (ZonedDateTime.private z))
                    (Some (Temporal.mkOptions None (Some Temporal.compatible) None)) ;;
  e <- Temporal.ZonedDateTime.addInstant (ZonedDateTime.epochNanoseconds intermediate)
         (Temporal.timeNanoseconds duration) ;;
  ZonedDateTime.new e (ZonedDateTime.p_timeZone (ZonedDateTime.private intermediate))
    (Some (Temporal.ZonedDateTime.calendarId (ZonedDateTime.impl intermediate))).
Proof.
  intros Hrule Hunits Hvalid. unfold ZonedDateTime.add. rewrite Hrule, Hunits. simpl.
  destruct (ZonedDateTime.toPlainDateTime z) as [pdt0|err]; simpl; [|reflexivity].
  change (Temporal.mkDuration (Temporal.years duration) (Temporal.months duration)
            (Temporal.weeks duration) (Temporal.days duration) 0 0 0 0 0 0)
    with (Temporal.ZonedDateTime.calendarPart duration).
  destruct (Temporal.PlainDateTime.add pdt0 _ options) as [pdt|err]; simpl; [|reflexivity].
  destruct (ZonedDateTime.fromPlainDateTime pdt _ _) as [intermediate|err]; simpl;
    [|reflexivity].
  unfold Temporal.Duration_from. rewrite (validDuration_timePart _ Hvalid). simpl.
  rewrite add_viaImpl_time_only.
  - unfold Temporal.timeNanoseconds. simpl. reflexivity.
  - reflexivity.
  - exact (validDuration_timePart _ Hvalid).
Qed.

End Properties.

(** * The cookbook's events, run on the sample host *)

Section Cookbook.
Import Sample.

Lemma not_thrown {A : Type} (c : Completion A) :
  thrown c = None -> exists a, c = Returns a.
Proof. destruct c as [a|err]; [now exists a | discriminate]. Qed.

(** The events' instants construct an instance over their zones. *)
Lemma losAngeles_constructs :
  thrown (ZonedDateTime.new losAngelesStart tzLosAngeles None) = None /\
  thrown (ZonedDateTime.new losAngelesEnd tzLosAngeles None) = None.
Proof. split; vm_compute; reflexivity. Qed.

Lemma mountain_constructs :
  thrown (ZonedDateTime.new mountainStart tzMountain None) = None.
Proof. vm_compute. reflexivity. Qed.

(** Scenario A: 10:30 in Los Angeles is at -07:00, and [until] the end of
    the event is thirty minutes. *)
Example scenario_A :
  (z <- ZonedDateTime.new losAngelesStart tzLosAngeles None ;;
   Returns (wallClock z, ZonedDateTime.offsetNanoseconds z))
    = Returns ((None, None, 2012, 9, "M09", 11, 10, 30, 0, 0, 0, 0), -7 * hourNs) /\
  (z <- ZonedDateTime.new losAngelesStart tzLosAngeles None ;;
   other <- ZonedDateTime.new losAngelesEnd tzLosAngeles None ;;
   ZonedDateTime.until z other None) = Returns PT30M /\
  (z <- ZonedDateTime.new losAngelesStart tzLosAngeles None ;;
   ZonedDateTime.toString z None)
    = Returns "2012-09-11T10:30:00-07:00[America/Los_Angeles]".
Proof. repeat split; vm_compute; reflexivity. Qed.

(** Scenario B: the fixed -07:00 zone of the second event. *)
Example scenario_B :
  (z <- ZonedDateTime.new mountainStart tzMountain None ;;
   Returns (wallClock z, ZonedDateTime.offsetNanoseconds z))
    = Returns ((None, None, 2022, 12, "M12", 21, 9, 0, 0, 0, 0, 0), -7 * 3600 * 10^9) /\
  (z <- ZonedDateTime.new mountainStart tzMountain None ;; ZonedDateTime.toString z None)
    = Throws (Error "not implemented").
Proof. split; vm_compute; reflexivity. Qed.

(** Order dependence: one year and three days, then two and a half hours,
    from the eve of a leap day, against the two parts in the other order. *)
Example add_is_order_dependent :
  (z <- ZonedDateTime.new leapDayEve tzLosAngeles None ;;
   r <- ZonedDateTime.add z P1Y3DT2H30M None ;; ZonedDateTime.toString r None)
    = Returns "2013-03-04T01:30:00-08:00[America/Los_Angeles]" /\
  (z <- ZonedDateTime.new leapDayEve tzLosAngeles None ;;
   a <- ZonedDateTime.add z P1Y3D None ;;
   r <- ZonedDateTime.add a PT2H30M None ;; ZonedDateTime.toString r None)
    = Returns "2013-03-04T01:30:00-08:00[America/Los_Angeles]" /\
  (z <- ZonedDateTime.new leapDayEve tzLosAngeles None ;;
   a <- ZonedDateTime.add z PT2H30M None ;;
   r <- ZonedDateTime.add a P1Y3D None ;; ZonedDateTime.toString r None)
    = Returns "2013-03-03T01:30:00-08:00[America/Los_Angeles]".
Proof. repeat split; vm_compute; reflexivity. Qed.

(** A local midnight that does not exist: [startOfDay] over an IANA zone
    resolves it to the one instant after the gap. *)
Example startOfDay_in_a_gap :
  (z <- ZonedDateTime.new (1350788400 * secNs + 5 * hourNs)
          (mkFixedZone "America/Sao_Paulo" 0) None ;;
   s <- ZonedDateTime.startOfDay z ;; ZonedDateTime.toString s None)
    = Returns "2012-10-21T01:00:00-02:00[America/Sao_Paulo]".
Proof. vm_compute. reflexivity. Qed.

(** Over a rule-based zone without a name the second branch of
    [fromPlainDateTime] runs, and both methods return. *)
Example nameless_zone_goes_through_ical :
  (z <- ZonedDateTime.new mountainStart tzNameless None ;;
   s <- ZonedDateTime.startOfDay z ;;
   Returns (wallClock s, ZonedDateTime.epochNanoseconds s))
    = Returns ((None, None, 2022, 12, "M12", 21, 0, 0, 0, 0, 0, 0), 1671606000 * secNs) /\
  (z <- ZonedDateTime.new mountainStart tzNameless None ;;
   r <- ZonedDateTime.add z P1Y3DT2H30M None ;; Returns (wallClock r))
    = Returns (None, None, 2023, 12, "M12", 24, 11, 30, 0, 0, 0, 0).
Proof. split; vm_compute; reflexivity. Qed.

(** C6.  The start of the cookbook's second event, in the rule-based zone
    "US Mountain Standard Time": the instance is built, reads 2022-12-21T09:00,
    and [startOfDay()] throws a RangeError instead of returning the instance
    of 2022-12-21T00:00. *)
Theorem startOfDay_throws_on_named_rule_based_zone :
  (z <- ZonedDateTime.new mountainStart tzMountain None ;;
   Returns (ZonedDateTime.isIANA z, wallClock z))
    = Returns (false, (None, None, 2022, 12, "M12", 21, 9, 0, 0, 0, 0, 0)) /\
  thrown (z <- ZonedDateTime.new mountainStart tzMountain None ;; ZonedDateTime.startOfDay z)
    = Some RangeError.
Proof. split; vm_compute; reflexivity. Qed.

(** C1.  Scenario D on the cookbook's second event: [add(P1Y3DT2H30M)] on
    the instance over "US Mountain Standard Time" throws a RangeError; the
    calendar part is applied on the wall clock (2023-12-24T09:00), and
    [fromPlainDateTime] then fails on the zone's name. *)
Theorem add_throws_on_named_rule_based_zone :
  (z <- ZonedDateTime.new mountainStart tzMountain None ;;
   Returns (ZonedDateTime.isIANA z, wallClock z))
    = Returns (false, (None, None, 2022, 12, "M12", 21, 9, 0, 0, 0, 0, 0)) /\
  (z <- ZonedDateTime.new mountainStart tzMountain None ;;
   pdt0 <- ZonedDateTime.toPlainDateTime z ;;
   pdt <- Temporal.PlainDateTime.add pdt0 P1Y3D None ;;
   Returns (fieldsOf pdt))
    = Returns (None, None, 2023, 12, "M12", 24, 9, 0, 0, 0, 0, 0) /\
  thrown (z <- ZonedDateTime.new mountainStart tzMountain None ;;
          pdt0 <- ZonedDateTime.toPlainDateTime z ;;
          pdt <- Temporal.PlainDateTime.add pdt0 P1Y3D None ;;
          ZonedDateTime.fromPlainDateTime pdt tzMountain
            (Some (Temporal.mkOptions None (Some Temporal.compatible) None)))
    = Some RangeError /\
  thrown (z <- ZonedDateTime.new mountainStart tzMountain None ;;
          ZonedDateTime.add z P1Y3DT2H30M None)
    = Some RangeError.
Proof. repeat split; vm_compute; reflexivity. Qed.

(** C7, as stated, fails: [equals] on an instance over a rule-based zone
    throws the plain [Error] "not implemented", which is not a TypeError. *)
Lemma equals_rule_based_is_not_a_TypeError :
  thrown (ZonedDateTime.new mountainStart tzMountain None) = None /\
  thrown (z <- ZonedDateTime.new mountainStart tzMountain None ;; ZonedDateTime.equals z z)
    = Some (Error "not implemented") /\
  thrown (z <- ZonedDateTime.new mountainStart tzMountain None ;; ZonedDateTime.equals z z)
    <> Some TypeError.
Proof.
  split; [vm_compute; reflexivity|]. split; [vm_compute; reflexivity|].
  vm_compute. discriminate.
Qed.


(** ** The general theorems at the cookbook's events *)

Lemma sampleProgram_length : List.length (Program.run sampleProgram) = 3%nat.
Proof. vm_compute. reflexivity. Qed.

Lemma stored_fields_agree_for_life_witness :
  exists z,
    nth_error (Program.run sampleProgram) 1 = Some z /\
    constructed z /\
    (exists pdt, ZonedDateTime.toPlainDateTime z = Returns pdt /\ wallClock z = fieldsOf pdt).
Proof.
  destruct (nth_error (Program.run sampleProgram) 1) as [z|] eqn:Hz.
  - exists z. split; [reflexivity|].
    destruct (stored_fields_agree_for_life sampleProgram 1 z Hz) as [Hc [Ha _]].
    split; assumption.
  - exfalso. apply nth_error_None in Hz. rewrite sampleProgram_length in Hz. lia.
Defined.

Lemma withTimeZone_withCalendar_keep_instant_witness :
  exists z z1 z2,
    nth_error (Program.run sampleProgram) 1 = Some z /\
    ZonedDateTime.withTimeZone z tzPacific = Returns z1 /\
    ZonedDateTime.epochNanoseconds z1 = ZonedDateTime.epochNanoseconds z /\
    ZonedDateTime.p_timeZone (ZonedDateTime.private z1) = tzPacific /\
    Temporal.zdt_calendarId (ZonedDateTime.impl z1)
      = Temporal.zdt_calendarId (ZonedDateTime.impl z) /\
    ZonedDateTime.withCalendar z (Some "iso8601") = Returns z2 /\
    ZonedDateTime.epochNanoseconds z2 = ZonedDateTime.epochNanoseconds z /\
    ZonedDateTime.offsetNanoseconds z2 = ZonedDateTime.offsetNanoseconds z /\
    ZonedDateTime.calendar z2 = "iso8601" /\
    nth_error (Program.run sampleProgram ++ [z1]) 1 = Some z.
Proof.
  destruct (nth_error (Program.run sampleProgram) 1) as [z|] eqn:Hz.
  - assert (offsetsBelowOneDay tzPacific) as Hbound
      by (intro time; simpl; lia).
    assert (exists found,
               Temporal.lookupCalendar (calendarOrDefault (Some "iso8601")) = Some found)
      as Hcal by (exists ("iso8601", Temporal.iso8601); reflexivity).
    destruct (withTimeZone_withCalendar_keep_instant sampleProgram 1 z tzPacific
                (Some "iso8601") Hz (or_intror Hbound) Hcal)
      as (z1 & z2 & H1 & H2 & H3 & _ & H4 & _ & _ & _ & H5 & H6 & _ & _ & _ & _
          & H7 & H8 & _ & _ & _ & _ & H9 & _).
    exists z, z1, z2. repeat split; assumption.
  - exfalso. apply nth_error_None in Hz. rewrite sampleProgram_length in Hz. lia.
Defined.

(** The calendar goes with the instance into the new zone, and the zone
    stays under the new calendar: the instance of the second call of the
    sample program, in the Gregorian calendar, moved to a zone at -08:00,
    and the instance of the first call put into the Gregorian calendar. *)
Example swapped_capabilities :
  (z <- ZonedDateTime.new losAngelesStart tzLosAngeles (Some "gregory") ;;
   z1 <- ZonedDateTime.withTimeZone z tzPacific ;;
   Returns (ZonedDateTime.calendar z1, ZonedDateTime.era z1, ZonedDateTime.hour z1,
            ZonedDateTime.offsetNanoseconds z1))
    = Returns ("gregory", Some "ce", 9, -8 * hourNs) /\
  (z <- ZonedDateTime.new losAngelesStart tzLosAngeles None ;;
   z2 <- ZonedDateTime.withCalendar z (Some "gregory") ;;
   Returns (ZonedDateTime.calendar z2, ZonedDateTime.era z2, ZonedDateTime.hour z2,
            ZonedDateTime.offsetNanoseconds z2, ZonedDateTime.timeZone z2))
    = Returns ("gregory", Some "ce", 10, -7 * hourNs, Some "America/Los_Angeles").
Proof. split; vm_compute; reflexivity. Qed.


Lemma offsetNanoseconds_is_the_zone_offset_witness :
  exists z,
    ZonedDateTime.new mountainStart tzMountain None = Returns z /\
    timeZoneOffsetNanosecondsFor (ZonedDateTime.p_timeZone (ZonedDateTime.private z))
                                 (ZonedDateTime.toInstant z)
      = Some (ZonedDateTime.offsetNanoseconds z) /\
    ZonedDateTime.offsetNanoseconds z = -7 * 3600 * 10^9.
Proof.
  destruct (not_thrown _ mountain_constructs) as [z Hz]. exists z. split; [exact Hz|].
  destruct (offsetNanoseconds_is_the_zone_offset _ _ _ _ Hz) as [H1 H2].
  split; [exact H1|]. apply H2; [vm_compute; reflexivity | intro time; reflexivity].
Defined.



Lemma strings_defer_or_are_not_implemented_witness :
  exists named ruled,
    ZonedDateTime.new losAngelesStart tzLosAngeles None = Returns named /\
    ZonedDateTime.new mountainStart tzMountain None = Returns ruled /\
    ZonedDateTime.toString ruled None = Throws (Error "not implemented") /\
    ZonedDateTime.toJSON ruled = Throws (Error "not implemented") /\
    ZonedDateTime.toLocaleString ruled None None = Throws (Error "not implemented") /\
    ZonedDateTime.toJSON named = Temporal.host_toString (ZonedDateTime.impl named) None.
Proof.
  destruct losAngeles_constructs as [Hstart _].
  destruct (not_thrown _ Hstart) as [named Hn].
  destruct (not_thrown _ mountain_constructs) as [ruled Hr].
  destruct (strings_defer_or_are_not_implemented _ _ _ _ None None None Hr)
    as [_ [Hrule _]].
  destruct (Hrule ltac:(vm_compute; reflexivity)) as [H1 [H2 H3]].
  destruct (strings_defer_or_are_not_implemented _ _ _ _ None None None Hn)
    as [_ [_ Hiana]].
  destruct (Hiana ltac:(vm_compute; reflexivity)) as [_ [H4 _]].
  exists named, ruled. repeat split; assumption.
Defined.

Lemma equals_iana_or_not_implemented_witness :
  exists named ruled,
    ZonedDateTime.new losAngelesStart tzLosAngeles None = Returns named /\
    ZonedDateTime.new mountainStart tzMountain None = Returns ruled /\
    ZonedDateTime.equals named ruled = Throws (Error "not implemented") /\
    ZonedDateTime.equals named named = Returns true.
Proof.
  destruct losAngeles_constructs as [Hstart _].
  destruct (not_thrown _ Hstart) as [named Hn].
  destruct (not_thrown _ mountain_constructs) as [ruled Hr].
  assert (ZonedDateTime.isIANA named = true) as Hin
    by (rewrite (new_isIANA _ _ _ _ Hn); vm_compute; reflexivity).
  assert (ZonedDateTime.isIANA ruled = false) as Hir
    by (rewrite (new_isIANA _ _ _ _ Hr); vm_compute; reflexivity).
  destruct (equals_iana_or_not_implemented named ruled) as [_ Hrule].
  destruct (equals_iana_or_not_implemented named named) as [Hiana _].
  exists named, ruled. repeat split; try assumption.
  - apply Hrule. rewrite Hin, Hir. reflexivity.
  - rewrite Hiana by (rewrite Hin; reflexivity).
    now rewrite Z.eqb_refl, !String.eqb_refl.
Defined.

End Cookbook.

(** * Further properties of the class *)

(** ** Two-digit strings and the arithmetic of the time fields *)

Lemma below_100_cases (P : Z -> Prop) :
  (forall k : nat, (k < 100)%nat -> P (Z.of_nat k)) -> forall n, 0 <= n < 100 -> P n.
Proof.
  intros H n Hn. rewrite <- (Z2Nat.id n) by lia. apply H. lia.
Qed.

Lemma twoDigits_below_100 (n : Z) :
  0 <= n < 100 ->
  twoDigits n = String (digitChar (n / 10)) (String (digitChar (n mod 10)) EmptyString).
Proof.
  revert n. apply below_100_cases. intros k Hk.
  do 100 (destruct k as [|k]; [vm_compute; reflexivity|]). lia.
Qed.

Lemma twoDigitValue_digitChars (n : Z) :
  0 <= n < 100 -> twoDigitValue (digitChar (n / 10)) (digitChar (n mod 10)) = Some n.
Proof.
  revert n. apply below_100_cases. intros k Hk.
  do 100 (destruct k as [|k]; [vm_compute; reflexivity|]). lia.
Qed.

Lemma offset_fields_sum (a : Z) :
  0 <= a ->
  a / 3600000000000 * 3600 + (a / 60000000000) mod 60 * 60 + (a / 1000000000) mod 60
  = a / 1000000000.
Proof. intro Ha. Z.div_mod_to_equations. lia. Qed.

Lemma subsecond_fields_kept (t S K : Z) :
  let n := t mod 86400000000000 in
  let sub := (n / 1000000) mod 1000 * 1000000 + (n / 1000) mod 1000 * 1000 + n mod 1000 in
  let L := (S * 1000000000 + sub + K * 1000000000) mod 86400000000000 in
  (S * 1000000000 + sub) / 1000000000 = S /\
  (S * 1000000000 + sub) mod 1000000000 = n mod 1000000000 /\
  (L / 1000000) mod 1000 = (n / 1000000) mod 1000 /\
  (L / 1000) mod 1000 = (n / 1000) mod 1000 /\
  L mod 1000 = n mod 1000.
Proof. cbv zeta. Z.div_mod_to_equations. lia. Qed.

Lemma time_fields_recombine (t : Z) :
  let n := t mod 86400000000000 in
  (0 <= n / 3600000000000 < 24 /\ 0 <= (n / 60000000000) mod 60 < 60 /\
   0 <= (n / 1000000000) mod 60 < 60 /\ 0 <= (n / 1000000) mod 1000 < 1000 /\
   0 <= (n / 1000) mod 1000 < 1000 /\ 0 <= n mod 1000 < 1000) /\
  t / 86400000000000 * 86400000000000
  + (n / 3600000000000 * 3600000000000 + (n / 60000000000) mod 60 * 60000000000
     + (n / 1000000000) mod 60 * 1000000000 + (n / 1000000) mod 1000 * 1000000
     + (n / 1000) mod 1000 * 1000 + n mod 1000) = t.
Proof. cbv zeta. Z.div_mod_to_equations. lia. Qed.

Lemma quot_step (b : bool) (n c : Z) :
  0 < c ->
  (0 <= n -> 0 <= (if b then Z.quot n c else 0) /\ 0 <= n - (if b then Z.quot n c else 0) * c) /\
  (n <= 0 -> (if b then Z.quot n c else 0) <= 0 /\ n - (if b then Z.quot n c else 0) * c <= 0).
Proof.
  intro Hc. destruct b; [|lia].
  assert (n - Z.quot n c * c = Z.rem n c) as ->
    by (pose proof (Z.quot_rem' n c); lia).
  split; intro Hn.
  - split; [apply Z.quot_pos; lia | apply Z.rem_nonneg; lia].
  - split; [|apply Z.rem_nonpos; lia].
    replace n with (- - n) by lia. rewrite Z.quot_opp_l by lia.
    pose proof (Z.quot_pos (- n) c). lia.
Qed.


(** A number has the sign of the integer it stores. *)
Lemma toNumber_sign (x : Z) :
  (x = 0 /\ Temporal.toNumber x = 0) \/
  (0 < x /\ 0 < Temporal.toNumber x) \/
  (x < 0 /\ Temporal.toNumber x < 0).
Proof.
  unfold Temporal.toNumber.
  destruct (Z.ltb_spec (Z.abs x) (2^53)) as [Hsmall|Hlarge]; [lia|].
  cbv zeta. set (a := Z.abs x) in *.
  assert (0 < a) as Hpos by (change (2^53) with 9007199254740992 in Hlarge; lia).
  assert (53 <= Z.log2 a) as Hlog by (apply Z.log2_le_pow2; assumption).
  set (ulp := 2 ^ (Z.log2 a - 52)).
  assert (0 < ulp) as Hulp by (apply Z.pow_pos_nonneg; lia).
  assert (ulp <= a) as Hle.
  { pose proof (Z.log2_spec a Hpos) as [Hlow _].
    pose proof (Z.pow_le_mono_r 2 (Z.log2 a - 52) (Z.log2 a) ltac:(lia) ltac:(lia)).
    unfold ulp. lia. }
  assert (0 < a / ulp) as Hmantissa by (apply Z.div_str_pos; lia).
  set (rounded := if 2 * (a mod ulp) <? ulp then a / ulp
                  else if ulp <? 2 * (a mod ulp) then a / ulp + 1
                  else if Z.even (a / ulp) then a / ulp else a / ulp + 1).
  assert (0 < rounded) as Hrounded.
  { unfold rounded. destruct (2 * (a mod ulp) <? ulp); [lia|].
    destruct (ulp <? 2 * (a mod ulp)); [lia|].
    destruct (Z.even (a / ulp)); lia. }
  pose proof (Z.mul_pos_pos rounded ulp Hrounded Hulp) as Hproduct.
  destruct (Z.lt_trichotomy x 0) as [Hneg|[Hzero|Hposx]].
  - right. right. split; [exact Hneg|]. rewrite Z.sgn_neg by exact Hneg. lia.
  - exfalso. unfold a in Hpos. rewrite Hzero in Hpos. simpl in Hpos. lia.
  - right. left. split; [exact Hposx|]. rewrite Z.sgn_pos by exact Hposx. lia.
Qed.

Lemma balanceTime_signs (ns : Z) (largest : Temporal.TimeUnit) :
  let d := Temporal.ZonedDateTime.balanceTime ns largest in
  (0 <= ns ->
   0 <= Temporal.hours d /\ 0 <= Temporal.minutes d /\ 0 <= Temporal.seconds d /\
   0 <= Temporal.milliseconds d /\ 0 <= Temporal.microseconds d /\
   0 <= Temporal.nanoseconds d) /\
  (ns <= 0 ->
   Temporal.hours d <= 0 /\ Temporal.minutes d <= 0 /\ Temporal.seconds d <= 0 /\
   Temporal.milliseconds d <= 0 /\ Temporal.microseconds d <= 0 /\
   Temporal.nanoseconds d <= 0).
Proof.
  unfold Temporal.ZonedDateTime.balanceTime. cbv zeta.
  cbn [Temporal.hours Temporal.minutes Temporal.seconds
       Temporal.milliseconds Temporal.microseconds Temporal.nanoseconds].
  set (r := Temporal.ZonedDateTime.unitRank largest).
  pose proof (quot_step (5 <=? r) ns (3600 * 10^9) ltac:(lia)) as H1.
  set (h := if 5 <=? r then _ else 0) in *. set (n1 := ns - h * _) in *.
  pose proof (quot_step (4 <=? r) n1 (60 * 10^9) ltac:(lia)) as H2.
  set (mi := if 4 <=? r then _ else 0) in *. set (n2 := n1 - mi * _) in *.
  pose proof (quot_step (3 <=? r) n2 (10^9) ltac:(lia)) as H3.
  set (s := if 3 <=? r then _ else 0) in *. set (n3 := n2 - s * _) in *.
  pose proof (quot_step (2 <=? r) n3 (10^6) ltac:(lia)) as H4.
  set (ms := if 2 <=? r then _ else 0) in *. set (n4 := n3 - ms * _) in *.
  pose proof (quot_step (1 <=? r) n4 (10^3) ltac:(lia)) as H5.
  set (us := if 1 <=? r then _ else 0) in *. set (n5 := n4 - us * _) in *.
  split; intro Hns; intuition lia.
Qed.

(** The time units of a stored difference add up to a count of the sign of
    the exact one. *)
Lemma numbers_sign (ns : Z) (largest : Temporal.TimeUnit) :
  Z.sgn (Temporal.timeNanoseconds
           (Temporal.numbers (Temporal.ZonedDateTime.balanceTime ns largest)))
  = Z.sgn ns.
Proof.
  pose proof (balanceTime_total ns largest) as Htotal.
  pose proof (balanceTime_signs ns largest) as [Hnonneg Hnonpos]. cbv zeta in Hnonneg, Hnonpos.
  unfold Temporal.timeNanoseconds in *. unfold Temporal.numbers.
  cbn [Temporal.hours Temporal.minutes Temporal.seconds
       Temporal.milliseconds Temporal.microseconds Temporal.nanoseconds].
  set (d := Temporal.ZonedDateTime.balanceTime ns largest) in *.
  pose proof (toNumber_sign (Temporal.hours d)) as Hh.
  pose proof (toNumber_sign (Temporal.minutes d)) as Hmi.
  pose proof (toNumber_sign (Temporal.seconds d)) as Hs.
  pose proof (toNumber_sign (Temporal.milliseconds d)) as Hms.
  pose proof (toNumber_sign (Temporal.microseconds d)) as Hus.
  pose proof (toNumber_sign (Temporal.nanoseconds d)) as Hn.
  change (3600 * 10^9) with 3600000000000 in *. change (60 * 10^9) with 60000000000 in *.
  change (10^9) with 1000000000 in *. change (10^6) with 1000000 in *.
  change (10^3) with 1000 in *.
  destruct (Z.lt_trichotomy ns 0) as [Hneg|[Hzero|Hpos]].
  - rewrite (Z.sgn_neg ns) by exact Hneg. apply Z.sgn_neg.
    specialize (Hnonpos ltac:(lia)). lia.
  - specialize (Hnonneg ltac:(lia)). specialize (Hnonpos ltac:(lia)).
    rewrite (proj2 (Z.sgn_null_iff ns) Hzero). apply Z.sgn_null_iff. lia.
  - rewrite (Z.sgn_pos ns) by exact Hpos. apply Z.sgn_pos.
    specialize (Hnonneg ltac:(lia)). lia.
Qed.

Lemma Returns_inj {A : Type} (a b : A) : Returns a = Returns b -> a = b.
Proof. intro H. now injection H. Qed.

Section Further.
Context {host : Temporal.Host} {ical : ICAL.Library}.

(** ** The offset string *)

(** X1.  The [offset] getter writes the offset as a sign, two digits of
    hours, a colon and two digits of minutes, followed by a colon and two
    digits of seconds exactly when the offset is not a whole number of
    minutes: for an offset of less than a hundred hours the string has 6 or
    9 characters and reads back as the offset in whole seconds (truncated
    towards zero).  Over a rule-based zone whose offsets stay below one day
    it reads back as exactly the seconds that [utcOffset] of the zone
    answers for the instance's epoch second expressed in the zone. *)
Theorem offset_reads_back (z : ZonedDateTime.t) :
  (Z.abs (ZonedDateTime.offsetNanoseconds z) < 100 * (3600 * 10^9) ->
   parseOffset (ZonedDateTime.offset z)
     = Some (Z.quot (ZonedDateTime.offsetNanoseconds z) (10^9)) /\
   String.length (ZonedDateTime.offset z)
     = if (Z.abs (ZonedDateTime.offsetNanoseconds z) / 10^9) mod 60 =? 0
       then 6%nat else 9%nat) /\
  (forall e timeZone calendar,
     ZonedDateTime.new e timeZone calendar = Returns z ->
     isSupported timeZone = false ->
     offsetsBelowOneDay timeZone ->
     parseOffset (ZonedDateTime.offset z)
       = Some (ICAL.utcOffset timeZone
                 (ICAL.convertToZone (ICAL.fromUnixTime (e / 10^9)) timeZone))).
Proof.
  assert (forall o, ZonedDateTime.offsetNanoseconds z = o ->
            Z.abs o < 100 * (3600 * 10^9) ->
            parseOffset (ZonedDateTime.offset z) = Some (Z.quot o (10^9)) /\
            String.length (ZonedDateTime.offset z)
              = if (Z.abs o / 10^9) mod 60 =? 0 then 6%nat else 9%nat) as Hgeneral.
  { intros o Ho.
    unfold ZonedDateTime.offset, ZonedDateTime.isoDateTimePartString. rewrite Ho.
    change (3600 * 10^9) with 3600000000000. change (60 * 10^9) with 60000000000.
    change (10^9) with 1000000000.
    intro Hbound.
    pose proof (Z.abs_nonneg o) as Hnn.
    pose proof (offset_fields_sum (Z.abs o) Hnn) as Hsum.
    assert (0 <= Z.abs o / 3600000000000 < 100) as Hh
      by (split; [apply Z.div_pos; lia | apply Z.div_lt_upper_bound; lia]).
    assert (0 <= (Z.abs o / 60000000000) mod 60 < 100) as Hm
      by (pose proof (Z.mod_pos_bound (Z.abs o / 60000000000) 60); lia).
    assert (0 <= (Z.abs o / 1000000000) mod 60 < 100) as Hs
      by (pose proof (Z.mod_pos_bound (Z.abs o / 1000000000) 60); lia).
    assert (o ÷ 1000000000 = Z.sgn o * (Z.abs o / 1000000000)) as Hquot.
    { rewrite Z.quot_div by lia. change (Z.sgn 1000000000) with 1.
      change (Z.abs 1000000000) with 1000000000. ring. }
    rewrite Hquot.
    rewrite !twoDigits_below_100 by assumption.
    destruct (Z.ltb_spec o 0) as [Hneg|Hpos];
      destruct (Z.eqb_spec ((Z.abs o / 1000000000) mod 60) 0) as [Hz|Hnz];
      unfold parseOffset; cbn [append];
      rewrite !twoDigitValue_digitChars by assumption;
      cbn -[Z.mul Z.add Z.div Z.modulo];
      (split; [f_equal|reflexivity]).
    - rewrite Z.sgn_neg by lia. lia.
    - rewrite Z.sgn_neg by lia. lia.
    - destruct (Z.eq_dec o 0) as [Hzero|Hne]; [rewrite Hzero; reflexivity|].
      rewrite Z.sgn_pos by lia. lia.
    - destruct (Z.eq_dec o 0) as [Hzero|Hne];
        [exfalso; apply Hnz; rewrite Hzero; reflexivity|].
      rewrite Z.sgn_pos by lia. lia. }
  split; [exact (Hgeneral _ eq_refl)|].
  intros e timeZone calendar Hnew Hsup Hbound.
  destruct (new_inv _ _ _ _ Hnew) as [impl [pdt [Himpl [Hpriv _]]]].
  destruct (engine_new_inv _ _ _ _ Himpl) as [_ [tzid [rules [calid [cal [_ [_ Himpl']]]]]]].
  assert (ZonedDateTime.offsetNanoseconds z
          = ICAL.utcOffset timeZone
              (ICAL.convertToZone (ICAL.fromUnixTime (e / 10^9)) timeZone) * 10^9) as Hoff.
  { unfold ZonedDateTime.offsetNanoseconds. rewrite Hpriv, Himpl'.
    unfold ZonedDateTime.offsetNanoseconds_. simpl. rewrite Hsup.
    unfold Temporal.ZonedDateTime.epochMilliseconds. simpl.
    change (Z.pow_pos 10 6) with (10^6). change (Z.pow_pos 10 9) with (10^9).
    rewrite Z.div_div by lia. reflexivity. }
  specialize (Hbound (ICAL.convertToZone (ICAL.fromUnixTime (e / 10^9)) timeZone)).
  set (offsetSeconds := ICAL.utcOffset timeZone _) in *.
  destruct (Hgeneral _ Hoff) as [Hparse _].
  - change (10^9) with 1000000000. lia.
  - rewrite Hparse. f_equal. apply Z.quot_mul. discriminate.
Qed.

(** ** Building from a wall-clock value, and cloning *)

(** X2.  [startOfDay()] is [withPlainTime(00:00)]: the disambiguation
    ['compatible'] that [startOfDay] passes to [fromPlainDateTime] is the
    default that [withPlainTime] gets by passing none, and the branch for a
    zone without a name reads no option at all. *)
Theorem startOfDay_is_withPlainTime_midnight (z : ZonedDateTime.t) :
  ZonedDateTime.startOfDay z = ZonedDateTime.withPlainTime z Temporal.PlainTime.from_0000.
Proof.
  unfold ZonedDateTime.startOfDay, ZonedDateTime.withPlainTime.
  destruct (ZonedDateTime.toPlainDateTime z) as [pdt|err]; simpl; [|reflexivity].
  unfold ZonedDateTime.fromPlainDateTime.
  destruct (negb (String.eqb (ICAL.tzid _) "")); reflexivity.
Qed.

(** X3.  [fromPlainDateTime] over a zone without a [tzid] (the branch
    through ical.js): the epoch second of the result is the one
    [toUnixTime] gives, the part below the second is that of the wall-clock
    value, so the millisecond, microsecond and nanosecond stored on the
    result are those of the value; and the options play no part: every
    other options bag, ['reject'] included, gives the same instance. *)
Theorem fromPlainDateTime_nameless_zone (pdt : Temporal.PlainDateTime.t)
    (timeZone : ICAL.Timezone) (options : option Temporal.Options) (z : ZonedDateTime.t) :
  ICAL.tzid timeZone = "" ->
  isSupported timeZone = false ->
  ZonedDateTime.fromPlainDateTime pdt timeZone options = Returns z ->
  ZonedDateTime.epochNanoseconds z / 10^9 = ICAL.toUnixTime (ICAL.Time_new pdt timeZone) /\
  ZonedDateTime.epochNanoseconds z mod 10^9
    = Temporal.PlainDateTime.nanosecondOfDay pdt mod 10^9 /\
  (ZonedDateTime.millisecond z, ZonedDateTime.microsecond z, ZonedDateTime.nanosecond z)
    = (Temporal.PlainDateTime.millisecond pdt, Temporal.PlainDateTime.microsecond pdt,
       Temporal.PlainDateTime.nanosecond pdt) /\
  (forall other, ZonedDateTime.fromPlainDateTime pdt timeZone other = Returns z).
Proof.
  intros Hname Hsup. unfold ZonedDateTime.fromPlainDateTime. rewrite Hname. simpl.
  intro Hnew.
  destruct (new_epochNanoseconds _ _ _ _ Hnew) as [He _].
  pose proof (constructed_toPlainDateTime _ _ _ _ Hnew) as Hread.
  destruct (new_inv _ _ _ _ Hnew) as [impl [pdt' [Himpl [Hpriv [Hpdt [Hfields _]]]]]].
  rewrite Hpdt in Hread. inversion Hread as [Hpdt']. clear Hread.
  assert (exists K, ZonedDateTime.offsetNanoseconds z = K * 1000000000) as [K HK].
  { unfold ZonedDateTime.offsetNanoseconds. rewrite Hpriv.
    unfold ZonedDateTime.offsetNanoseconds_. simpl. rewrite Hsup.
    eexists. reflexivity. }
  unfold wallClock, fieldsOf in Hfields.
  inversion Hfields as [[_a _b _c _d _e _f _g _h _i Hms Hus Hns]].
  clear _a _b _c _d _e _f _g _h _i Hfields.
  rewrite Hms, Hus, Hns. subst pdt'.
  unfold Temporal.PlainDateTime.millisecond at 1, Temporal.PlainDateTime.microsecond at 1,
    Temporal.PlainDateTime.nanosecond at 1, Temporal.PlainDateTime.nanosecondOfDay at 1 2 3.
  cbn [Temporal.pdt_localNs]. rewrite HK, He.
  unfold Temporal.PlainDateTime.millisecond, Temporal.PlainDateTime.microsecond,
    Temporal.PlainDateTime.nanosecond, Temporal.PlainDateTime.nanosecondOfDay,
    Temporal.nsPerDay.
  change (Z.pow_pos 10 6) with 1000000. change (Z.pow_pos 10 3) with 1000.
  change (86400 * 10^9) with 86400000000000. change (10^9) with 1000000000.
  change (10^6) with 1000000. change (10^3) with 1000.
  destruct (subsecond_fields_kept (Temporal.pdt_localNs pdt)
              (ICAL.toUnixTime (ICAL.Time_new pdt timeZone)) K)
    as [H1 [H2 [H3 [H4 H5]]]].
  cbv zeta in H1, H2, H3, H4, H5.
  repeat split.
  - exact H1.
  - exact H2.
  - f_equal; [f_equal|]; [exact H3 | exact H4 | exact H5].
  - intros _. exact Hnew.
Qed.

(** X4.  [from(z)] returns an instance with the private slots, the
    wall-clock properties and the [timeZone] property of [z]; its [calendar]
    property is the engine's canonical [calendarId] (which may differ from
    the string [z] was built with); cloning the clone returns the clone. *)
Theorem from_clones_with_canonical_calendar (e : Z) (timeZone : ICAL.Timezone)
    (calendar : option string) (z : ZonedDateTime.t) :
  ZonedDateTime.new e timeZone calendar = Returns z ->
  exists z',
    ZonedDateTime.from z = Returns z' /\
    ZonedDateTime.private z' = ZonedDateTime.private z /\
    wallClock z' = wallClock z /\
    ZonedDateTime.timeZone z' = ZonedDateTime.timeZone z /\
    ZonedDateTime.calendar z' = Temporal.ZonedDateTime.calendarId (ZonedDateTime.impl z) /\
    ZonedDateTime.from z' = Returns z'.
Proof.
  intro Hnew.
  destruct (new_epochNanoseconds _ _ _ _ Hnew) as [He Hvalid].
  destruct (new_inv _ _ _ _ Hnew) as [impl [pdt [Himpl [Hpriv [Hpdt [Hfields [_ Htz]]]]]]].
  destruct (engine_new_inv _ _ _ _ Himpl) as [_ [tzid [rules [calid [cal [Hzone [Hc Himpl']]]]]]].
  assert (Temporal.ZonedDateTime.calendarId (ZonedDateTime.impl z) = calid) as Hcalid
    by (unfold ZonedDateTime.impl; rewrite Hpriv, Himpl'; reflexivity).
  assert (ZonedDateTime.from z = ZonedDateTime.new e timeZone (Some calid)) as Hfrom.
  { unfold ZonedDateTime.from. rewrite Hcalid.
    unfold ZonedDateTime.epochNanoseconds in He. rewrite He, Hpriv. reflexivity. }
  destruct (new_same_zone _ _ _ (Some calid) _ Hnew) as [z' Hz'].
  { exists (calid, cal). exact (lookupCalendar_canonical _ _ _ Hc). }
  destruct (new_inv _ _ _ _ Hz') as [impl' [pdt' [Himpl1 [Hpriv' [Hpdt' [Hfields' [Hcal' Htz']]]]]]].
  assert (impl' = impl) as Hsame.
  { destruct (engine_new_inv _ _ _ _ Himpl1)
      as [_ [tzid' [rules' [calid' [cal' [Hzone' [Hc' ->]]]]]]].
    simpl in Hc'. rewrite (lookupCalendar_canonical _ _ _ Hc) in Hc'.
    rewrite Hzone in Hzone'. inversion Hc'. inversion Hzone'. subst. reflexivity. }
  subst impl'.
  assert (ZonedDateTime.private z' = ZonedDateTime.private z) as Hprivs by congruence.
  exists z'. repeat split.
  - now rewrite Hfrom.
  - exact Hprivs.
  - unfold ZonedDateTime.toPlainDateTime in Hpdt, Hpdt'. rewrite Hprivs, Hpdt in Hpdt'.
    inversion Hpdt'. subst pdt'. congruence.
  - congruence.
  - rewrite Hcal', Hcalid. reflexivity.
  - unfold ZonedDateTime.from, ZonedDateTime.impl. rewrite Hprivs.
    fold (ZonedDateTime.impl z). rewrite <- Hz'. rewrite Hcalid.
    unfold ZonedDateTime.epochNanoseconds in He. rewrite He, Hpriv. reflexivity.
Qed.

(** ** Methods that rebuild at another instant *)

(** Another instant, same zone and calendar: what [with], [add] and
    [getTimeZoneTransition] build from the engine's answer. *)
Lemma rebuilt_at (e e' : Z) (timeZone : ICAL.Timezone) (calendar : option string)
    (z : ZonedDateTime.t) :
  ZonedDateTime.new e timeZone calendar = Returns z ->
  isSupported timeZone = true \/ offsetsBelowOneDay timeZone ->
  Temporal.isValidEpochNanoseconds e' = true ->
  exists z',
    ZonedDateTime.new e' (ZonedDateTime.p_timeZone (ZonedDateTime.private z))
      (Some (Temporal.ZonedDateTime.calendarId (ZonedDateTime.impl z))) = Returns z' /\
    ZonedDateTime.epochNanoseconds z' = e' /\
    ZonedDateTime.p_timeZone (ZonedDateTime.private z') = timeZone /\
    ZonedDateTime.calendar z' = Temporal.ZonedDateTime.calendarId (ZonedDateTime.impl z).
Proof.
  intros Hnew Hzone Hvalid.
  destruct (new_inv _ _ _ _ Hnew) as [impl [pdt [Himpl [Hpriv _]]]].
  destruct (engine_new_inv _ _ _ _ Himpl) as [_ [tzid [rules [calid [cal [_ [Hc Himpl']]]]]]].
  assert (Temporal.ZonedDateTime.calendarId (ZonedDateTime.impl z) = calid) as Hcalid
    by (unfold ZonedDateTime.impl; rewrite Hpriv, Himpl'; reflexivity).
  rewrite Hcalid, Hpriv. simpl.
  destruct (new_succeeds e' timeZone (Some calid) Hvalid) as [z' Hz'].
  { exists (calid, cal). exact (lookupCalendar_canonical _ _ _ Hc). }
  { exact Hzone. }
  exists z'. split; [exact Hz'|].
  destruct (new_epochNanoseconds _ _ _ _ Hz') as [He' _].
  destruct (new_inv _ _ _ _ Hz') as [impl' [pdt' [_ [Hpriv' [_ [_ [Hcal' _]]]]]]].
  repeat split; [exact He' | now rewrite Hpriv' | exact Hcal'].
Qed.

(** X5.  [with], [round] and [getTimeZoneTransition] throw the
    not-implemented error on an instance over a rule-based zone.  Over an
    IANA zone [round] returns the engine's result as it is;
    [getTimeZoneTransition] passes the engine's [null] on, and wraps a
    transition at the transition's instant in the zone and calendar of
    [z]; [with] wraps the engine's result in the same way; an error of the
    engine is thrown on. *)
Theorem with_round_transition_defer_or_are_not_implemented (e : Z)
    (timeZone : ICAL.Timezone) (calendar : option string) (z : ZonedDateTime.t)
    (zonedDateTimeLike : Temporal.ZonedDateTimeLike) (options : option Temporal.Options)
    (roundTo : Temporal.RoundOptions) (direction : Temporal.Direction) :
  ZonedDateTime.new e timeZone calendar = Returns z ->
  (isSupported timeZone = false ->
   ZonedDateTime.with_ z zonedDateTimeLike options = Throws (Error "not implemented") /\
   ZonedDateTime.round z roundTo = Throws (Error "not implemented") /\
   ZonedDateTime.getTimeZoneTransition z direction = Throws (Error "not implemented")) /\
  (isSupported timeZone = true ->
   ZonedDateTime.round z roundTo = Temporal.host_round (ZonedDateTime.impl z) roundTo /\
   (Temporal.host_getTimeZoneTransition (ZonedDateTime.impl z) direction = Returns None ->
    ZonedDateTime.getTimeZoneTransition z direction = Returns None) /\
   (forall transition,
      Temporal.host_getTimeZoneTransition (ZonedDateTime.impl z) direction
        = Returns (Some transition) ->
      Temporal.isValidEpochNanoseconds (Temporal.zdt_epochNanoseconds transition) = true ->
      exists z',
        ZonedDateTime.getTimeZoneTransition z direction = Returns (Some z') /\
        ZonedDateTime.epochNanoseconds z' = Temporal.zdt_epochNanoseconds transition /\
        ZonedDateTime.p_timeZone (ZonedDateTime.private z') = timeZone /\
        ZonedDateTime.calendar z'
          = Temporal.ZonedDateTime.calendarId (ZonedDateTime.impl z)) /\
   (forall changed,
      Temporal.host_with (ZonedDateTime.impl z) zonedDateTimeLike options = Returns changed ->
      Temporal.isValidEpochNanoseconds (Temporal.zdt_epochNanoseconds changed) = true ->
      exists z',
        ZonedDateTime.with_ z zonedDateTimeLike options = Returns z' /\
        ZonedDateTime.epochNanoseconds z' = Temporal.zdt_epochNanoseconds changed /\
        ZonedDateTime.p_timeZone (ZonedDateTime.private z') = timeZone /\
        ZonedDateTime.calendar z'
          = Temporal.ZonedDateTime.calendarId (ZonedDateTime.impl z)) /\
   (forall err,
      Temporal.host_with (ZonedDateTime.impl z) zonedDateTimeLike options = Throws err ->
      ZonedDateTime.with_ z zonedDateTimeLike options = Throws err) /\
   (forall err,
      Temporal.host_getTimeZoneTransition (ZonedDateTime.impl z) direction = Throws err ->
      ZonedDateTime.getTimeZoneTransition z direction = Throws err)).
Proof.
  intro Hnew.
  pose proof (new_isIANA _ _ _ _ Hnew) as Hiana.
  unfold ZonedDateTime.with_, ZonedDateTime.round, ZonedDateTime.getTimeZoneTransition,
    Temporal.ZonedDateTime.with_, Temporal.ZonedDateTime.round,
    Temporal.ZonedDateTime.getTimeZoneTransition.
  rewrite Hiana.
  split; intro Hsup; rewrite Hsup.
  - repeat split; reflexivity.
  - split; [reflexivity|]. split; [intro Hnone; rewrite Hnone; reflexivity|].
    split; [|split; [|split]].
    + intros transition Hsome Hvalid. rewrite Hsome. simpl.
      destruct (rebuilt_at _ _ _ _ _ Hnew (or_introl Hsup) Hvalid) as [z' [Hz' Hrest]].
      exists z'. unfold Temporal.ZonedDateTime.epochNanoseconds at 1. rewrite Hz'. simpl.
      split; [reflexivity | exact Hrest].
    + intros changed Hsome Hvalid. rewrite Hsome. simpl.
      destruct (rebuilt_at _ _ _ _ _ Hnew (or_introl Hsup) Hvalid) as [z' [Hz' Hrest]].
      exists z'. unfold Temporal.ZonedDateTime.epochNanoseconds at 1. rewrite Hz'.
      split; [reflexivity | exact Hrest].
    + intros err Herr. rewrite Herr. reflexivity.
    + intros err Herr. rewrite Herr. reflexivity.
Qed.

(** X6.  [add] of a duration without calendar units is an exact shift
    on the time line, over an IANA zone and over any rule-based zone, named
    or not: when the shifted instant is in range the result is at
    [z.epochNanoseconds] plus the duration's nanoseconds, in the zone and
    calendar of [z], [z.until(result)] adds up to the duration, and
    [compare] orders the two by the sign of the duration; when it is out of
    range [add] throws a RangeError. *)
Theorem add_time_only_is_exact (e : Z) (timeZone : ICAL.Timezone)
    (calendar : option string) (z : ZonedDateTime.t) (duration : Temporal.Duration)
    (options : option Temporal.Options) :
  ZonedDateTime.new e timeZone calendar = Returns z ->
  isSupported timeZone = true \/ offsetsBelowOneDay timeZone ->
  ZonedDateTime.hasNoCalendarUnits duration = true ->
  Temporal.validDuration duration = true ->
  (Temporal.isValidEpochNanoseconds (e + Temporal.timeNanoseconds duration) = true ->
   exists r back,
     ZonedDateTime.add z duration options = Returns r /\
     ZonedDateTime.epochNanoseconds r = e + Temporal.timeNanoseconds duration /\
     ZonedDateTime.p_timeZone (ZonedDateTime.private r) = timeZone /\
     ZonedDateTime.calendar r = Temporal.ZonedDateTime.calendarId (ZonedDateTime.impl z) /\
     ZonedDateTime.until z r None = Returns back /\
     Temporal.timeNanoseconds back = Temporal.timeNanoseconds duration /\
     ZonedDateTime.compare z r = - Z.sgn (Temporal.timeNanoseconds duration)) /\
  (Temporal.isValidEpochNanoseconds (e + Temporal.timeNanoseconds duration) = false ->
   ZonedDateTime.add z duration options = Throws RangeError).
Proof.
  intros Hnew Hzone Hunits Hvalid.
  destruct (new_epochNanoseconds _ _ _ _ Hnew) as [He Hinrange].
  rewrite (add_time_only_exact_shift z duration options Hunits Hvalid).
  unfold Temporal.ZonedDateTime.addInstant. rewrite He.
  split; intro Hrange; rewrite Hrange; simpl; [|reflexivity].
  destruct (rebuilt_at _ _ _ _ _ Hnew Hzone Hrange) as [r [Hr [Her [Htz Hcal]]]].
  destruct (until_forwarded z r None Temporal.t_hour eq_refl) as [_ Huntil].
  exists r, (Temporal.numbers
               (Temporal.ZonedDateTime.balanceTime
                  (ZonedDateTime.epochNanoseconds r - ZonedDateTime.epochNanoseconds z)
                  Temporal.t_hour)).
  split; [exact Hr|]. split; [exact Her|]. split; [exact Htz|]. split; [exact Hcal|].
  split; [exact Huntil|]. split.
  - rewrite numbers_exact, balanceTime_total, Her, He; [ring|].
    rewrite Her, He. now apply difference_in_range.
  - unfold ZonedDateTime.compare, Temporal.ZonedDateTime.compare.
    unfold ZonedDateTime.epochNanoseconds, Temporal.ZonedDateTime.epochNanoseconds in Her, He.
    rewrite Her, He.
    destruct (Z.compare_spec e (e + Temporal.timeNanoseconds duration)) as [Heq|Hlt|Hgt].
    + replace (Temporal.timeNanoseconds duration) with 0 by lia. reflexivity.
    + rewrite Z.sgn_pos by lia. reflexivity.
    + rewrite Z.sgn_neg by lia. reflexivity.
Qed.

(** ** The constructor and the readings of an instance *)

(** X7.  The constructor, given an integer, a zone object and a calendar
    string, throws nothing but a RangeError.  For an IANA zone, or a
    rule-based zone whose offsets stay below one day, it returns an instance
    exactly when the epoch nanoseconds are in range and the calendar is one
    the engine knows: the name of a rule-based zone is never a reason to
    fail, since the engine is handed 'UTC' for it. *)
Theorem constructor_returns_or_throws_RangeError (e : Z) (timeZone : ICAL.Timezone)
    (calendar : option string) :
  (thrown (ZonedDateTime.new e timeZone calendar) = None \/
   thrown (ZonedDateTime.new e timeZone calendar) = Some RangeError) /\
  (isSupported timeZone = true \/ offsetsBelowOneDay timeZone ->
   ((exists z, ZonedDateTime.new e timeZone calendar = Returns z) <->
    Temporal.isValidEpochNanoseconds e = true /\
    exists found, Temporal.lookupCalendar (calendarOrDefault calendar) = Some found)).
Proof.
  split.
  - unfold ZonedDateTime.new. fold (isSupported timeZone). fold (calendarOrDefault calendar).
    unfold Temporal.ZonedDateTime.new.
    destruct (Temporal.isValidEpochNanoseconds e); simpl; [|now right].
    destruct (Temporal.lookupTimeZone _) as [[tzid rules]|]; simpl; [|now right].
    destruct (Temporal.lookupCalendar _) as [[calid cal]|]; simpl; [|now right].
    unfold ZonedDateTime.toPlainDateTime_. simpl.
    destruct (isSupported timeZone); simpl; [now left|].
    rewrite PlainDateTime_add_nanoseconds.
    destruct (Temporal.isoDateTimeWithinLimits _); simpl; [now left | now right].
  - intro Hzone. split.
    + intros [z Hnew].
      destruct (new_inv _ _ _ _ Hnew) as [impl [pdt [Himpl _]]].
      destruct (engine_new_inv _ _ _ _ Himpl) as [Hvalid [tzid [rules [calid [cal [_ [Hc _]]]]]]].
      split; [exact Hvalid | now exists (calid, cal)].
    + intros [Hvalid Hcal]. now apply new_succeeds.
Qed.

(** X8.  [toPlainDate()] and [toPlainTime()] return on every constructed
    instance; the time has exactly the six time properties stored on the
    instance, each within its range; date and time put together are the
    instant moved by [offsetNanoseconds]; and [dayOfWeek] is read off the
    date alone, between 1 and 7. *)
Theorem toPlainDate_toPlainTime_recombine (e : Z) (timeZone : ICAL.Timezone)
    (calendar : option string) (z : ZonedDateTime.t) :
  ZonedDateTime.new e timeZone calendar = Returns z ->
  exists date time,
    ZonedDateTime.toPlainDate z = Returns date /\
    ZonedDateTime.toPlainTime z = Returns time /\
    time = Temporal.mkPlainTime (ZonedDateTime.hour z) (ZonedDateTime.minute z)
             (ZonedDateTime.second z) (ZonedDateTime.millisecond z)
             (ZonedDateTime.microsecond z) (ZonedDateTime.nanosecond z) /\
    (0 <= ZonedDateTime.hour z < 24 /\ 0 <= ZonedDateTime.minute z < 60 /\
     0 <= ZonedDateTime.second z < 60 /\ 0 <= ZonedDateTime.millisecond z < 1000 /\
     0 <= ZonedDateTime.microsecond z < 1000 /\ 0 <= ZonedDateTime.nanosecond z < 1000) /\
    Temporal.pd_calendarId date = Temporal.ZonedDateTime.calendarId (ZonedDateTime.impl z) /\
    Temporal.pd_epochDay date * Temporal.nsPerDay + Temporal.PlainTime.nanosecondOfDay time
      = ZonedDateTime.epochNanoseconds z + ZonedDateTime.offsetNanoseconds z /\
    ZonedDateTime.dayOfWeek z = Returns ((Temporal.pd_epochDay date + 3) mod 7 + 1) /\
    1 <= (Temporal.pd_epochDay date + 3) mod 7 + 1 <= 7.
Proof.
  intro Hnew.
  pose proof (constructed_toPlainDateTime _ _ _ _ Hnew) as Hread.
  destruct (new_inv _ _ _ _ Hnew) as [impl [pdt [_ [_ [Hpdt [Hfields _]]]]]].
  rewrite Hpdt in Hread. inversion Hread as [Hpdt']. clear Hread.
  unfold wallClock, fieldsOf in Hfields.
  inversion Hfields as [[_a _b _c _d _e _f Hh Hmi Hs Hms Hus Hns]].
  clear _a _b _c _d _e _f Hfields.
  unfold ZonedDateTime.toPlainDate, ZonedDateTime.toPlainTime, ZonedDateTime.dayOfWeek.
  rewrite Hpdt. simpl.
  eexists. eexists. split; [reflexivity|]. split; [reflexivity|].
  rewrite Hh, Hmi, Hs, Hms, Hus, Hns.
  split; [reflexivity|].
  set (t := ZonedDateTime.epochNanoseconds z + ZonedDateTime.offsetNanoseconds z) in *.
  destruct (time_fields_recombine t) as [Hbounds Hsum]. cbv zeta in Hbounds, Hsum.
  assert (Temporal.pdt_localNs pdt = t) as Ht by (rewrite Hpdt'; reflexivity).
  unfold Temporal.PlainDateTime.toPlainDate, Temporal.PlainDateTime.toPlainTime,
    Temporal.PlainDateTime.dayOfWeek,
    Temporal.PlainTime.nanosecondOfDay, Temporal.PlainDateTime.hour,
    Temporal.PlainDateTime.minute, Temporal.PlainDateTime.second,
    Temporal.PlainDateTime.millisecond, Temporal.PlainDateTime.microsecond,
    Temporal.PlainDateTime.nanosecond, Temporal.PlainDateTime.epochDay,
    Temporal.PlainDateTime.nanosecondOfDay, Temporal.nsPerDay.
  cbn [Temporal.pd_epochDay Temporal.pd_calendarId Temporal.pt_hour Temporal.pt_minute
       Temporal.pt_second Temporal.pt_millisecond Temporal.pt_microsecond
       Temporal.pt_nanosecond].
  rewrite Ht.
  change (86400 * 10^9) with 86400000000000. change (3600 * 10^9) with 3600000000000.
  change (60 * 10^9) with 60000000000. change (10^9) with 1000000000.
  change (10^6) with 1000000. change (10^3) with 1000.
  split; [exact Hbounds|]. split; [rewrite Hpdt'; reflexivity|].
  split; [exact Hsum|]. split; [reflexivity|].
  pose proof (Z.mod_pos_bound (t / 86400000000000 + 3) 7). lia.
Qed.

(** X9.  Every instance held by a program keeps its slots consistent:
    [#isIANA] says whether [Intl] lists the [tzid] of [#timeZone]; the
    public [timeZone] property is that [tzid] for an IANA instance and
    absent otherwise; the instant is in range; the engine value of a
    rule-based instance sits in UTC at offset 0; and the engine value's
    calendar identifier is canonical. *)
Theorem held_instances_keep_their_slots_consistent (calls : list Program.Call) (l : nat)
    (z : ZonedDateTime.t) :
  nth_error (Program.run calls) l = Some z ->
  ZonedDateTime.isIANA z = isSupported (ZonedDateTime.p_timeZone (ZonedDateTime.private z)) /\
  ZonedDateTime.timeZone z
    = (if ZonedDateTime.isIANA z
       then Some (ICAL.tzid (ZonedDateTime.p_timeZone (ZonedDateTime.private z)))
       else None) /\
  Temporal.isValidEpochNanoseconds (ZonedDateTime.epochNanoseconds z) = true /\
  (ZonedDateTime.isIANA z = false ->
   Temporal.zdt_timeZoneId (ZonedDateTime.impl z) = "UTC" /\
   Temporal.ZonedDateTime.offsetNanoseconds (ZonedDateTime.impl z) = 0) /\
  Temporal.lookupCalendar (Temporal.zdt_calendarId (ZonedDateTime.impl z))
    = Some (Temporal.zdt_calendarId (ZonedDateTime.impl z),
            Temporal.zdt_calendar (ZonedDateTime.impl z)).
Proof.
  intro Hl.
  destruct (run_holds_constructed _ _ _ Hl) as [e [timeZone [calendar Hnew]]].
  destruct (new_epochNanoseconds _ _ _ _ Hnew) as [He Hvalid].
  destruct (new_inv _ _ _ _ Hnew) as [impl [pdt [Himpl [Hpriv [_ [_ [_ Htz]]]]]]].
  destruct (engine_new_inv _ _ _ _ Himpl) as [_ [tzid [rules [calid [cal [Hzone [Hc Himpl']]]]]]].
  unfold ZonedDateTime.isIANA, ZonedDateTime.impl. rewrite Hpriv, Himpl'. simpl.
  split; [reflexivity|]. split; [exact Htz|]. split; [now rewrite He|].
  split; [|exact (lookupCalendar_canonical _ _ _ Hc)].
  intro Hsup. unfold engineZone in Hzone. rewrite Hsup, lookupTimeZone_UTC in Hzone.
  inversion Hzone. split; reflexivity.
Qed.

(** X10.  [compare] orders by the instant alone: it is the opposite of
    the sign of [a.until(b)], it is 0 exactly when the two
    [epochNanoseconds] are equal, it is antisymmetric, and it is 0 whenever
    [equals] returns true.  It never throws, also for rule-based zones. *)
Theorem compare_agrees_with_until_and_equals (a b : ZonedDateTime.t) :
  (exists d, ZonedDateTime.until a b None = Returns d /\
             ZonedDateTime.compare a b = - Z.sgn (Temporal.timeNanoseconds d)) /\
  (ZonedDateTime.compare a b = 0 <->
   ZonedDateTime.epochNanoseconds a = ZonedDateTime.epochNanoseconds b) /\
  ZonedDateTime.compare b a = - ZonedDateTime.compare a b /\
  (ZonedDateTime.equals a b = Returns true -> ZonedDateTime.compare a b = 0).
Proof.
  unfold ZonedDateTime.compare, Temporal.ZonedDateTime.compare, ZonedDateTime.equals,
    Temporal.ZonedDateTime.equals, ZonedDateTime.epochNanoseconds,
    Temporal.ZonedDateTime.epochNanoseconds.
  set (x := Temporal.zdt_epochNanoseconds (ZonedDateTime.impl a)).
  set (y := Temporal.zdt_epochNanoseconds (ZonedDateTime.impl b)).
  split; [|split; [|split]].
  - destruct (until_forwarded a b None Temporal.t_hour eq_refl) as [_ Huntil].
    eexists. split; [exact Huntil|]. rewrite numbers_sign.
    unfold ZonedDateTime.epochNanoseconds, Temporal.ZonedDateTime.epochNanoseconds.
    fold x y.
    destruct (Z.compare_spec x y) as [Heq|Hlt|Hgt].
    + replace (y - x) with 0 by lia. reflexivity.
    + rewrite Z.sgn_pos by lia. reflexivity.
    + rewrite Z.sgn_neg by lia. reflexivity.
  - destruct (Z.compare_spec x y) as [Heq|Hlt|Hgt]; split; intro Hc;
      try reflexivity; try assumption; try discriminate; lia.
  - rewrite (Z.compare_antisym x y). destruct (x ?= y); reflexivity.
  - destruct (ZonedDateTime.isIANA a && ZonedDateTime.isIANA b); [|discriminate].
    intro H. inversion H as [Heq]. apply andb_true_iff in Heq. destruct Heq as [Heq _].
    apply andb_true_iff in Heq. destruct Heq as [Heq _]. apply Z.eqb_eq in Heq.
    rewrite Heq, Z.compare_refl. reflexivity.
Qed.

(** X11.  [withPlainTime] throws a RangeError on every instance over a
    rule-based zone that has a name the engine does not know, whatever the
    time: like [startOfDay], it goes through [fromPlainDateTime], which
    hands the name to the engine. *)
Theorem withPlainTime_throws_on_every_named_rule_based_zone (e : Z)
    (timeZone : ICAL.Timezone) (calendar : option string) (z : ZonedDateTime.t)
    (time : Temporal.PlainTime.t) :
  ZonedDateTime.new e timeZone calendar = Returns z ->
  String.eqb (ICAL.tzid timeZone) "" = false ->
  Temporal.lookupTimeZone (ICAL.tzid timeZone) = None ->
  ZonedDateTime.withPlainTime z time = Throws RangeError.
Proof.
  intros Hnew Hnamed Hnone.
  destruct (new_inv _ _ _ _ Hnew) as [impl [pdt [_ [Hpriv [Hpdt _]]]]].
  unfold ZonedDateTime.withPlainTime. rewrite Hpdt, Hpriv. simpl.
  now apply fromPlainDateTime_named_unknown.
Qed.

(** ** Wall-clock values that exist in an IANA zone *)

Lemma In_insertSorted (x y : Z) (l : list Z) :
  In y (Temporal.insertSorted x l) -> y = x \/ In y l.
Proof.
  induction l as [|h rest IH]; simpl.
  - intros [H|[]]. now left.
  - destruct (x <=? h); simpl.
    + intros [H|H]; [now left | now right].
    + intros [H|H]; [right; now left|].
      destruct (IH H) as [Hx|Hin]; [now left | right; now right].
Qed.

Lemma In_sortInstants (y : Z) (l : list Z) : In y (Temporal.sortInstants l) -> In y l.
Proof.
  induction l as [|h rest IH]; simpl; [tauto|].
  intro H. destruct (In_insertSorted _ _ _ H) as [Hx|Hin]; [now left | right; now apply IH].
Qed.

(** A possible instant of a wall-clock reading reads back as it. *)
Lemma possibleInstant_reads_back (rules : Temporal.ZoneRules) (localNs e : Z) :
  In e (Temporal.getPossibleInstantsFor rules localNs) ->
  e + Temporal.getOffsetNanosecondsFor rules e = localNs.
Proof.
  unfold Temporal.getPossibleInstantsFor. intro H. apply In_sortInstants in H.
  apply filter_In in H. destruct H as [_ H]. apply Z.eqb_eq in H. lia.
Qed.

Lemma last_In (A : Type) (l : list A) (d : A) : l <> [] -> In (last l d) l.
Proof.
  induction l as [|h rest IH]; [contradiction|]. intros _.
  destruct rest as [|h' rest']; [now left|]. right.
  change (last (h :: h' :: rest') d) with (last (h' :: rest') d).
  apply IH. discriminate.
Qed.

Lemma In_last (A : Type) (l : list A) (d : A) : In (last l d) (d :: l).
Proof.
  destruct l as [|h rest]; [now left|]. right. apply last_In. discriminate.
Qed.

Lemma disambiguated_possible (rules : Temporal.ZoneRules) (localNs e : Z)
    (d : Temporal.Disambiguation) :
  Temporal.getPossibleInstantsFor rules localNs <> [] ->
  Temporal.disambiguatePossibleInstants rules localNs d = Returns e ->
  In e (Temporal.getPossibleInstantsFor rules localNs).
Proof.
  intros Hsome Hres.
  unfold Temporal.disambiguatePossibleInstants in Hres.
  destruct (Temporal.getPossibleInstantsFor rules localNs) as [|e1 rest]; [contradiction|].
  destruct rest as [|e2 rest'].
  - inversion Hres. now left.
  - destruct d; try discriminate Hres; injection Hres as Hres; rewrite <- Hres;
      try (now left).
    exact (In_last _ (e2 :: rest') e1).
Qed.

(** X12.  An instance built the way the cookbook's loop builds it, by
    [fromInstant] from [Instant.fromEpochMilliseconds(unixTime * 1000)]:
    [toInstant()] gives that instant back, [epochMilliseconds] is
    [unixTime * 1000], and over a rule-based zone the second at which
    ical.js is asked for the offset is [unixTime] itself. *)
Theorem fromInstant_at_a_unix_second (unixTime : Z) (timeZone : ICAL.Timezone)
    (calendar : option string) (z : ZonedDateTime.t) :
  ZonedDateTime.fromInstant (Temporal.Instant.fromEpochMilliseconds (unixTime * 1000)) timeZone calendar
    = Returns z ->
  ZonedDateTime.toInstant z = Temporal.Instant.fromEpochMilliseconds (unixTime * 1000) /\
  ZonedDateTime.epochMilliseconds z = unixTime * 1000 /\
  ZonedDateTime.epochNanoseconds z = unixTime * 10^9 /\
  (isSupported timeZone = false ->
   ZonedDateTime.offsetNanoseconds z
     = ICAL.utcOffset timeZone (ICAL.convertToZone (ICAL.fromUnixTime unixTime) timeZone)
       * 10^9).
Proof.
  unfold ZonedDateTime.fromInstant, Temporal.Instant.fromEpochMilliseconds. simpl. intro Hnew.
  destruct (new_epochNanoseconds _ _ _ _ Hnew) as [He _].
  destruct (new_inv _ _ _ _ Hnew) as [impl [pdt [Himpl [Hpriv _]]]].
  destruct (engine_new_inv _ _ _ _ Himpl) as [_ [tzid [rules [calid [cal [_ [_ Himpl']]]]]]].
  unfold ZonedDateTime.toInstant, ZonedDateTime.epochMilliseconds,
    ZonedDateTime.epochNanoseconds, ZonedDateTime.offsetNanoseconds, ZonedDateTime.impl.
  rewrite Hpriv, Himpl'. unfold ZonedDateTime.offsetNanoseconds_.
  unfold Temporal.ZonedDateTime.toInstant, Temporal.ZonedDateTime.epochMilliseconds,
    Temporal.ZonedDateTime.epochNanoseconds. simpl.
  change (Z.pow_pos 10 6) with 1000000. change (Z.pow_pos 10 9) with 1000000000.
  split; [reflexivity|]. split; [now rewrite Z.div_mul by lia|].
  split; [lia|]. intro Hsup. rewrite Hsup.
  rewrite Z.div_mul by lia. rewrite Z.div_mul by lia. reflexivity.
Qed.

(** For an IANA zone, an instance built from a wall-clock value that the
    zone has reads back as that value. *)
Lemma fromPlainDateTime_reads_back (pdt : Temporal.PlainDateTime.t)
    (timeZone : ICAL.Timezone) (options : option Temporal.Options) (r : ZonedDateTime.t)
    (tzid : string) (rules : Temporal.ZoneRules) :
  isSupported timeZone = true ->
  String.eqb (ICAL.tzid timeZone) "" = false ->
  Temporal.lookupTimeZone (ICAL.tzid timeZone) = Some (tzid, rules) ->
  Temporal.lookupCalendar (Temporal.pdt_calendarId pdt)
    = Some (Temporal.pdt_calendarId pdt, Temporal.pdt_calendar pdt) ->
  Temporal.getPossibleInstantsFor rules (Temporal.pdt_localNs pdt) <> [] ->
  ZonedDateTime.fromPlainDateTime pdt timeZone options = Returns r ->
  ZonedDateTime.toPlainDateTime r = Returns pdt /\
  ZonedDateTime.p_timeZone (ZonedDateTime.private r) = timeZone /\
  In (ZonedDateTime.epochNanoseconds r)
     (Temporal.getPossibleInstantsFor rules (Temporal.pdt_localNs pdt)).
Proof.
  intros Hsup Hnamed Hzone Hcal Hsome Hr.
  unfold ZonedDateTime.fromPlainDateTime in Hr. rewrite Hnamed in Hr. simpl in Hr.
  apply bind_Returns in Hr. destruct Hr as [temporalZDT [Hresolve Hbuilt]].
  unfold Temporal.PlainDateTime.toZonedDateTime in Hresolve. rewrite Hzone in Hresolve.
  apply bind_Returns in Hresolve. destruct Hresolve as [e' [Hdis Hvalid]].
  destruct (Temporal.isValidEpochNanoseconds e'); [|discriminate].
  injection Hvalid as Hvalid. subst temporalZDT.
  unfold Temporal.ZonedDateTime.epochNanoseconds, Temporal.PlainDateTime.calendarId in Hbuilt.
  cbn [Temporal.zdt_epochNanoseconds] in Hbuilt.
  pose proof (disambiguated_possible _ _ _ _ Hsome Hdis) as Hin.
  pose proof (possibleInstant_reads_back _ _ _ Hin) as Hback.
  pose proof (constructed_toPlainDateTime _ _ _ _ Hbuilt) as Hreadr.
  destruct (new_epochNanoseconds _ _ _ _ Hbuilt) as [Her _].
  destruct (new_inv _ _ _ _ Hbuilt) as [implr [pdtr [Himplr [Hprivr [Hpdtr [Hfieldsr _]]]]]].
  destruct (engine_new_inv _ _ _ _ Himplr)
    as [_ [tzid' [rules' [calid' [cal' [Hzone' [Hc' Himplr']]]]]]].
  unfold engineZone in Hzone'. rewrite Hsup, Hzone in Hzone'.
  injection Hzone' as Htzid Hrules. subst tzid' rules'.
  unfold calendarOrDefault in Hc'. rewrite Hcal in Hc'.
  injection Hc' as Hcalid Hcalimpl. subst calid' cal'.
  assert (ZonedDateTime.toPlainDateTime r = Returns pdt) as Hgoal.
  { rewrite Hreadr. f_equal.
    unfold ZonedDateTime.offsetNanoseconds, ZonedDateTime.epochNanoseconds,
      ZonedDateTime.impl.
    rewrite Hprivr, Himplr'. unfold ZonedDateTime.offsetNanoseconds_.
    simpl. rewrite Hsup. unfold Temporal.ZonedDateTime.offsetNanoseconds. simpl.
    rewrite Hback. destruct pdt; reflexivity. }
  split; [exact Hgoal|]. split.
  - rewrite Hprivr. reflexivity.
  - rewrite Her. exact Hin.
Qed.

(** The stored properties of an instance are the fields of whatever its
    [toPlainDateTime()] returns. *)
Lemma constructed_fields (z : ZonedDateTime.t) (pdt : Temporal.PlainDateTime.t) :
  constructed z -> ZonedDateTime.toPlainDateTime z = Returns pdt -> wallClock z = fieldsOf pdt.
Proof.
  intros Hc Hpdt. destruct (constructed_agrees z Hc) as [pdt' [Hpdt' Hfields]].
  rewrite Hpdt in Hpdt'. apply Returns_inj in Hpdt'. now subst pdt'.
Qed.

(** The wall-clock value of a constructed instance carries the canonical
    calendar of the instance, and so does the value with another time. *)
Lemma constructed_reading (e : Z) (timeZone : ICAL.Timezone) (calendar : option string)
    (z : ZonedDateTime.t) (pdt : Temporal.PlainDateTime.t) :
  ZonedDateTime.new e timeZone calendar = Returns z ->
  ZonedDateTime.toPlainDateTime z = Returns pdt ->
  ZonedDateTime.p_timeZone (ZonedDateTime.private z) = timeZone /\
  Temporal.lookupCalendar (Temporal.pdt_calendarId pdt)
    = Some (Temporal.pdt_calendarId pdt, Temporal.pdt_calendar pdt) /\
  (isSupported timeZone = true ->
   Temporal.lookupTimeZone (ICAL.tzid timeZone)
     = Some (Temporal.zdt_timeZoneId (ZonedDateTime.impl z),
             Temporal.zdt_rules (ZonedDateTime.impl z))).
Proof.
  intros Hnew Hpdt.
  pose proof (constructed_toPlainDateTime _ _ _ _ Hnew) as Hread.
  rewrite Hpdt in Hread. injection Hread as Hpdt0.
  destruct (new_inv _ _ _ _ Hnew) as [impl [pdt1 [Himpl [Hpriv _]]]].
  destruct (engine_new_inv _ _ _ _ Himpl) as [_ [tzid [rules [calid [cal [Hzone [Hc Himpl']]]]]]].
  assert (ZonedDateTime.impl z = Temporal.mkZonedDateTime e tzid rules calid cal) as Himplz
    by (unfold ZonedDateTime.impl; rewrite Hpriv; exact Himpl').
  rewrite Himplz in *. rewrite Hpdt0. simpl.
  split; [rewrite Hpriv; reflexivity|].
  split; [exact (lookupCalendar_canonical _ _ _ Hc)|].
  intro Hsup. unfold engineZone in Hzone. rewrite Hsup in Hzone. exact Hzone.
Qed.

(** X13.  Over an IANA zone, when the wall-clock reading "date of [z],
    given time" exists in the zone (it is not in a gap), what
    [withPlainTime] returns reads exactly that: its [toPlainDateTime()] and
    its twelve stored properties are those of
    [z.toPlainDateTime().withPlainTime(time)], in the zone of [z]. *)
Theorem withPlainTime_sets_the_wall_clock (e : Z) (timeZone : ICAL.Timezone)
    (calendar : option string) (z r : ZonedDateTime.t) (pdt : Temporal.PlainDateTime.t)
    (time : Temporal.PlainTime.t) :
  ZonedDateTime.new e timeZone calendar = Returns z ->
  isSupported timeZone = true ->
  String.eqb (ICAL.tzid timeZone) "" = false ->
  ZonedDateTime.toPlainDateTime z = Returns pdt ->
  Temporal.getPossibleInstantsFor (Temporal.zdt_rules (ZonedDateTime.impl z))
    (Temporal.pdt_localNs (Temporal.PlainDateTime.withPlainTime pdt time)) <> [] ->
  ZonedDateTime.withPlainTime z time = Returns r ->
  ZonedDateTime.toPlainDateTime r = Returns (Temporal.PlainDateTime.withPlainTime pdt time) /\
  wallClock r = fieldsOf (Temporal.PlainDateTime.withPlainTime pdt time) /\
  ZonedDateTime.p_timeZone (ZonedDateTime.private r) = timeZone.
Proof.
  intros Hnew Hsup Hnamed Hpdt Hsome Hr.
  destruct (constructed_reading _ _ _ _ _ Hnew Hpdt) as [Hzone [Hcal Hrules]].
  unfold ZonedDateTime.withPlainTime in Hr. rewrite Hpdt, Hzone in Hr. simpl in Hr.
  destruct (fromPlainDateTime_reads_back (Temporal.PlainDateTime.withPlainTime pdt time)
              _ _ _ _ _ Hsup Hnamed (Hrules Hsup) Hcal Hsome Hr)
    as [Hread [Hsame _]].
  split; [exact Hread|]. split; [|exact Hsame].
  exact (constructed_fields _ _ (fromPlainDateTime_constructed _ _ _ _ Hr) Hread).
Qed.

(** X14.  Over an IANA zone, when the midnight of [z]'s date exists in
    the zone, what [startOfDay()] returns has the date properties of [z],
    all six time properties 0, the zone of [z], and its instant moved by its
    offset is that midnight. *)
Theorem startOfDay_reads_midnight (e : Z) (timeZone : ICAL.Timezone)
    (calendar : option string) (z r : ZonedDateTime.t) (pdt : Temporal.PlainDateTime.t) :
  ZonedDateTime.new e timeZone calendar = Returns z ->
  isSupported timeZone = true ->
  String.eqb (ICAL.tzid timeZone) "" = false ->
  ZonedDateTime.toPlainDateTime z = Returns pdt ->
  Temporal.getPossibleInstantsFor (Temporal.zdt_rules (ZonedDateTime.impl z))
    (Temporal.PlainDateTime.epochDay pdt * Temporal.nsPerDay) <> [] ->
  ZonedDateTime.startOfDay z = Returns r ->
  wallClock r
    = (ZonedDateTime.era z, ZonedDateTime.eraYear z, ZonedDateTime.year z,
       ZonedDateTime.month z, ZonedDateTime.monthCode z, ZonedDateTime.day z,
       0, 0, 0, 0, 0, 0) /\
  ZonedDateTime.p_timeZone (ZonedDateTime.private r) = timeZone /\
  ZonedDateTime.epochNanoseconds r + ZonedDateTime.offsetNanoseconds r
    = Temporal.PlainDateTime.epochDay pdt * Temporal.nsPerDay.
Proof.
  intros Hnew Hsup Hnamed Hpdt Hsome Hr.
  destruct (constructed_reading _ _ _ _ _ Hnew Hpdt) as [Hzone [Hcal Hrules]].
  destruct (new_inv _ _ _ _ Hnew) as [impl [pdt1 [_ [_ [Hpdt1 [Hfields _]]]]]].
  rewrite Hpdt in Hpdt1. injection Hpdt1 as Hpdt1. subst pdt1.
  unfold ZonedDateTime.startOfDay in Hr. rewrite Hpdt, Hzone in Hr. simpl in Hr.
  assert (Temporal.pdt_localNs
            (Temporal.PlainDateTime.withPlainTime pdt Temporal.PlainTime.from_0000)
          = Temporal.PlainDateTime.epochDay pdt * Temporal.nsPerDay) as Hlocal.
  { unfold Temporal.PlainDateTime.withPlainTime. cbn [Temporal.pdt_localNs].
    change (Temporal.PlainTime.nanosecondOfDay Temporal.PlainTime.from_0000) with 0.
    apply Z.add_0_r. }
  rewrite <- Hlocal in Hsome.
  destruct (fromPlainDateTime_reads_back
              (Temporal.PlainDateTime.withPlainTime pdt Temporal.PlainTime.from_0000)
              _ _ _ _ _ Hsup Hnamed (Hrules Hsup) Hcal Hsome Hr)
    as [H1 [H3 _]].
  pose proof (constructed_fields _ _ (fromPlainDateTime_constructed _ _ _ _ Hr) H1) as H2.
  split; [|split; [exact H3|]].
  - rewrite H2, withPlainTime_midnight.
    unfold wallClock, fieldsOf in Hfields.
    injection Hfields as -> -> -> -> -> ->. reflexivity.
  - pose proof (fromPlainDateTime_constructed _ _ _ _ Hr) as [e' [tz' [c' Hnew']]].
    pose proof (constructed_toPlainDateTime _ _ _ _ Hnew') as Hread'.
    rewrite H1 in Hread'. apply Returns_inj in Hread'.
    apply (f_equal Temporal.pdt_localNs) in Hread'.
    cbn [Temporal.pdt_localNs] in Hread'. rewrite <- Hread'. exact Hlocal.
Qed.


(** X16.  [add] of a duration with calendar units over a rule-based
    zone without a name: the calendar part is applied to the wall-clock
    value, ical.js turns the result into an epoch second, the sub-second
    part of the value is put back, and the time part of the duration is
    added to that instant last; the result is in the zone of [z]. *)
Theorem add_over_a_nameless_zone_goes_through_ical (z r : ZonedDateTime.t)
    (duration : Temporal.Duration) (options : option Temporal.Options) :
  ZonedDateTime.isIANA z = false ->
  ICAL.tzid (ZonedDateTime.p_timeZone (ZonedDateTime.private z)) = "" ->
  ZonedDateTime.hasNoCalendarUnits duration = false ->
  Temporal.validDuration duration = true ->
  ZonedDateTime.add z duration options = Returns r ->
  exists pdt0 pdt,
    ZonedDateTime.toPlainDateTime z = Returns pdt0 /\
    Temporal.PlainDateTime.add pdt0 (Temporal.ZonedDateTime.calendarPart duration) options
      = Returns pdt /\
    ZonedDateTime.epochNanoseconds r
      = ICAL.toUnixTime (ICAL.Time_new pdt (ZonedDateTime.p_timeZone (ZonedDateTime.private z)))
        * 10^9
        + (Temporal.PlainDateTime.millisecond pdt * 10^6
           + Temporal.PlainDateTime.microsecond pdt * 10^3
           + Temporal.PlainDateTime.nanosecond pdt)
        + Temporal.timeNanoseconds
            (Temporal.mkDuration 0 0 0 0 (Temporal.hours duration) (Temporal.minutes duration)
               (Temporal.seconds duration) (Temporal.milliseconds duration)
               (Temporal.microseconds duration) (Temporal.nanoseconds duration)) /\
    ZonedDateTime.p_timeZone (ZonedDateTime.private r)
      = ZonedDateTime.p_timeZone (ZonedDateTime.private z).
Proof.
  intros Hrule Hname Hunits Hvalid Hadd.
  rewrite (add_rule_based_two_phase z duration options Hrule Hunits Hvalid) in Hadd.
  apply bind_Returns in Hadd. destruct Hadd as [pdt0 [Hpdt0 Hadd]].
  apply bind_Returns in Hadd. destruct Hadd as [pdt [Hpdt Hadd]].
  apply bind_Returns in Hadd. destruct Hadd as [intermediate [Hinter Hadd]].
  apply bind_Returns in Hadd. destruct Hadd as [e' [Hshift Hr]].
  exists pdt0, pdt. split; [exact Hpdt0|]. split; [exact Hpdt|].
  unfold ZonedDateTime.fromPlainDateTime in Hinter. rewrite Hname in Hinter.
  simpl in Hinter.
  destruct (new_epochNanoseconds _ _ _ _ Hinter) as [Hei _].
  destruct (new_inv _ _ _ _ Hinter) as [impli [pdti [_ [Hprivi _]]]].
  destruct (new_epochNanoseconds _ _ _ _ Hr) as [Her _].
  destruct (new_inv _ _ _ _ Hr) as [implr [pdtr [_ [Hprivr _]]]].
  unfold Temporal.ZonedDateTime.addInstant in Hshift.
  destruct (Temporal.isValidEpochNanoseconds _); [|discriminate].
  apply Returns_inj in Hshift. subst e'.
  split.
  - rewrite Her, Hei. unfold Temporal.timeNanoseconds. simpl.
    change (Z.pow_pos 10 9) with 1000000000. change (Z.pow_pos 10 6) with 1000000.
    change (Z.pow_pos 10 3) with 1000. ring.
  - rewrite Hprivr, Hprivi. reflexivity.
Qed.

(** A wall-clock value that exists is resolved to one of its instants,
    unless it exists twice and the policy is to reject. *)
Lemma disambiguated_returns (rules : Temporal.ZoneRules) (localNs : Z)
    (d : Temporal.Disambiguation) :
  Temporal.getPossibleInstantsFor rules localNs <> [] ->
  d <> Temporal.rejectAmbiguous
  \/ List.length (Temporal.getPossibleInstantsFor rules localNs) = 1%nat ->
  exists e, Temporal.disambiguatePossibleInstants rules localNs d = Returns e.
Proof.
  intros Hsome Hpolicy. unfold Temporal.disambiguatePossibleInstants.
  destruct (Temporal.getPossibleInstantsFor rules localNs) as [|e1 rest];
    [contradiction|].
  destruct rest as [|e2 rest']; [now exists e1|].
  destruct d; try (eexists; reflexivity).
  destruct Hpolicy as [Hne|Hone]; [contradiction | discriminate].
Qed.

(** X17.  [fromPlainDateTime] over an IANA zone, for a wall-clock value
    that exists in the zone and whose instants are in range.  When the
    value exists twice and the disambiguation is ['reject'] it throws a
    RangeError.  Otherwise it returns an instance that reads back as the
    value ([toPlainDateTime()] and the twelve stored properties), sits in
    the zone given, and is at one of the possible instants of the value. *)
Theorem fromPlainDateTime_round_trip (pdt : Temporal.PlainDateTime.t)
    (timeZone : ICAL.Timezone) (options : option Temporal.Options)
    (tzid : string) (rules : Temporal.ZoneRules) :
  isSupported timeZone = true ->
  String.eqb (ICAL.tzid timeZone) "" = false ->
  Temporal.lookupTimeZone (ICAL.tzid timeZone) = Some (tzid, rules) ->
  Temporal.lookupCalendar (Temporal.pdt_calendarId pdt)
    = Some (Temporal.pdt_calendarId pdt, Temporal.pdt_calendar pdt) ->
  Temporal.getPossibleInstantsFor rules (Temporal.pdt_localNs pdt) <> [] ->
  (forall e, In e (Temporal.getPossibleInstantsFor rules (Temporal.pdt_localNs pdt)) ->
             Temporal.isValidEpochNanoseconds e = true) ->
  (Temporal.getDisambiguation options = Temporal.rejectAmbiguous ->
   (2 <= List.length (Temporal.getPossibleInstantsFor rules (Temporal.pdt_localNs pdt)))%nat ->
   ZonedDateTime.fromPlainDateTime pdt timeZone options = Throws RangeError) /\
  (Temporal.getDisambiguation options <> Temporal.rejectAmbiguous
   \/ List.length (Temporal.getPossibleInstantsFor rules (Temporal.pdt_localNs pdt)) = 1%nat ->
   exists r,
     ZonedDateTime.fromPlainDateTime pdt timeZone options = Returns r /\
     ZonedDateTime.toPlainDateTime r = Returns pdt /\
     wallClock r = fieldsOf pdt /\
     ZonedDateTime.p_timeZone (ZonedDateTime.private r) = timeZone /\
     In (ZonedDateTime.epochNanoseconds r)
        (Temporal.getPossibleInstantsFor rules (Temporal.pdt_localNs pdt))).
Proof.
  intros Hsup Hnamed Hzone Hcal Hsome Hinrange. split.
  - intros Hreject Htwice.
    unfold ZonedDateTime.fromPlainDateTime. rewrite Hnamed. simpl.
    unfold Temporal.PlainDateTime.toZonedDateTime. rewrite Hzone, Hreject.
    unfold Temporal.disambiguatePossibleInstants.
    destruct (Temporal.getPossibleInstantsFor rules (Temporal.pdt_localNs pdt))
      as [|e1 [|e2 rest]]; simpl in Htwice; [lia | lia | reflexivity].
  - intro Hpolicy.
    destruct (disambiguated_returns rules (Temporal.pdt_localNs pdt)
                (Temporal.getDisambiguation options) Hsome Hpolicy) as [e' Hdis].
    pose proof (disambiguated_possible _ _ _ _ Hsome Hdis) as Hin.
    pose proof (Hinrange e' Hin) as Hvalid.
    destruct (new_succeeds e' timeZone (Some (Temporal.pdt_calendarId pdt)) Hvalid)
      as [r Hr]; [eexists; exact Hcal | now left |].
    assert (ZonedDateTime.fromPlainDateTime pdt timeZone options = Returns r) as Hreturns.
    { unfold ZonedDateTime.fromPlainDateTime. rewrite Hnamed. simpl.
      unfold Temporal.PlainDateTime.toZonedDateTime. rewrite Hzone, Hdis. simpl.
      rewrite Hvalid. simpl. exact Hr. }
    exists r. split; [exact Hreturns|].
    destruct (fromPlainDateTime_reads_back _ _ _ _ _ _ Hsup Hnamed Hzone Hcal Hsome Hreturns)
      as [Hread [Hsame Hpossible]].
    split; [exact Hread|]. split; [|split; [exact Hsame | exact Hpossible]].
    exact (constructed_fields _ _ (fromPlainDateTime_constructed _ _ _ _ Hreturns) Hread).
Qed.

End Further.

(** * The further properties at the cookbook's events *)

Section FurtherCookbook.
Import Sample.

Lemma losAngeles_offset :
  (z <- ZonedDateTime.new losAngelesStart tzLosAngeles None ;;
   Returns (ZonedDateTime.offsetNanoseconds z)) = Returns (-25200000000000).
Proof. vm_compute. reflexivity. Qed.

Lemma localMeanTime_constructs :
  thrown (ZonedDateTime.new mountainStart tzLocalMeanTime None) = None.
Proof. vm_compute. reflexivity. Qed.

Example offset_with_seconds :
  (z <- ZonedDateTime.new mountainStart tzLocalMeanTime None ;;
   Returns (ZonedDateTime.offset z)) = Returns "-07:52:58" /\
  (z <- ZonedDateTime.new losAngelesStart tzLosAngeles None ;;
   Returns (ZonedDateTime.offset z)) = Returns "-07:00".
Proof. split; vm_compute; reflexivity. Qed.

Lemma offset_reads_back_witness :
  exists named ruled,
    ZonedDateTime.new losAngelesStart tzLosAngeles None = Returns named /\
    ZonedDateTime.new mountainStart tzLocalMeanTime None = Returns ruled /\
    parseOffset (ZonedDateTime.offset named) = Some (-25200) /\
    String.length (ZonedDateTime.offset named) = 6%nat /\
    parseOffset (ZonedDateTime.offset ruled) = Some (-28378).
Proof.
  destruct losAngeles_constructs as [Hstart _].
  destruct (not_thrown _ Hstart) as [named Hn].
  destruct (not_thrown _ localMeanTime_constructs) as [ruled Hr].
  exists named, ruled. split; [exact Hn|]. split; [exact Hr|].
  pose proof losAngeles_offset as Hoff. rewrite Hn in Hoff. simpl in Hoff.
  apply Returns_inj in Hoff.
  destruct (offset_reads_back named) as [Hgeneral _].
  destruct Hgeneral as [Hparse Hlen]; [rewrite Hoff; vm_compute; reflexivity|].
  rewrite Hoff in Hparse, Hlen. split; [exact Hparse|]. split; [exact Hlen|].
  destruct (offset_reads_back ruled) as [_ Hrule].
  apply (Hrule _ _ _ Hr).
  - vm_compute. reflexivity.
  - intro time. simpl. lia.
Defined.

Lemma nameless_wallClock1337 :
  thrown (ZonedDateTime.fromPlainDateTime wallClock1337 tzNameless None) = None.
Proof. vm_compute. reflexivity. Qed.

Lemma fromPlainDateTime_nameless_zone_witness :
  exists z,
    ZonedDateTime.fromPlainDateTime wallClock1337 tzNameless None = Returns z /\
    ZonedDateTime.epochNanoseconds z / 10^9 = 1347395820 /\
    (ZonedDateTime.millisecond z, ZonedDateTime.microsecond z, ZonedDateTime.nanosecond z)
      = (123, 456, 789) /\
    ZonedDateTime.fromPlainDateTime wallClock1337 tzNameless
      (Some (Temporal.mkOptions None (Some Temporal.rejectAmbiguous) None)) = Returns z.
Proof.
  destruct (not_thrown _ nameless_wallClock1337) as [z Hz]. exists z.
  split; [exact Hz|].
  destruct (fromPlainDateTime_nameless_zone (host := Sample.host) (ical := Sample.ical)
              wallClock1337 tzNameless None z)
    as [Hsec [_ [Hsub Hany]]].
  - reflexivity.
  - vm_compute. reflexivity.
  - exact Hz.
  - split; [rewrite Hsec; vm_compute; reflexivity|].
    split; [rewrite Hsub; vm_compute; reflexivity | apply Hany].
Defined.

Lemma mountain_Gregory_constructs :
  thrown (ZonedDateTime.new mountainStart tzMountain (Some "Gregory")) = None.
Proof. vm_compute. reflexivity. Qed.

Lemma from_clones_with_canonical_calendar_witness :
  exists z z',
    ZonedDateTime.new mountainStart tzMountain (Some "Gregory") = Returns z /\
    ZonedDateTime.from z = Returns z' /\
    ZonedDateTime.private z' = ZonedDateTime.private z /\
    wallClock z' = wallClock z /\
    ZonedDateTime.from z' = Returns z'.
Proof.
  destruct (not_thrown _ mountain_Gregory_constructs) as [z Hz].
  destruct (from_clones_with_canonical_calendar _ _ _ _ Hz)
    as [z' [H1 [H2 [H3 [_ [_ H4]]]]]].
  exists z, z'. repeat split; assumption.
Defined.

Example clone_has_the_canonical_calendar :
  (z <- ZonedDateTime.new mountainStart tzMountain (Some "Gregory") ;;
   z' <- ZonedDateTime.from z ;;
   Returns (ZonedDateTime.calendar z, ZonedDateTime.calendar z'))
    = Returns ("Gregory", "gregory").
Proof. vm_compute. reflexivity. Qed.

Lemma with_round_transition_defer_or_are_not_implemented_witness :
  exists named ruled,
    ZonedDateTime.new losAngelesStart tzLosAngeles None = Returns named /\
    ZonedDateTime.new mountainStart tzMountain None = Returns ruled /\
    ZonedDateTime.with_ ruled tt None = Throws (Error "not implemented") /\
    ZonedDateTime.round ruled tt = Throws (Error "not implemented") /\
    ZonedDateTime.getTimeZoneTransition ruled tt = Throws (Error "not implemented") /\
    ZonedDateTime.getTimeZoneTransition named tt = Returns None /\
    (exists z', ZonedDateTime.with_ named tt None = Returns z' /\
                ZonedDateTime.p_timeZone (ZonedDateTime.private z') = tzLosAngeles).
Proof.
  destruct losAngeles_constructs as [Hstart _].
  destruct (not_thrown _ Hstart) as [named Hn].
  destruct (not_thrown _ mountain_constructs) as [ruled Hr].
  destruct (with_round_transition_defer_or_are_not_implemented (host := Sample.host)
              (ical := Sample.ical) _ _ _ _ tt None tt tt Hr)
    as [Hrule _].
  destruct (Hrule ltac:(vm_compute; reflexivity)) as [H1 [H2 H3]].
  destruct (with_round_transition_defer_or_are_not_implemented (host := Sample.host)
              (ical := Sample.ical) _ _ _ _ tt None tt tt Hn)
    as [_ Hiana].
  destruct (Hiana ltac:(vm_compute; reflexivity)) as [_ [Hnone [_ [Hwith _]]]].
  destruct (new_epochNanoseconds _ _ _ _ Hn) as [_ Hvalid].
  destruct (Hwith (ZonedDateTime.impl named) eq_refl) as [z' [Hz' [_ [Hzone _]]]].
  { destruct (new_epochNanoseconds _ _ _ _ Hn) as [He Hv].
    unfold ZonedDateTime.epochNanoseconds, Temporal.ZonedDateTime.epochNanoseconds in He.
    rewrite He. exact Hv. }
  exists named, ruled. repeat split; try assumption.
  - apply Hnone. reflexivity.
  - exists z'. split; assumption.
Defined.

Lemma add_time_only_is_exact_witness :
  exists z r back,
    ZonedDateTime.new mountainStart tzMountain None = Returns z /\
    ZonedDateTime.add z PT2H30M None = Returns r /\
    ZonedDateTime.epochNanoseconds r = mountainStart + 9000 * secNs /\
    ZonedDateTime.until z r None = Returns back /\
    Temporal.timeNanoseconds back = 9000 * secNs /\
    ZonedDateTime.compare z r = -1.
Proof.
  destruct (not_thrown _ mountain_constructs) as [z Hz].
  destruct (add_time_only_is_exact _ _ _ _ PT2H30M None Hz) as [Hok _].
  - right. intro time. simpl. lia.
  - reflexivity.
  - reflexivity.
  - destruct (Hok ltac:(vm_compute; reflexivity)) as [r [back [H1 [H2 [_ [_ [H3 [H4 H5]]]]]]]].
    exists z, r, back. repeat split; assumption.
Defined.

Lemma constructor_returns_or_throws_RangeError_witness :
  (exists z, ZonedDateTime.new mountainStart tzMountain (Some "gregory") = Returns z) /\
  thrown (ZonedDateTime.new mountainStart tzMountain (Some "julian")) = Some RangeError.
Proof.
  destruct (constructor_returns_or_throws_RangeError (host := Sample.host)
              (ical := Sample.ical) mountainStart tzMountain (Some "gregory"))
    as [_ Hiff].
  destruct (constructor_returns_or_throws_RangeError (host := Sample.host)
              (ical := Sample.ical) mountainStart tzMountain (Some "julian"))
    as [[Hnone|Hrange] Hiff'].
  - exfalso.
    assert (offsetsBelowOneDay tzMountain) as Hbound by (intro time; simpl; lia).
    destruct (not_thrown _ Hnone) as [z Hz].
    destruct (proj1 (Hiff' (or_intror Hbound)) (ex_intro _ z Hz)) as [_ [found Hfound]].
    vm_compute in Hfound. discriminate.
  - split; [|exact Hrange].
    apply Hiff.
    + right. intro time. simpl. lia.
    + split; [vm_compute; reflexivity|].
      exists ("gregory", gregory). reflexivity.
Defined.

Lemma toPlainDate_toPlainTime_recombine_witness :
  exists z date time,
    ZonedDateTime.new losAngelesStart tzLosAngeles None = Returns z /\
    ZonedDateTime.toPlainDate z = Returns date /\
    ZonedDateTime.toPlainTime z = Returns time /\
    Temporal.pd_epochDay date * Temporal.nsPerDay + Temporal.PlainTime.nanosecondOfDay time
      = losAngelesStart - 25200000000000.
Proof.
  destruct losAngeles_constructs as [Hstart _].
  destruct (not_thrown _ Hstart) as [z Hz].
  destruct (toPlainDate_toPlainTime_recombine _ _ _ _ Hz)
    as [date [time [H1 [H2 [_ [_ [_ [H3 _]]]]]]]].
  exists z, date, time. split; [exact Hz|]. split; [exact H1|]. split; [exact H2|].
  rewrite H3. destruct (new_epochNanoseconds _ _ _ _ Hz) as [He _]. rewrite He.
  pose proof losAngeles_offset as Hoff. rewrite Hz in Hoff. simpl in Hoff.
  injection Hoff as Hoff. rewrite Hoff. reflexivity.
Defined.

Lemma sampleProgramLonger_length : List.length (Program.run sampleProgramLonger) = 4%nat.
Proof. vm_compute. reflexivity. Qed.

Lemma sampleProgramLonger_last_isIANA :
  match nth_error (Program.run sampleProgramLonger) 3 with
  | Some z => ZonedDateTime.isIANA z
  | None => true
  end = false.
Proof. vm_compute. reflexivity. Qed.

Lemma held_instances_keep_their_slots_consistent_witness :
  exists z,
    nth_error (Program.run sampleProgramLonger) 3 = Some z /\
    ZonedDateTime.isIANA z = false /\
    ZonedDateTime.timeZone z = None /\
    Temporal.zdt_timeZoneId (ZonedDateTime.impl z) = "UTC".
Proof.
  pose proof sampleProgramLonger_last_isIANA as Hrule.
  destruct (nth_error (Program.run sampleProgramLonger) 3) as [z|] eqn:Hz.
  - exists z. split; [reflexivity|].
    destruct (held_instances_keep_their_slots_consistent sampleProgramLonger 3 z Hz)
      as [_ [Htz [_ [Hutc _]]]].
    rewrite Hrule in Htz. split; [exact Hrule|]. split; [exact Htz|].
    exact (proj1 (Hutc Hrule)).
  - exfalso. apply nth_error_None in Hz. rewrite sampleProgramLonger_length in Hz. lia.
Defined.

Lemma compare_agrees_with_until_and_equals_witness :
  exists a b,
    ZonedDateTime.new losAngelesStart tzLosAngeles None = Returns a /\
    ZonedDateTime.new losAngelesEnd tzLosAngeles None = Returns b /\
    ZonedDateTime.compare a b = -1 /\ ZonedDateTime.compare b a = 1 /\
    ZonedDateTime.compare a a = 0.
Proof.
  destruct losAngeles_constructs as [Hstart Hend].
  destruct (not_thrown _ Hstart) as [a Ha]. destruct (not_thrown _ Hend) as [b Hb].
  destruct (new_epochNanoseconds _ _ _ _ Ha) as [Hea _].
  destruct (new_epochNanoseconds _ _ _ _ Hb) as [Heb _].
  destruct (compare_agrees_with_until_and_equals a b) as [_ [_ [Hanti _]]].
  destruct (compare_agrees_with_until_and_equals a a) as [_ [Hzero _]].
  assert (ZonedDateTime.compare a b = -1) as Hab.
  { unfold ZonedDateTime.compare, Temporal.ZonedDateTime.compare.
    unfold ZonedDateTime.epochNanoseconds, Temporal.ZonedDateTime.epochNanoseconds in Hea, Heb.
    rewrite Hea, Heb. reflexivity. }
  exists a, b. repeat split; try assumption.
  - rewrite Hanti, Hab. reflexivity.
  - apply Hzero. reflexivity.
Defined.

Lemma withPlainTime_throws_on_every_named_rule_based_zone_witness :
  exists z,
    ZonedDateTime.new mountainStart tzMountain None = Returns z /\
    ZonedDateTime.withPlainTime z time1337 = Throws RangeError.
Proof.
  destruct (not_thrown _ mountain_constructs) as [z Hz]. exists z. split; [exact Hz|].
  apply (withPlainTime_throws_on_every_named_rule_based_zone _ _ _ _ time1337 Hz).
  - reflexivity.
  - vm_compute. reflexivity.
Defined.

Lemma mountain_fromInstant :
  thrown (ZonedDateTime.fromInstant (Temporal.Instant.fromEpochMilliseconds (1671638400 * 1000))
            tzMountain None) = None.
Proof. vm_compute. reflexivity. Qed.

Lemma fromInstant_at_a_unix_second_witness :
  exists z,
    ZonedDateTime.fromInstant (Temporal.Instant.fromEpochMilliseconds (1671638400 * 1000)) tzMountain None
      = Returns z /\
    ZonedDateTime.epochMilliseconds z = 1671638400 * 1000 /\
    ZonedDateTime.offsetNanoseconds z = -25200 * 10^9.
Proof.
  destruct (not_thrown _ mountain_fromInstant) as [z Hz]. exists z. split; [exact Hz|].
  destruct (fromInstant_at_a_unix_second _ _ _ _ Hz) as [_ [Hms [_ Hoff]]].
  split; [exact Hms|]. rewrite Hoff by (vm_compute; reflexivity). reflexivity.
Defined.

Lemma losAngeles_withPlainTime :
  thrown (z <- ZonedDateTime.new losAngelesStart tzLosAngeles None ;;
          ZonedDateTime.withPlainTime z time1337) = None /\
  (z <- ZonedDateTime.new losAngelesStart tzLosAngeles None ;;
   pdt <- ZonedDateTime.toPlainDateTime z ;;
   Returns (Temporal.getPossibleInstantsFor (Temporal.zdt_rules (ZonedDateTime.impl z))
              (Temporal.pdt_localNs (Temporal.PlainDateTime.withPlainTime pdt time1337))))
    = Returns [1347395820000000000] /\
  (z <- ZonedDateTime.new losAngelesStart tzLosAngeles None ;;
   pdt <- ZonedDateTime.toPlainDateTime z ;;
   Returns (fieldsOf (Temporal.PlainDateTime.withPlainTime pdt time1337)))
    = Returns (None, None, 2012, 9, "M09", 11, 13, 37, 0, 0, 0, 0).
Proof. repeat split; vm_compute; reflexivity. Qed.

Lemma losAngeles_startOfDay :
  thrown (z <- ZonedDateTime.new losAngelesStart tzLosAngeles None ;;
          ZonedDateTime.startOfDay z) = None /\
  (z <- ZonedDateTime.new losAngelesStart tzLosAngeles None ;;
   pdt <- ZonedDateTime.toPlainDateTime z ;;
   Returns (Temporal.getPossibleInstantsFor (Temporal.zdt_rules (ZonedDateTime.impl z))
              (Temporal.PlainDateTime.epochDay pdt * Temporal.nsPerDay)))
    = Returns [1347346800000000000] /\
  (z <- ZonedDateTime.new losAngelesStart tzLosAngeles None ;;
   Returns (ZonedDateTime.era z, ZonedDateTime.eraYear z, ZonedDateTime.year z,
            ZonedDateTime.month z, ZonedDateTime.monthCode z, ZonedDateTime.day z,
            0, 0, 0, 0, 0, 0))
    = Returns (None, None, 2012, 9, "M09", 11, 0, 0, 0, 0, 0, 0).
Proof. repeat split; vm_compute; reflexivity. Qed.

Lemma withPlainTime_sets_the_wall_clock_witness :
  exists z r,
    ZonedDateTime.new losAngelesStart tzLosAngeles None = Returns z /\
    ZonedDateTime.withPlainTime z time1337 = Returns r /\
    wallClock r = (None, None, 2012, 9, "M09", 11, 13, 37, 0, 0, 0, 0).
Proof.
  destruct losAngeles_constructs as [Hstart _].
  destruct (not_thrown _ Hstart) as [z Hz].
  destruct losAngeles_withPlainTime as [Hok [Hpossible Hreading]].
  rewrite Hz in Hok, Hpossible, Hreading.
  cbv beta iota delta [bind] in Hok, Hpossible, Hreading.
  destruct (not_thrown _ Hok) as [r Hr].
  destruct (ZonedDateTime.toPlainDateTime z) as [pdt|err] eqn:Hpdt; [|discriminate].
  apply Returns_inj in Hpossible, Hreading.
  destruct (withPlainTime_sets_the_wall_clock _ _ _ z r pdt time1337 Hz) as [_ [Hfields _]].
  - vm_compute. reflexivity.
  - reflexivity.
  - exact Hpdt.
  - rewrite Hpossible. discriminate.
  - exact Hr.
  - exists z, r. split; [exact Hz|]. split; [exact Hr|].
    rewrite Hfields. exact Hreading.
Defined.

Lemma startOfDay_reads_midnight_witness :
  exists z r,
    ZonedDateTime.new losAngelesStart tzLosAngeles None = Returns z /\
    ZonedDateTime.startOfDay z = Returns r /\
    wallClock r = (None, None, 2012, 9, "M09", 11, 0, 0, 0, 0, 0, 0).
Proof.
  destruct losAngeles_constructs as [Hstart _].
  destruct (not_thrown _ Hstart) as [z Hz].
  destruct losAngeles_startOfDay as [Hok [Hpossible Hdate]].
  rewrite Hz in Hok, Hpossible, Hdate.
  cbv beta iota delta [bind] in Hok, Hpossible, Hdate.
  destruct (not_thrown _ Hok) as [r Hr].
  destruct (ZonedDateTime.toPlainDateTime z) as [pdt|err] eqn:Hpdt; [|discriminate].
  apply Returns_inj in Hpossible, Hdate.
  destruct (startOfDay_reads_midnight _ _ _ z r pdt Hz) as [Hfields _].
  - vm_compute. reflexivity.
  - reflexivity.
  - exact Hpdt.
  - rewrite Hpossible. discriminate.
  - exact Hr.
  - exists z, r. split; [exact Hz|]. split; [exact Hr|].
    rewrite Hfields. exact Hdate.
Defined.



(** With a largestUnit of nanosecond the composition can fall short: from
    the epoch to an instant 1671638400123456789 nanoseconds later,
    [z.add(z.until(other))] stops 21 nanoseconds before [other]. *)
Example until_then_add_can_fall_short :
  (z <- ZonedDateTime.new 0 tzMountain None ;;
   other <- ZonedDateTime.new 1671638400123456789 tzMountain None ;;
   d <- ZonedDateTime.until z other
          (Some (Temporal.mkOptions None None (Some Temporal.unit_nanosecond))) ;;
   r <- ZonedDateTime.add z d None ;;
   Returns (ZonedDateTime.epochNanoseconds r - ZonedDateTime.epochNanoseconds other,
            ZonedDateTime.compare r other))
    = Returns (-21, -1).
Proof. vm_compute. reflexivity. Qed.

Lemma losAngeles_wallClocks :
  Temporal.getPossibleInstantsFor losAngeles (Temporal.pdt_localNs wallClock1337)
    = [1347395820123456789] /\
  Temporal.getPossibleInstantsFor losAngeles (Temporal.pdt_localNs wallClockTwice)
    = [1352017800000000000; 1352021400000000000].
Proof. split; vm_compute; reflexivity. Qed.

Lemma fromPlainDateTime_round_trip_witness :
  (exists r,
     ZonedDateTime.fromPlainDateTime wallClock1337 tzLosAngeles
       (Some (Temporal.mkOptions None (Some Temporal.rejectAmbiguous) None)) = Returns r /\
     ZonedDateTime.toPlainDateTime r = Returns wallClock1337 /\
     ZonedDateTime.epochNanoseconds r = 1347395820123456789) /\
  (exists r,
     ZonedDateTime.fromPlainDateTime wallClockTwice tzLosAngeles None = Returns r /\
     ZonedDateTime.toPlainDateTime r = Returns wallClockTwice) /\
  ZonedDateTime.fromPlainDateTime wallClockTwice tzLosAngeles
    (Some (Temporal.mkOptions None (Some Temporal.rejectAmbiguous) None))
    = Throws RangeError.
Proof.
  destruct losAngeles_wallClocks as [Honce Htwice].
  assert (forall pdt options,
             Temporal.lookupCalendar (Temporal.pdt_calendarId pdt)
               = Some (Temporal.pdt_calendarId pdt, Temporal.pdt_calendar pdt) ->
             Temporal.getPossibleInstantsFor losAngeles (Temporal.pdt_localNs pdt) <> [] ->
             (forall e,
                 In e (Temporal.getPossibleInstantsFor losAngeles (Temporal.pdt_localNs pdt)) ->
                 Temporal.isValidEpochNanoseconds e = true) ->
             _) as Hat
    by (intros pdt options;
        exact (fromPlainDateTime_round_trip (host := Sample.host) (ical := Sample.ical)
                 pdt tzLosAngeles options "America/Los_Angeles" losAngeles
                 ltac:(vm_compute; reflexivity) eq_refl eq_refl)).
  split; [|split].
  - destruct (Hat wallClock1337
                (Some (Temporal.mkOptions None (Some Temporal.rejectAmbiguous) None)))
      as [_ Hreturns].
    + reflexivity.
    + rewrite Honce. discriminate.
    + rewrite Honce. intros e [<-|[]]. vm_compute. reflexivity.
    + destruct Hreturns as [r [Hr [Hread [_ [_ Hin]]]]];
        [right; rewrite Honce; reflexivity|].
      exists r. split; [exact Hr|]. split; [exact Hread|].
      rewrite Honce in Hin. destruct Hin as [Hin|[]]. symmetry. exact Hin.
  - destruct (Hat wallClockTwice None) as [_ Hreturns].
    + reflexivity.
    + rewrite Htwice. discriminate.
    + rewrite Htwice. intros e [<-|[<-|[]]]; vm_compute; reflexivity.
    + destruct Hreturns as [r [Hr [Hread _]]]; [left; discriminate|].
      exists r. split; [exact Hr | exact Hread].
  - destruct (Hat wallClockTwice
                (Some (Temporal.mkOptions None (Some Temporal.rejectAmbiguous) None)))
      as [Hthrows _].
    + reflexivity.
    + rewrite Htwice. discriminate.
    + rewrite Htwice. intros e [<-|[<-|[]]]; vm_compute; reflexivity.
    + apply Hthrows; [reflexivity | rewrite Htwice; simpl; lia].
Defined.

Lemma nameless_add :
  thrown (ZonedDateTime.new mountainStart tzNameless None) = None /\
  thrown (z <- ZonedDateTime.new mountainStart tzNameless None ;;
          ZonedDateTime.add z P1Y3DT2H30M None) = None /\
  (z <- ZonedDateTime.new mountainStart tzNameless None ;;
   Returns (ZonedDateTime.isIANA z,
            ICAL.tzid (ZonedDateTime.p_timeZone (ZonedDateTime.private z))))
    = Returns (false, "").
Proof. repeat split; vm_compute; reflexivity. Qed.

Lemma add_over_a_nameless_zone_goes_through_ical_witness :
  exists z r pdt,
    ZonedDateTime.new mountainStart tzNameless None = Returns z /\
    ZonedDateTime.add z P1Y3DT2H30M None = Returns r /\
    ZonedDateTime.epochNanoseconds r
      = ICAL.toUnixTime (ICAL.Time_new pdt tzNameless) * 10^9
        + (Temporal.PlainDateTime.millisecond pdt * 10^6
           + Temporal.PlainDateTime.microsecond pdt * 10^3
           + Temporal.PlainDateTime.nanosecond pdt)
        + 9000 * secNs.
Proof.
  destruct nameless_add as [Hnew [Hok Hslots]].
  destruct (not_thrown _ Hnew) as [z Hz]. rewrite Hz in Hok, Hslots.
  cbv beta iota delta [bind] in Hok, Hslots.
  apply Returns_inj in Hslots.
  assert (ZonedDateTime.isIANA z = false) as Hrule by congruence.
  assert (ICAL.tzid (ZonedDateTime.p_timeZone (ZonedDateTime.private z)) = "") as Hname
    by congruence.
  destruct (not_thrown _ Hok) as [r Hr].
  destruct (add_over_a_nameless_zone_goes_through_ical z r P1Y3DT2H30M None
              Hrule Hname eq_refl eq_refl Hr) as [pdt0 [pdt [_ [_ [He Hzone]]]]].
  destruct (new_inv _ _ _ _ Hz) as [impl [pdt1 [_ [Hpriv _]]]].
  rewrite Hpriv in He. simpl in He.
  exists z, r, pdt. split; [exact Hz|]. split; [exact Hr|]. exact He.
Defined.

End FurtherCookbook.
